(** * The playback core of the music player (src/music_player.py)

    A shallow embedding of the [MusicPlayer] class: the playlist view and
    its cursor, the transport flags, the volume, the two audio backends
    (python-vlc and pygame.mixer.music) behind the [_backend_*] helpers,
    the two timer callbacks ([check_song_end], [update_progress]) and the
    title lookup [get_song_info].

    Conventions of the model.
    - A Python [str] is the list of its Unicode code points.
    - A Python [float] is a primitive binary64 float; [int] is [Z].
    - A Python exception is a value of [exn]; code that may raise returns
      a [res].
    - The libraries the class drives (pygame, python-vlc, mutagen, the file
      system, Tk) are not part of the repository: their observable state is
      the record [Audio], their file-dependent answers are the record
      [Env], and what the class shows through Tk (message boxes, timers,
      the widgets the playback core writes) is the record [Gui].
    - Widgets that only carry colours, glyphs or the formatted time label
      are left out.
    - [play_song], [check_song_end] and [next_song] call each other
      without a bound of their own.  The model gives them the room
      [depth] the recursion limit of the interpreter leaves; the call that
      no longer fits raises [RecursionError], which [play_song] catches
      like any other exception. *)

From Stdlib Require Import ZArith List Bool Ascii String Lia Uint63.
From Stdlib Require Import SpecFloat PrimFloat FloatOps FloatAxioms.
From stdpp Require Import gmap.
Import ListNotations.

Open Scope Z_scope.

Set Warnings "-inexact-float".

(** ** Python strings *)

Abbreviation str := (list N).

(** A literal of the source, written as a Rocq string of ASCII characters. *)
Definition u (s : string) : str := List.map N_of_ascii (list_ascii_of_string s).

Definition nl : str := [10%N].

Module PyStr.

Fixpoint eqb (a b : str) : bool :=
  match a, b with
  | [], [] => true
  | x :: a', y :: b' => N.eqb x y && eqb a' b'
  | _, _ => false
  end.

(** [s.startswith(p)] *)
Fixpoint startswith (p s : str) : bool :=
  match p, s with
  | [], _ => true
  | x :: p', y :: s' => N.eqb x y && startswith p' s'
  | _ :: _, [] => false
  end.

(** [p in s] *)
Fixpoint contains (p s : str) : bool :=
  startswith p s ||
  match s with
  | [] => false
  | _ :: s' => contains p s'
  end.

(** Py_UNICODE_ISSPACE: the code points [str.strip()] removes and the
    regular expression class [\s] matches on a [str]. *)
Definition isspace (c : N) : bool :=
  ((9 <=? c) && (c <=? 13) || (28 <=? c) && (c <=? 32) ||
   (c =? 133) || (c =? 160) || (c =? 5760) ||
   (8192 <=? c) && (c <=? 8202) || (c =? 8232) || (c =? 8233) ||
   (c =? 8239) || (c =? 8287) || (c =? 12288))%N.

Fixpoint lstrip (s : str) : str :=
  match s with
  | [] => []
  | c :: s' => if isspace c then lstrip s' else s
  end.

Definition rstrip (s : str) : str := rev (lstrip (rev s)).

(** [s.strip()] *)
Definition strip (s : str) : str := rstrip (lstrip s).

(** [s.split(sep)] for a non-empty [sep]: a left-to-right scan for
    non-overlapping occurrences.  [skip] counts the characters of a
    matched separator still to be dropped, [cur] is the part being read,
    reversed. *)
Fixpoint split_scan (sep s : str) (skip : nat) (cur : str) : list str :=
  match s with
  | [] => [rev cur]
  | c :: s' =>
      match skip with
      | S k => split_scan sep s' k cur
      | O =>
          if startswith sep s
          then rev cur :: split_scan sep s' (Nat.pred (List.length sep)) []
          else split_scan sep s' O (c :: cur)
      end
  end.

Definition split (sep s : str) : list str := split_scan sep s O [].

(** [l[-1]] on a list of strings that is never empty here. *)
Definition last_part (l : list str) : str := List.last l [].

End PyStr.

(** [l[i]] with Python's negative indices; [None] is IndexError. *)
Definition py_getitem {A} (l : list A) (i : Z) : option A :=
  let n := Z.of_nat (List.length l) in
  if i <? 0
  then if i + n <? 0 then None else nth_error l (Z.to_nat (i + n))
  else nth_error l (Z.to_nat i).

(** [l.remove(x)]: drops the first occurrence. *)
Fixpoint py_remove (x : str) (l : list str) : list str :=
  match l with
  | [] => []
  | y :: l' => if PyStr.eqb x y then l' else y :: py_remove x l'
  end.

(** [x in l] *)
Definition py_in (x : str) (l : list str) : bool := existsb (PyStr.eqb x) l.

(** ** Exceptions *)

Inductive exn : Type :=
| pygame_error (msg : str)      (* pygame.error *)
| Exception (msg : str)         (* a plain Exception(msg) *)
| IndexError                    (* list index out of range *)
| ValueError (msg : str)
| OverflowError (msg : str)
| LibraryError (msg : str)      (* anything else a library call raises *)
| RecursionError.               (* maximum recursion depth exceeded *)

(** [str(e)] *)
Definition exn_str (e : exn) : str :=
  match e with
  | pygame_error m | Exception m | ValueError m | OverflowError m | LibraryError m => m
  | IndexError => u "list index out of range"
  | RecursionError => u "maximum recursion depth exceeded"
  end.

Inductive res (A : Type) : Type :=
| Ret (a : A)
| Raise (e : exn).
Arguments Ret {A} a.
Arguments Raise {A} e.

(** ** Python floats and ints *)

Module PyFloat.

(** [float(z)] for an int that fits a signed 64-bit word, as the
    millisecond clocks of both libraries do. *)
Definition of_int (z : Z) : float :=
  if z <? 0 then PrimFloat.opp (PrimFloat.of_uint63 (Uint63.of_Z (- z)))
  else PrimFloat.of_uint63 (Uint63.of_Z z).

(** [int(f)]: truncation toward zero; raises on nan and the infinities. *)
Definition to_int (f : float) : res Z :=
  match Prim2SF f with
  | S754_zero _ => Ret 0
  | S754_finite s m e =>
      let a := if 0 <=? e then Z.pos m * 2 ^ e else Z.pos m / 2 ^ (- e) in
      Ret (if s then - a else a)
  | S754_infinity _ => Raise (OverflowError (u "cannot convert float infinity to integer"))
  | S754_nan => Raise (ValueError (u "cannot convert float NaN to integer"))
  end.

(** [max(a, b)]: the first argument unless the second is greater. *)
Definition max (a b : float) : float := if PrimFloat.ltb a b then b else a.

(** [min(a, b)]: the first argument unless the second is smaller. *)
Definition min (a b : float) : float := if PrimFloat.ltb b a then b else a.

(** Truth value of a float: false exactly on zero. *)
Definition truthy (f : float) : bool := negb (PrimFloat.eqb f 0%float).

End PyFloat.


(** ** The world outside the class *)

(** What [mutagen.File(path)] returns: a dictionary of tags and, when the
    format gives one, [info.length] in seconds. *)
Record audio_file : Type := {
  tag : str -> option (list str);
  info_length : option float
}.

(** The answers that depend on a path only. [normpath] is [os.path.normpath];
    [music_load] is what [pygame.mixer.music.load] raises for that file, if
    anything; [isdecimal] is Py_UNICODE_ISDECIMAL, the class [\d] of a
    regular expression over [str]. *)
Record Env : Type := {
  path_exists : str -> bool;
  normpath : str -> str;
  MutagenFile : str -> res (option audio_file);
  music_load : str -> option exn;
  isdecimal : N -> bool
}.

(** The state of the two audio libraries.  [mixer_init] is
    [pygame.mixer.get_init()]: without it every [pygame.mixer.music] call
    raises.  [vlc_query_fault], when set, is what the queries of the VLC
    player raise.  The clocks ([music_pos], [vlc_time], [vlc_length]) are
    advanced by the libraries between two calls of the class. *)
Record Audio : Type := {
  mixer_init : bool;
  music_file : option str;
  music_busy : bool;
  music_pos : Z;
  music_volume : float;
  vlc_media : option str;
  vlc_is_playing : Z;
  vlc_time : Z;
  vlc_length : Z;
  vlc_volume : Z;
  vlc_query_fault : option exn
}.

Inductive callback : Type := cb_check_song_end | cb_update_progress.

(** What the class asks of Tk: message boxes and [root.after] timers. *)
Inductive event : Type :=
| showwarning (title msg : str)
| showerror (title msg : str)
| showinfo (title msg : str)
| after (ms : Z) (cb : callback).

Record Gui : Type := {
  song_listbox : list str;
  playlist_title_label : str;
  current_song_label : str;
  progress_var : float;
  trace : list event
}.

(** The fields of [MusicPlayer] set under "Player state" and "Audio
    backend" in [__init__].  [_vlc_instance] and [_vlc_player] record
    whether the attribute holds an object ([true]) or [None]. *)
Record Player : Type := {
  _use_vlc : bool;
  _vlc_instance : bool;
  _vlc_player : bool;
  all_songs : list str;
  favourites : list str;
  playlists : gmap str (list str);
  current_playlist_name : str;
  current_playlist : list str;
  current_index : Z;
  is_playing : bool;
  is_paused : bool;
  volume : float
}.

Record State : Type := {
  player : Player;
  audio : Audio;
  gui : Gui
}.

(** *** Field updates *)

Definition set_playlists (v : gmap str (list str)) (p : Player) : Player :=
  {| _use_vlc := _use_vlc p; _vlc_instance := _vlc_instance p; _vlc_player := _vlc_player p;
     all_songs := all_songs p; favourites := favourites p; playlists := v;
     current_playlist_name := current_playlist_name p; current_playlist := current_playlist p;
     current_index := current_index p; is_playing := is_playing p; is_paused := is_paused p;
     volume := volume p |}.

Definition set_current_playlist_name (v : str) (p : Player) : Player :=
  {| _use_vlc := _use_vlc p; _vlc_instance := _vlc_instance p; _vlc_player := _vlc_player p;
     all_songs := all_songs p; favourites := favourites p; playlists := playlists p;
     current_playlist_name := v; current_playlist := current_playlist p;
     current_index := current_index p; is_playing := is_playing p; is_paused := is_paused p;
     volume := volume p |}.

Definition set_current_playlist (v : list str) (p : Player) : Player :=
  {| _use_vlc := _use_vlc p; _vlc_instance := _vlc_instance p; _vlc_player := _vlc_player p;
     all_songs := all_songs p; favourites := favourites p; playlists := playlists p;
     current_playlist_name := current_playlist_name p; current_playlist := v;
     current_index := current_index p; is_playing := is_playing p; is_paused := is_paused p;
     volume := volume p |}.

Definition set_current_index (v : Z) (p : Player) : Player :=
  {| _use_vlc := _use_vlc p; _vlc_instance := _vlc_instance p; _vlc_player := _vlc_player p;
     all_songs := all_songs p; favourites := favourites p; playlists := playlists p;
     current_playlist_name := current_playlist_name p; current_playlist := current_playlist p;
     current_index := v; is_playing := is_playing p; is_paused := is_paused p;
     volume := volume p |}.

Definition set_is_playing (v : bool) (p : Player) : Player :=
  {| _use_vlc := _use_vlc p; _vlc_instance := _vlc_instance p; _vlc_player := _vlc_player p;
     all_songs := all_songs p; favourites := favourites p; playlists := playlists p;
     current_playlist_name := current_playlist_name p; current_playlist := current_playlist p;
     current_index := current_index p; is_playing := v; is_paused := is_paused p;
     volume := volume p |}.

Definition set_is_paused (v : bool) (p : Player) : Player :=
  {| _use_vlc := _use_vlc p; _vlc_instance := _vlc_instance p; _vlc_player := _vlc_player p;
     all_songs := all_songs p; favourites := favourites p; playlists := playlists p;
     current_playlist_name := current_playlist_name p; current_playlist := current_playlist p;
     current_index := current_index p; is_playing := is_playing p; is_paused := v;
     volume := volume p |}.

Definition set_volume_field (v : float) (p : Player) : Player :=
  {| _use_vlc := _use_vlc p; _vlc_instance := _vlc_instance p; _vlc_player := _vlc_player p;
     all_songs := all_songs p; favourites := favourites p; playlists := playlists p;
     current_playlist_name := current_playlist_name p; current_playlist := current_playlist p;
     current_index := current_index p; is_playing := is_playing p; is_paused := is_paused p;
     volume := v |}.

Definition with_player (f : Player -> Player) (st : State) : State :=
  {| player := f (player st); audio := audio st; gui := gui st |}.

Definition with_audio (f : Audio -> Audio) (st : State) : State :=
  {| player := player st; audio := f (audio st); gui := gui st |}.

Definition with_gui (f : Gui -> Gui) (st : State) : State :=
  {| player := player st; audio := audio st; gui := f (gui st) |}.

(** Tk records one more request. *)
Definition emit (e : event) (g : Gui) : Gui :=
  {| song_listbox := song_listbox g; playlist_title_label := playlist_title_label g;
     current_song_label := current_song_label g; progress_var := progress_var g;
     trace := trace g ++ [e] |}.

Definition set_song_listbox (v : list str) (g : Gui) : Gui :=
  {| song_listbox := v; playlist_title_label := playlist_title_label g;
     current_song_label := current_song_label g; progress_var := progress_var g;
     trace := trace g |}.

Definition set_playlist_title_label (v : str) (g : Gui) : Gui :=
  {| song_listbox := song_listbox g; playlist_title_label := v;
     current_song_label := current_song_label g; progress_var := progress_var g;
     trace := trace g |}.

Definition set_current_song_label (v : str) (g : Gui) : Gui :=
  {| song_listbox := song_listbox g; playlist_title_label := playlist_title_label g;
     current_song_label := v; progress_var := progress_var g;
     trace := trace g |}.

Definition set_progress_var (v : float) (g : Gui) : Gui :=
  {| song_listbox := song_listbox g; playlist_title_label := playlist_title_label g;
     current_song_label := current_song_label g; progress_var := v;
     trace := trace g |}.

(** ** Title lookup: [get_song_info] *)

(** [os.path] is [posixpath]: the separator is [/] and there is no drive. *)
Module OsPath.

Definition slash : N := 47%N.
Definition dot : N := 46%N.

Fixpoint basename_scan (s cur : str) : str :=
  match s with
  | [] => rev cur
  | c :: s' => if N.eqb c slash then basename_scan s' [] else basename_scan s' (c :: cur)
  end.

(** [os.path.basename(p)]: what follows the last [/]. *)
Definition basename (p : str) : str := basename_scan p [].

(** [p.rfind(c)], [-1] when [c] does not occur. *)
Fixpoint rfind_from (c : N) (s : str) (i found : Z) : Z :=
  match s with
  | [] => found
  | x :: s' => rfind_from c s' (i + 1) (if N.eqb x c then i else found)
  end.

Definition rfind (c : N) (s : str) : Z := rfind_from c s 0 (-1).

(** [p[a:b]] for [0 <= a]. *)
Definition slice (p : str) (a b : Z) : str :=
  firstn (Z.to_nat (b - a)) (skipn (Z.to_nat a) p).

(** [os.path.splitext(p)[0]]: the extension starts at the last dot of
    the last component, unless only dots come before it there. *)
Definition splitext_root (p : str) : str :=
  let sepIndex := rfind slash p in
  let dotIndex := rfind dot p in
  if sepIndex <? dotIndex
  then if existsb (fun ch => negb (N.eqb ch dot)) (slice p (sepIndex + 1) dotIndex)
       then firstn (Z.to_nat dotIndex) p
       else p
  else p.

End OsPath.

Section Title.

Variable E : Env.

(** [str(v[0]).strip()] on a tag value. *)
Definition first_text (v : list str) : res str :=
  match v with
  | [] => Raise IndexError
  | x :: _ => Ret (PyStr.strip x)
  end.

(** A tag value is true when it is there and not empty. *)
Definition tag_truthy (o : option (list str)) : bool :=
  match o with
  | Some (_ :: _) => true
  | _ => false
  end.

(** The chain of tests on the tag formats: ['TIT2' in f], ['TITLE' in f],
    then [f.get('TITLE')], [f.get('TIT2')].  [None] is Python's [None]. *)
Definition tagged_title (f : audio_file) : res (option str) :=
  match tag f (u "TIT2") with
  | Some v => match first_text v with Ret t => Ret (Some t) | Raise e => Raise e end
  | None =>
      match tag f (u "TITLE") with
      | Some v => match first_text v with Ret t => Ret (Some t) | Raise e => Raise e end
      | None =>
          if tag_truthy (tag f (u "TITLE"))
          then match first_text (default [] (tag f (u "TITLE"))) with
               | Ret t => Ret (Some t) | Raise e => Raise e end
          else if tag_truthy (tag f (u "TIT2"))
          then match first_text (default [] (tag f (u "TIT2"))) with
               | Ret t => Ret (Some t) | Raise e => Raise e end
          else Ret None
      end
  end.

(** [title and title != 'Unknown' and title != ''] *)
Definition usable_title (t : option str) : bool :=
  match t with
  | None => false
  | Some t =>
      negb (PyStr.eqb t []) && negb (PyStr.eqb t (u "Unknown")) && negb (PyStr.eqb t [])
  end.

(** The body of the [try] block: [Ret (Some t)] is [return t], [Ret None]
    falls through to the filename. *)
Definition metadata_title (file_path : str) : res (option str) :=
  match MutagenFile E file_path with
  | Raise e => Raise e
  | Ret None => Ret None
  | Ret (Some f) =>
      match tagged_title f with
      | Raise e => Raise e
      | Ret t => if usable_title t then Ret t else Ret None
      end
  end.

(** The separators as the source file holds them. *)
Definition separators : list str :=
  [ u " - ";
    [32; 8218; 196; 236; 32]%N;
    [32; 8218; 196; 238; 32]%N;
    u "-";
    u "_" ].

(** The [for sep in separators] loop with its [break]. *)
Fixpoint strip_artist (seps : list str) (song_name : str) : str :=
  match seps with
  | [] => song_name
  | sep :: seps' =>
      if PyStr.contains sep song_name
      then let parts := PyStr.split sep song_name in
           if (1 <? List.length parts)%nat
           then PyStr.strip (PyStr.last_part parts)
           else strip_artist seps' song_name
      else strip_artist seps' song_name
  end.

(** The class [[.\s\-_]]. *)
Definition track_punct (c : N) : bool :=
  N.eqb c 46 || PyStr.isspace c || N.eqb c 45 || N.eqb c 95.

Fixpoint skip_while (p : N -> bool) (s : str) : str :=
  match s with
  | [] => []
  | c :: s' => if p c then skip_while p s' else s
  end.

(** [re.sub(r'^\d+[.\s\-_]+', '', s, count=1)]: digits and the class are
    disjoint, so the greedy match is the only one. *)
Definition strip_track_number (s : str) : str :=
  match s with
  | c :: _ =>
      if isdecimal E c
      then match skip_while (isdecimal E) s with
           | d :: r => if track_punct d then skip_while track_punct (d :: r) else s
           | [] => s
           end
      else s
  | [] => s
  end.

(** The fallback below the [try] block. *)
Definition filename_title (file_path : str) : str :=
  let filename := OsPath.basename file_path in
  let song_name := OsPath.splitext_root filename in
  let song_name := strip_artist separators song_name in
  let song_name := strip_track_number song_name in
  let song_name := PyStr.strip song_name in
  match song_name with
  | [] => u "Unknown Song"
  | _ => song_name
  end.

Definition get_song_info (file_path : str) : str :=
  match metadata_title file_path with
  | Ret (Some title) => title
  | Ret None => filename_title file_path
  | Raise _ => filename_title file_path      (* except Exception: pass *)
  end.

End Title.

Definition set_music_file (v : option str) (a : Audio) : Audio :=
  {| mixer_init := mixer_init a; music_file := v; music_busy := music_busy a;
     music_pos := music_pos a; music_volume := music_volume a; vlc_media := vlc_media a;
     vlc_is_playing := vlc_is_playing a; vlc_time := vlc_time a;
     vlc_length := vlc_length a; vlc_volume := vlc_volume a;
     vlc_query_fault := vlc_query_fault a |}.

Definition set_music_busy (v : bool) (a : Audio) : Audio :=
  {| mixer_init := mixer_init a; music_file := music_file a; music_busy := v;
     music_pos := music_pos a; music_volume := music_volume a; vlc_media := vlc_media a;
     vlc_is_playing := vlc_is_playing a; vlc_time := vlc_time a;
     vlc_length := vlc_length a; vlc_volume := vlc_volume a;
     vlc_query_fault := vlc_query_fault a |}.

Definition set_music_volume (v : float) (a : Audio) : Audio :=
  {| mixer_init := mixer_init a; music_file := music_file a; music_busy := music_busy a;
     music_pos := music_pos a; music_volume := v; vlc_media := vlc_media a;
     vlc_is_playing := vlc_is_playing a; vlc_time := vlc_time a;
     vlc_length := vlc_length a; vlc_volume := vlc_volume a;
     vlc_query_fault := vlc_query_fault a |}.

Definition set_vlc_media (v : option str) (a : Audio) : Audio :=
  {| mixer_init := mixer_init a; music_file := music_file a; music_busy := music_busy a;
     music_pos := music_pos a; music_volume := music_volume a; vlc_media := v;
     vlc_is_playing := vlc_is_playing a; vlc_time := vlc_time a;
     vlc_length := vlc_length a; vlc_volume := vlc_volume a;
     vlc_query_fault := vlc_query_fault a |}.

Definition set_vlc_is_playing (v : Z) (a : Audio) : Audio :=
  {| mixer_init := mixer_init a; music_file := music_file a; music_busy := music_busy a;
     music_pos := music_pos a; music_volume := music_volume a; vlc_media := vlc_media a;
     vlc_is_playing := v; vlc_time := vlc_time a; vlc_length := vlc_length a;
     vlc_volume := vlc_volume a; vlc_query_fault := vlc_query_fault a |}.

Definition set_vlc_volume (v : Z) (a : Audio) : Audio :=
  {| mixer_init := mixer_init a; music_file := music_file a; music_busy := music_busy a;
     music_pos := music_pos a; music_volume := music_volume a; vlc_media := vlc_media a;
     vlc_is_playing := vlc_is_playing a; vlc_time := vlc_time a;
     vlc_length := vlc_length a; vlc_volume := v; vlc_query_fault := vlc_query_fault a |}.

(** ** Effects: state and exceptions *)

Definition M (A : Type) : Type := State -> res A * State.

Definition ret {A} (a : A) : M A := fun st => (Ret a, st).

Definition raise {A} (e : exn) : M A := fun st => (Raise e, st).

Definition bind {A B} (m : M A) (k : A -> M B) : M B :=
  fun st =>
    match m st with
    | (Ret a, st') => k a st'
    | (Raise e, st') => (Raise e, st')
    end.

(** [try: m  except Exception as e: h e] *)
Definition try_except {A} (m : M A) (h : exn -> M A) : M A :=
  fun st =>
    match m st with
    | (Ret a, st') => (Ret a, st')
    | (Raise e, st') => h e st'
    end.

Definition modify (f : State -> State) : M unit := fun st => (Ret tt, f st).

Definition gets {A} (f : State -> A) : M A := fun st => (Ret (f st), st).

Declare Scope py_scope.
Delimit Scope py_scope with py.
Notation "x <- m ;; k" := (bind m (fun x => k))
  (at level 100, m at next level, right associativity) : py_scope.
Notation "m ;; k" := (bind m (fun _ => k))
  (at level 100, right associativity) : py_scope.

(** [messagebox.show...] and [root.after]. *)
Definition tk (e : event) : M unit := modify (with_gui (emit e)).

(** ** The two libraries *)

Module pygame_music.

Definition not_initialized : exn := pygame_error (u "mixer not initialized").

(** A call that needs the mixer and then changes its state. *)
Definition call (f : Audio -> Audio) : M unit :=
  fun st =>
    if mixer_init (audio st) then (Ret tt, with_audio f st)
    else (Raise not_initialized, st).

Definition stop : M unit := call (set_music_busy false).

(** [load]: raises what the file makes it raise; a new file replaces and
    silences the one before. *)
Definition load (E : Env) (file_path : str) : M unit :=
  fun st =>
    if mixer_init (audio st)
    then match music_load E file_path with
         | Some e => (Raise e, st)
         | None =>
             (Ret tt, with_audio (fun a => set_music_busy false (set_music_file (Some file_path) a)) st)
         end
    else (Raise not_initialized, st).

Definition play : M unit :=
  fun st =>
    if mixer_init (audio st)
    then match music_file (audio st) with
         | Some _ => (Ret tt, with_audio (set_music_busy true) st)
         | None => (Raise (pygame_error (u "music not loaded")), st)
         end
    else (Raise not_initialized, st).

Definition get_busy : M bool :=
  fun st =>
    if mixer_init (audio st) then (Ret (music_busy (audio st)), st)
    else (Raise not_initialized, st).

Definition get_pos : M Z :=
  fun st =>
    if mixer_init (audio st) then (Ret (music_pos (audio st)), st)
    else (Raise not_initialized, st).

Definition set_volume (v : float) : M unit := call (set_music_volume v).

End pygame_music.

Module vlc_player.

Definition stop : M unit := modify (with_audio (set_vlc_is_playing 0)).

(** [media_new] followed by [set_media]. *)
Definition set_media (file_path : str) : M unit :=
  modify (with_audio (set_vlc_media (Some file_path))).

Definition play : M unit := modify (with_audio (set_vlc_is_playing 1)).

Definition audio_set_volume (v : Z) : M unit := modify (with_audio (set_vlc_volume v)).

Definition query (f : Audio -> Z) : M Z :=
  fun st =>
    match vlc_query_fault (audio st) with
    | Some e => (Raise e, st)
    | None => (Ret (f (audio st)), st)
    end.

Definition is_playing : M Z := query vlc_is_playing.
Definition get_time : M Z := query vlc_time.
Definition get_length : M Z := query vlc_length.

End vlc_player.

(** ** The class [MusicPlayer] *)

Definition show (e : event) (st : State) : State := with_gui (emit e) st.

Definition lift {A} (r : res A) : M A := fun st => (r, st).

Section MusicPlayer.

Variable E : Env.

Local Open Scope py_scope.

(** *** Audio backend (VLC/pygame) *)

Definition modplug_message (msg : str) : str :=
  u "Pygame couldn't decode this file (ModPlug_load failed)." ++ nl ++ nl ++
  u "Fix: install VLC backend:" ++ nl ++
  u "  pip install python-vlc" ++ nl ++
  u "and install VLC player on Windows." ++ nl ++ nl ++
  u "Original error: " ++ msg.

(** The [except pygame.error as e] clause of [_backend_play]. *)
Definition on_pygame_error (e : exn) : M unit :=
  match e with
  | pygame_error msg =>
      if PyStr.contains (u "ModPlug_load failed") msg
      then raise (Exception (modplug_message msg))
      else raise e
  | _ => raise e
  end.

Definition _backend_play (file_path : str) : M unit :=
  fun st =>
    let file_path := normpath E file_path in
    if _use_vlc (player st) && _vlc_instance (player st) && _vlc_player (player st)
    then (vlc_player.set_media file_path ;; vlc_player.play) st
    else try_except (pygame_music.load E file_path ;; pygame_music.play) on_pygame_error st.

Definition _backend_stop : M unit :=
  fun st =>
    if _use_vlc (player st) && _vlc_player (player st)
    then vlc_player.stop st
    else pygame_music.stop st.

Definition _backend_is_busy : M bool :=
  fun st =>
    if _use_vlc (player st) && _vlc_player (player st)
    then try_except (z <- vlc_player.is_playing ;; ret (z =? 1)) (fun _ => ret false) st
    else try_except pygame_music.get_busy (fun _ => ret false) st.

Definition _backend_set_volume (volume_0_to_1 : float) : M unit :=
  fun st =>
    let volume_0_to_1 := PyFloat.max 0%float (PyFloat.min 1%float volume_0_to_1) in
    if _use_vlc (player st) && _vlc_player (player st)
    then (z <- lift (PyFloat.to_int (PrimFloat.mul volume_0_to_1 100%float)) ;;
          vlc_player.audio_set_volume z) st
    else try_except (pygame_music.set_volume volume_0_to_1) (fun _ => ret tt) st.

(** [max(0.0, ms / 1000.0) if ms and ms > 0 else 0.0] *)
Definition ms_to_seconds (ms : Z) : float :=
  if negb (ms =? 0) && (0 <? ms)
  then PyFloat.max 0%float (PrimFloat.div (PyFloat.of_int ms) 1000%float)
  else 0%float.

Definition _backend_get_pos_seconds : M float :=
  fun st =>
    if _use_vlc (player st) && _vlc_player (player st)
    then (ms <- vlc_player.get_time ;; ret (ms_to_seconds ms)) st
    else (ms <- pygame_music.get_pos ;; ret (ms_to_seconds ms)) st.

(** The [try] block of the pygame branch: the length mutagen reads for the
    file under the cursor; [None] when the block ends without [return]. *)
Definition mutagen_duration : M (option float) :=
  fun st =>
    if current_index (player st) <? Z.of_nat (List.length (current_playlist (player st)))
    then match py_getitem (current_playlist (player st)) (current_index (player st)) with
         | None => (Raise IndexError, st)
         | Some file_path =>
             match MutagenFile E file_path with
             | Raise e => (Raise e, st)
             | Ret None => (Ret None, st)
             | Ret (Some f) => (Ret (info_length f), st)
             end
         end
    else (Ret None, st).

Definition _backend_get_duration_seconds : M float :=
  fun st =>
    if _use_vlc (player st) && _vlc_player (player st)
    then (ms <- vlc_player.get_length ;; ret (ms_to_seconds ms)) st
    else (d <- try_except mutagen_duration (fun _ => ret None) ;;
          ret (default 0%float d)) st.

(** *** Playlist view *)

Definition update_song_list_display (st : State) : State :=
  with_gui (fun g =>
    set_playlist_title_label (current_playlist_name (player st))
      (set_song_listbox (List.map (get_song_info E) (current_playlist (player st))) g)) st.

Definition select_playlist (playlist_name : str) (st : State) : State :=
  let p := player st in
  let view :=
    if PyStr.eqb playlist_name (u "All") then all_songs p
    else if PyStr.eqb playlist_name (u "Favourite") then favourites p
    else default [] (playlists p !! playlist_name) in
  update_song_list_display
    (with_player (fun p => set_current_playlist view (set_current_playlist_name playlist_name p)) st).

(** [index] is a row of the list box. *)
Definition remove_song_from_current_playlist (index : nat) (st : State) : State :=
  let p := player st in
  match nth_error (current_playlist p) index with
  | None => st
  | Some file_path =>
      let playlist_name := current_playlist_name p in
      match playlists p !! playlist_name with
      | None => st
      | Some songs =>
          if py_in file_path songs
          then
            let p1 := set_playlists (<[playlist_name := py_remove file_path songs]> (playlists p)) p in
            let p2 := set_current_playlist (py_remove file_path (current_playlist p1)) p1 in
            let st2 := update_song_list_display (with_player (fun _ => p2) st) in
            let st3 :=
              if (Z.of_nat index <=? current_index p2) && (0 <? current_index p2)
              then with_player (set_current_index (current_index p2 - 1)) st2
              else st2 in
            show (showinfo (u "Success") (u "Removed from playlist!")) st3
          else st
      end
  end.

(** *** Transport *)

(** The label of the current song, as [play_song] computes it. *)
Definition song_label (file_path : str) : str :=
  let song_info := get_song_info E file_path in
  let song_info :=
    if PyStr.eqb song_info [] || PyStr.eqb (PyStr.strip song_info) []
    then OsPath.basename file_path else song_info in
  if PyStr.eqb song_info [] then u "Unknown Song" else song_info.

(** The outer [except Exception as e] clause of [play_song]. *)
Definition play_song_failed (e : exn) (st : State) : State :=
  with_player (set_is_playing false)
    (show (showerror (u "Error") (u "Could not play song: " ++ exn_str e)) st).

(** [if self.current_index >= len(self.current_playlist): self.current_index = 0] *)
Definition clamp_cursor (st : State) : State :=
  if Z.of_nat (List.length (current_playlist (player st))) <=? current_index (player st)
  then with_player (set_current_index 0) st else st.

(** The inner [try] block: [self._backend_stop(); self._backend_play(file_path)]. *)
Definition start_playback (file_path : str) : M unit :=
  _backend_stop ;; _backend_play file_path.

(** The flags and the label once the backend has started the file. *)
Definition mark_playing (file_path : str) (st : State) : State :=
  with_gui (set_current_song_label (song_label file_path))
    (with_player (fun p => set_is_paused false (set_is_playing true p)) st).

(** [play_song], [check_song_end] and [next_song] call each other; each
    is written over the one it calls.

    The body of [play_song] once the call is made.  Whatever
    [check_song_end] raises is caught by the outer [except Exception]
    clause, so the body always returns. *)
Definition play_song_with (check_song_end : M unit) (st : State) : State :=
  match current_playlist (player st) with
  | [] => show (showwarning (u "Warning") (u "Playlist is empty!")) st
  | _ :: _ =>
      let st1 := clamp_cursor st in
      match py_getitem (current_playlist (player st1)) (current_index (player st1)) with
      | None => play_song_failed IndexError st1
      | Some file_path =>
          if negb (path_exists E file_path)
          then show (showerror (u "Error") (u "File not found:" ++ nl ++ file_path)) st1
          else
            match start_playback file_path st1 with
            | (Raise e, st2) =>
                show (showerror (u "Error") (u "Could not play song:" ++ nl ++ exn_str e)) st2
            | (Ret _, st2) =>
                match check_song_end (mark_playing file_path st2) with
                | (Ret _, st3) => st3
                | (Raise e, st3) => play_song_failed e st3
                end
            end
      end
  end.

Definition check_song_end_with (next_song : M unit) : M unit :=
  fun st =>
    if is_playing (player st)
    then match pygame_music.get_busy st with
         | (Raise e, st1) => (Raise e, st1)
         | (Ret busy, st1) =>
             if negb busy
             then next_song st1
             else (Ret tt, show (after 1000 cb_check_song_end) st1)
         end
    else (Ret tt, show (after 1000 cb_check_song_end) st).

Definition next_song_with (play_song : M unit) : M unit :=
  fun st =>
    match current_playlist (player st) with
    | [] => (Ret tt, st)
    | _ :: _ =>
        let n := Z.of_nat (List.length (current_playlist (player st))) in
        play_song (with_player (set_current_index ((current_index (player st) + 1) mod n)) st)
    end.

Definition previous_song_with (play_song : M unit) : M unit :=
  fun st =>
    match current_playlist (player st) with
    | [] => (Ret tt, st)
    | _ :: _ =>
        let n := Z.of_nat (List.length (current_playlist (player st))) in
        play_song (with_player (set_current_index ((current_index (player st) - 1) mod n)) st)
    end.

(** The recursion [play_song] -> [check_song_end] -> [next_song] ->
    [play_song] is bounded by the recursion limit of the interpreter only.
    [depth] is the number of nested calls of [play_song] the limit still
    admits: the call beyond it raises [RecursionError] where it is made
    (in [next_song] when the calls nest), with the state as it is there.  The error passes
    through [next_song] and [check_song_end], which have no handler, to
    the [except Exception] clause of the [play_song] that called
    [check_song_end].  Helper calls and the handler itself are taken to
    fit below the limit. *)
Fixpoint play_song (depth : nat) : M unit :=
  match depth with
  | O => raise RecursionError
  | S depth' =>
      fun st => (Ret tt, play_song_with (check_song_end_with (next_song_with (play_song depth'))) st)
  end.

Definition next_song (depth : nat) : M unit :=
  next_song_with (play_song depth).

Definition previous_song (depth : nat) : M unit :=
  previous_song_with (play_song depth).

Definition check_song_end (depth : nat) : M unit :=
  check_song_end_with (next_song depth).

(** *** Volume and progress *)

Definition set_volume (value : float) : M unit :=
  modify (with_player (set_volume_field (PrimFloat.div value 100%float))) ;;
  v <- gets (fun st => volume (player st)) ;;
  _backend_set_volume v ;;
  (* the text of the percentage label: only what building it may raise *)
  _ <- lift (PyFloat.to_int (PrimFloat.mul v 100%float)) ;;
  ret tt.

(** The [try] block of [update_progress]. *)
Definition publish_progress : M unit :=
  current_pos <- _backend_get_pos_seconds ;;
  duration <- _backend_get_duration_seconds ;;
  if PyFloat.truthy duration && PrimFloat.ltb 0%float duration
  then let progress := PrimFloat.mul (PrimFloat.div current_pos duration) 100%float in
       modify (with_gui (set_progress_var (PyFloat.min progress 100%float)))
  else ret tt.

Definition update_progress : M unit :=
  playing <- gets (fun st => is_playing (player st)) ;;
  busy <- (if playing then _backend_is_busy else ret false) ;;
  (if playing && busy
   then try_except publish_progress (fun _ => ret tt)
   else ret tt) ;;
  tk (after 100 cb_update_progress).

End MusicPlayer.

(** ** Pause, stop and the list box *)

(** What [pause] and [unpause] of [pygame.mixer.music] and the toggling
    [pause] of the VLC player do to the state of the libraries is left
    open: the class only relies on its own flags. *)
Record PauseModel : Type := {
  music_pause : Audio -> Audio;
  music_unpause : Audio -> Audio;
  vlc_pause : Audio -> Audio
}.

Definition set_flags (playing paused : bool) (st : State) : State :=
  with_player (fun p => set_is_paused paused (set_is_playing playing p)) st.

Section Transport.

Variable E : Env.
Variable L : PauseModel.

Local Open Scope py_scope.

Definition _backend_pause : M unit :=
  fun st =>
    if _use_vlc (player st) && _vlc_player (player st)
    then modify (with_audio (vlc_pause L)) st
    else pygame_music.call (music_pause L) st.

(** VLC's [pause] toggles: called while paused it resumes. *)
Definition _backend_unpause : M unit :=
  fun st =>
    if _use_vlc (player st) && _vlc_player (player st)
    then modify (with_audio (vlc_pause L)) st
    else pygame_music.call (music_unpause L) st.

(** [depth] as for [play_song]; an exception of the backend is not caught. *)
Definition toggle_play_pause (depth : nat) : M unit :=
  fun st =>
    match current_playlist (player st) with
    | [] => (Ret tt, show (showwarning (u "Warning") (u "Playlist is empty!")) st)
    | _ :: _ =>
        if negb (is_playing (player st))
        then if is_paused (player st)
             then match _backend_unpause st with
                  | (Ret _, st1) => (Ret tt, set_flags true false st1)
                  | (Raise e, st1) => (Raise e, st1)
                  end
             else play_song E depth st
        else match _backend_pause st with
             | (Ret _, st1) => (Ret tt, set_flags false true st1)
             | (Raise e, st1) => (Raise e, st1)
             end
    end.

Definition stop_song : M unit :=
  _backend_stop ;;
  modify (fun st => with_gui (set_progress_var 0%float) (set_flags false false st)).

(** [selection] is [self.song_listbox.curselection()]. *)
Definition on_song_select (selection : list nat) (depth : nat) : M unit :=
  fun st =>
    match selection with
    | [] => (Ret tt, st)
    | row :: _ => play_song E depth (with_player (set_current_index (Z.of_nat row)) st)
    end.

End Transport.

(** ** Library, favourites and playlists *)

(** What the dictionary and list operations of these methods raise. *)
Inductive store_error : Type :=
| KeyError (key : str)        (* [self.playlists[key]] without the key *)
| NotInList.                  (* ValueError: list.remove(x): x not in list *)

(** A method either returns or raises, in both cases with the state it
    has reached. *)
Inductive outcome : Type :=
| Done (st : State)
| Failed (e : store_error) (st : State).

Definition set_all_songs (v : list str) (p : Player) : Player :=
  {| _use_vlc := _use_vlc p; _vlc_instance := _vlc_instance p; _vlc_player := _vlc_player p;
     all_songs := v; favourites := favourites p; playlists := playlists p;
     current_playlist_name := current_playlist_name p; current_playlist := current_playlist p;
     current_index := current_index p; is_playing := is_playing p; is_paused := is_paused p;
     volume := volume p |}.

Definition set_favourites (v : list str) (p : Player) : Player :=
  {| _use_vlc := _use_vlc p; _vlc_instance := _vlc_instance p; _vlc_player := _vlc_player p;
     all_songs := all_songs p; favourites := v; playlists := playlists p;
     current_playlist_name := current_playlist_name p; current_playlist := current_playlist p;
     current_index := current_index p; is_playing := is_playing p; is_paused := is_paused p;
     volume := volume p |}.

(** [self.playlists[name].append(file_path)] *)
Definition store_append (name file_path : str) (p : Player) : store_error + Player :=
  match playlists p !! name with
  | None => inl (KeyError name)
  | Some songs => inr (set_playlists (<[name := songs ++ [file_path]]> (playlists p)) p)
  end.

(** [self.playlists[name].remove(file_path)] *)
Definition store_remove (name file_path : str) (p : Player) : store_error + Player :=
  match playlists p !! name with
  | None => inl (KeyError name)
  | Some songs =>
      if py_in file_path songs
      then inr (set_playlists (<[name := py_remove file_path songs]> (playlists p)) p)
      else inl NotInList
  end.

(** [self.current_playlist.append(file_path)] *)
Definition view_append (file_path : str) (p : Player) : Player :=
  set_current_playlist (current_playlist p ++ [file_path]) p.

(** [self.current_playlist.remove(file_path)] *)
Definition view_remove (file_path : str) (p : Player) : store_error + Player :=
  if py_in file_path (current_playlist p)
  then inr (set_current_playlist (py_remove file_path (current_playlist p)) p)
  else inl NotInList.

Section Library.

Variable E : Env.

(** [file_path] is what the file dialog returns, empty when cancelled. *)
Definition add_file (file_path : str) (st : State) : outcome :=
  match file_path with
  | [] => Done st
  | _ :: _ =>
      let p := player st in
      if py_in file_path (all_songs p) then Done st
      else
        let p1 := set_all_songs (all_songs p ++ [file_path]) p in
        match store_append (u "All") file_path p1 with
        | inl e => Failed e (with_player (fun _ => p1) st)
        | inr p2 =>
            if PyStr.eqb (current_playlist_name p2) (u "All")
            then Done (update_song_list_display E (with_player (fun _ => view_append file_path p2) st))
            else Done (with_player (fun _ => p2) st)
        end
  end.

Definition add_to_favourites (file_path : str) (st : State) : outcome :=
  let p := player st in
  if py_in file_path (favourites p) then Done st
  else
    let p1 := set_favourites (favourites p ++ [file_path]) p in
    match store_append (u "Favourite") file_path p1 with
    | inl e => Failed e (with_player (fun _ => p1) st)
    | inr p2 =>
        let st2 :=
          if PyStr.eqb (current_playlist_name p2) (u "Favourite")
          then update_song_list_display E (with_player (fun _ => view_append file_path p2) st)
          else with_player (fun _ => p2) st in
        Done (show (showinfo (u "Success") (u "Added to Favourites!")) st2)
    end.

Definition remove_from_favourites (file_path : str) (st : State) : outcome :=
  let p := player st in
  if py_in file_path (favourites p)
  then
    let p1 := set_favourites (py_remove file_path (favourites p)) p in
    match store_remove (u "Favourite") file_path p1 with
    | inl e => Failed e (with_player (fun _ => p1) st)
    | inr p2 =>
        if PyStr.eqb (current_playlist_name p2) (u "Favourite")
        then match view_remove file_path p2 with
             | inl e => Failed e (with_player (fun _ => p2) st)
             | inr p3 =>
                 Done (show (showinfo (u "Success") (u "Removed from Favourites!"))
                         (update_song_list_display E (with_player (fun _ => p3) st)))
             end
        else Done (show (showinfo (u "Success") (u "Removed from Favourites!"))
                     (with_player (fun _ => p2) st))
    end
  else Done st.

Definition add_song_to_playlist (file_path playlist_name : str) (st : State) : outcome :=
  let p := player st in
  match playlists p !! playlist_name with
  | None => Done st
  | Some songs =>
      if py_in file_path songs then Done st
      else
        let p1 := set_playlists (<[playlist_name := songs ++ [file_path]]> (playlists p)) p in
        let st2 :=
          if PyStr.eqb (current_playlist_name p1) playlist_name
          then update_song_list_display E (with_player (fun _ => view_append file_path p1) st)
          else with_player (fun _ => p1) st in
        Done (show (showinfo (u "Success")
                      (u "Added to '" ++ playlist_name ++ u "'!")) st2)
  end.

Definition remove_song_from_playlist (file_path playlist_name : str) (st : State) : outcome :=
  let p := player st in
  match playlists p !! playlist_name with
  | None => Done st
  | Some songs =>
      if py_in file_path songs
      then
        let p1 := set_playlists (<[playlist_name := py_remove file_path songs]> (playlists p)) p in
        if PyStr.eqb (current_playlist_name p1) playlist_name
        then match view_remove file_path p1 with
             | inl e => Failed e (with_player (fun _ => p1) st)
             | inr p2 =>
                 Done (show (showinfo (u "Success")
                               (u "Removed from '" ++ playlist_name ++ u "'!"))
                         (update_song_list_display E (with_player (fun _ => p2) st)))
             end
        else Done (show (showinfo (u "Success")
                           (u "Removed from '" ++ playlist_name ++ u "'!"))
                     (with_player (fun _ => p1) st))
      else Done st
  end.

(** [confirmed] is the answer to the "Are you sure" question. *)
Definition delete_playlist (playlist_name : str) (confirmed : bool) (st : State) : outcome :=
  if PyStr.eqb playlist_name (u "All") || PyStr.eqb playlist_name (u "Favourite")
  then Done (show (showwarning (u "Warning") (u "Cannot delete default playlists!")) st)
  else if confirmed
  then
    let p := player st in
    match playlists p !! playlist_name with
    | None => Failed (KeyError playlist_name) st
    | Some _ =>
        let st1 := with_player (set_playlists (delete playlist_name (playlists p))) st in
        let st2 :=
          if PyStr.eqb (current_playlist_name (player st1)) playlist_name
          then select_playlist E (u "All") st1
          else st1 in
        Done (show (showinfo (u "Success")
                      (u "Playlist '" ++ playlist_name ++ u "' deleted!")) st2)
    end
  else Done st.

(** [answer] is what the name dialog returns, [None] when cancelled. *)
Definition create_playlist (answer : option str) (st : State) : outcome :=
  match answer with
  | None => Done st
  | Some name =>
      match name, PyStr.strip name with
      | _ :: _, _ :: _ =>
          let name := PyStr.strip name in
          match playlists (player st) !! name with
          | Some _ =>
              Done (show (showwarning (u "Warning")
                            (u "Playlist '" ++ name ++ u "' already exists!")) st)
          | None =>
              Done (show (showinfo (u "Success") (u "Playlist '" ++ name ++ u "' created!"))
                      (with_player (set_playlists (<[name := []]> (playlists (player st)))) st))
          end
      | _, _ => Done st
      end
  end.

End Library.

(** ** Sample worlds *)

Definition ascii_digit (c : N) : bool := ((48 <=? c) && (c <=? 57))%N.

(** Every file but ["c.mp3"] exists, every file decodes, no file has tags. *)
Definition sample_env : Env :=
  {| path_exists := fun p => negb (PyStr.eqb p (u "c.mp3"));
     normpath := fun p => p;
     MutagenFile := fun _ => Ret None;
     music_load := fun _ => None;
     isdecimal := ascii_digit |}.

(** As [sample_env], but pygame cannot decode any file. *)
Definition modplug_env : Env :=
  {| path_exists := fun _ => true;
     normpath := fun p => p;
     MutagenFile := fun _ => Ret None;
     music_load := fun _ => Some (pygame_error (u "ModPlug_load failed."));
     isdecimal := ascii_digit |}.

Definition idle_audio : Audio :=
  {| mixer_init := true; music_file := None; music_busy := false; music_pos := 0;
     music_volume := 0.5%float; vlc_media := None; vlc_is_playing := 0; vlc_time := 0;
     vlc_length := 0; vlc_volume := 50; vlc_query_fault := None |}.

Definition blank_gui : Gui :=
  {| song_listbox := []; playlist_title_label := u "All"; current_song_label := [];
     progress_var := 0%float; trace := [] |}.

(** A player on the playlist ["Mix"], with the given backend choice, view,
    cursor and playing flag. *)
Definition sample_player (vlc : bool) (view : list str) (i : Z) (playing : bool) : Player :=
  {| _use_vlc := vlc; _vlc_instance := vlc; _vlc_player := vlc;
     all_songs := [u "a.mp3"; u "b.mp3"; u "c.mp3"];
     favourites := [u "b.mp3"];
     playlists := {[ u "All" := [u "a.mp3"; u "b.mp3"; u "c.mp3"];
                     u "Favourite" := [u "b.mp3"];
                     u "Mix" := view ]};
     current_playlist_name := u "Mix";
     current_playlist := view;
     current_index := i;
     is_playing := playing;
     is_paused := false;
     volume := 0.5%float |}.

Definition sample_state (vlc : bool) (view : list str) (i : Z) (playing : bool) : State :=
  {| player := sample_player vlc view i playing; audio := idle_audio; gui := blank_gui |}.

Definition abc : list str := [u "a.mp3"; u "b.mp3"; u "c.mp3"].

(** VLC is the backend and is playing; the pygame mixer is set up and has
    never been given a file. *)
Definition vlc_playing_state (view : list str) (i : Z) : State :=
  {| player := sample_player true view i true;
     audio := set_vlc_is_playing 1 idle_audio;
     gui := blank_gui |}.


(** ** Notions used by the properties *)

(** The cursor invariant of the playlist view. *)
Definition cursor_ok (st : State) : Prop :=
  current_playlist (player st) <> [] ->
  0 <= current_index (player st) < Z.of_nat (List.length (current_playlist (player st))).

(** A computation that touches the audio libraries only. *)
Definition audio_only {A} (m : M A) : Prop :=
  forall st, player (snd (m st)) = player st /\ gui (snd (m st)) = gui st.

(** A computation that leaves the whole state as it is. *)
Definition read_only {A} (m : M A) : Prop :=
  forall st, snd (m st) = st.

(** The file [play_song] is about to play: the entry under the cursor
    once the stale cursor has been reset. *)
Definition current_file (st : State) : option str :=
  py_getitem (current_playlist (player (clamp_cursor st))) (current_index (player (clamp_cursor st))).

(** The three ways [play_song] gives up before it changes the transport
    flags, each with the message box it shows and the state it shows it in. *)
Inductive play_failure (E : Env) (st : State) : event -> State -> Prop :=
| EmptyPlaylist :
    current_playlist (player st) = [] ->
    play_failure E st (showwarning (u "Warning") (u "Playlist is empty!")) st
| ResourceMissing (file_path : str) :
    current_playlist (player st) <> [] ->
    current_file st = Some file_path ->
    path_exists E file_path = false ->
    play_failure E st (showerror (u "Error") (u "File not found:" ++ nl ++ file_path))
      (clamp_cursor st)
| BackendError (file_path : str) (e : exn) (st2 : State) :
    current_playlist (player st) <> [] ->
    current_file st = Some file_path ->
    path_exists E file_path = true ->
    start_playback E file_path (clamp_cursor st) = (Raise e, st2) ->
    play_failure E st (showerror (u "Error") (u "Could not play song:" ++ nl ++ exn_str e)) st2.

(** File names the fallback of [get_song_info] is stated on.

    A character of a segment of an "Artist - Title" name: neither [/]
    nor [-]. *)
Definition segment_char (c : N) : bool := negb (N.eqb c 47) && negb (N.eqb c 45).

(** A character of an extension: neither [/] nor [.]. *)
Definition ext_char (c : N) : bool := negb (N.eqb c 47) && negb (N.eqb c 46).

(** What follows a track number in names such as ["01. Song"]. *)
Definition dot_or_blank (c : N) : bool := N.eqb c 46 || N.eqb c 32.

(** A character that is neither [/] nor part of a separator but as a
    blank. *)
Definition plain_char (c : N) : bool :=
  negb (N.eqb c 47) && negb (N.eqb c 45) && negb (N.eqb c 95) && negb (N.eqb c 8218).

(** A title the fallback has nothing to take away from: plain
    characters, no digit, dot or blank in front, no blank at the end. *)
Definition plain_title (E : Env) (t : str) : Prop :=
  forallb plain_char t = true /\
  match t with
  | [] => True
  | c :: _ =>
      track_punct c = false /\ isdecimal E c = false /\ PyStr.isspace (List.last t c) = false
  end.

(** [" - ".join(parts + [title])] *)
Fixpoint dash_join (parts : list str) (title : str) : str :=
  match parts with
  | [] => title
  | p :: parts' => p ++ u " - " ++ dash_join parts' title
  end.


(** Two states with the same view and the same cursor. *)
Definition same_cursor (st st' : State) : Prop :=
  current_playlist (player st') = current_playlist (player st) /\
  current_index (player st') = current_index (player st).

(** A call that keeps the view and the cursor invariant, whether it
    returns or raises. *)
Definition keeps_cursor (m : M unit) : Prop :=
  forall st,
    current_playlist (player (snd (m st))) = current_playlist (player st) /\
    (cursor_ok st -> cursor_ok (snd (m st))).

(** The branch of [_backend_play] that drives pygame. *)
Definition plays_with_pygame (st : State) : Prop :=
  _use_vlc (player st) && _vlc_instance (player st) && _vlc_player (player st) = false.

(** All three VLC attributes are set: every [_backend_*] helper drives VLC. *)
Definition plays_with_vlc (st : State) : Prop :=
  _use_vlc (player st) = true /\ _vlc_instance (player st) = true /\
  _vlc_player (player st) = true.

(** The pygame mixer is set up and idle, as it is while VLC plays. *)
Definition mixer_idle (st : State) : Prop :=
  mixer_init (audio st) = true /\ music_busy (audio st) = false.

(** [next_song] called [n] times in a row. *)
Fixpoint repeat_next (E : Env) (depth n : nat) : M unit :=
  match n with
  | O => ret tt
  | S n' => bind (next_song E depth) (fun _ => repeat_next E depth n')
  end.

(** ** Notions used by the further properties *)

(** Pausing silences the mixer and the VLC player, resuming starts them. *)
Definition sample_pause : PauseModel :=
  {| music_pause := set_music_busy false;
     music_unpause := set_music_busy true;
     vlc_pause := fun a => set_vlc_is_playing (1 - vlc_is_playing a) a |}.

(** The helpers [_backend_stop], [_backend_pause] and [_backend_unpause]
    cannot raise: they drive VLC, or the pygame mixer is set up. *)
Definition backend_ready (st : State) : Prop :=
  _use_vlc (player st) && _vlc_player (player st) = true \/ mixer_init (audio st) = true.

(** The two default playlists of the dictionary mirror the two lists. *)
Definition stores_agree (st : State) : Prop :=
  playlists (player st) !! u "All" = Some (all_songs (player st)) /\
  playlists (player st) !! u "Favourite" = Some (favourites (player st)).

(** The view shows the playlist it is named after. *)
Definition view_synced (st : State) : Prop :=
  current_playlist (player st) =
    if PyStr.eqb (current_playlist_name (player st)) (u "All") then all_songs (player st)
    else if PyStr.eqb (current_playlist_name (player st)) (u "Favourite")
         then favourites (player st)
         else default [] (playlists (player st) !! current_playlist_name (player st)).

Definition library_ok (st : State) : Prop :=
  stores_agree st /\ view_synced st /\
  NoDup (all_songs (player st)) /\ NoDup (favourites (player st)).

(** What playlist editing has no business with. *)
Definition same_playback (st st' : State) : Prop :=
  _use_vlc (player st') = _use_vlc (player st) /\
  _vlc_instance (player st') = _vlc_instance (player st) /\
  _vlc_player (player st') = _vlc_player (player st) /\
  is_playing (player st') = is_playing (player st) /\
  is_paused (player st') = is_paused (player st) /\
  current_index (player st') = current_index (player st) /\
  volume (player st') = volume (player st) /\
  audio st' = audio st /\
  progress_var (gui st') = progress_var (gui st) /\
  current_song_label (gui st') = current_song_label (gui st).

Definition outcome_state (o : outcome) : State :=
  match o with
  | Done st => st
  | Failed _ st => st
  end.

(** A library with the playlist ["Mix"] holding [mix], shown in the view
    named [name]. *)
Definition library_state (name : str) (view mix : list str) (i : Z) : State :=
  {| player :=
       {| _use_vlc := false; _vlc_instance := false; _vlc_player := false;
          all_songs := abc;
          favourites := [u "b.mp3"];
          playlists := {[ u "All" := abc; u "Favourite" := [u "b.mp3"]; u "Mix" := mix ]};
          current_playlist_name := name;
          current_playlist := view;
          current_index := i;
          is_playing := false;
          is_paused := false;
          volume := 0.5%float |};
     audio := idle_audio;
     gui := blank_gui |}.

(** ** Properties *)

Example split_example :
  PyStr.split (u " - ") (u "01 - Artist - My Song") = [u "01"; u "Artist"; u "My Song"].
Proof. reflexivity. Qed.

Example to_int_trunc : PyFloat.to_int 28.75%float = Ret 28.
Proof. reflexivity. Qed.

Example of_int_div : PrimFloat.div (PyFloat.of_int 1500) 1000%float = 1.5%float.
Proof. reflexivity. Qed.

Example play_from_stop :
  let st' := snd (play_song sample_env 1 (sample_state false abc 0 false)) in
  (is_playing (player st'), music_busy (audio st'), trace (gui st'))
  = (true, true, [after 1000 cb_check_song_end]).
Proof. vm_compute. reflexivity. Qed.

Example select_fav :
  current_playlist (player (select_playlist sample_env (u "Favourite") (sample_state false abc 2 false)))
  = [u "b.mp3"].
Proof. vm_compute. reflexivity. Qed.

(** Splits the conjunctions of the goal and nothing else. *)
Ltac conjs := repeat match goal with |- _ /\ _ => split end.

(** *** Strings *)

Lemma PyStr_eqb_eq (a b : str) : PyStr.eqb a b = true <-> a = b.
Proof.
  revert b; induction a as [|x a IH]; intros [|y b]; simpl; split; try easy.
  - intros H. apply andb_true_iff in H as [Hx Hab].
    apply N.eqb_eq in Hx. apply IH in Hab. congruence.
  - intros H. injection H as -> ->. rewrite N.eqb_refl. simpl. now apply IH.
Qed.

Lemma PyStr_eqb_neq (a b : str) : PyStr.eqb a b = false <-> a <> b.
Proof.
  rewrite <- PyStr_eqb_eq. destruct (PyStr.eqb a b); split; congruence.
Qed.

(** *** Frame lemmas for the backend helpers *)

Lemma read_only_audio_only {A} (m : M A) : read_only m -> audio_only m.
Proof. intros H st. now rewrite H. Qed.

Lemma audio_only_bind {A B} (m : M A) (k : A -> M B) :
  audio_only m -> (forall a, audio_only (k a)) -> audio_only (bind m k).
Proof.
  intros Hm Hk st. unfold bind. specialize (Hm st).
  destruct (m st) as [[a|e] st1]; simpl in *; [|exact Hm].
  destruct Hm as [Hp0 Hg0]. destruct (Hk a st1) as [Hp Hg]. split; congruence.
Qed.

Lemma audio_only_try {A} (m : M A) (h : exn -> M A) :
  audio_only m -> (forall e, audio_only (h e)) -> audio_only (try_except m h).
Proof.
  intros Hm Hh st. unfold try_except. specialize (Hm st).
  destruct (m st) as [[a|e] st1]; simpl in *; [exact Hm|].
  destruct Hm as [Hp0 Hg0]. destruct (Hh e st1) as [Hp Hg]. split; congruence.
Qed.

Lemma read_only_bind {A B} (m : M A) (k : A -> M B) :
  read_only m -> (forall a, read_only (k a)) -> read_only (bind m k).
Proof.
  intros Hm Hk st. unfold bind. specialize (Hm st).
  destruct (m st) as [[a|e] st1]; simpl in *; subst; [apply Hk|reflexivity].
Qed.

Lemma read_only_try {A} (m : M A) (h : exn -> M A) :
  read_only m -> (forall e, read_only (h e)) -> read_only (try_except m h).
Proof.
  intros Hm Hh st. unfold try_except. specialize (Hm st).
  destruct (m st) as [[a|e] st1]; simpl in *; subst; [reflexivity|apply Hh].
Qed.

Lemma read_only_ret {A} (a : A) : read_only (ret a).
Proof. intros st. reflexivity. Qed.

Lemma read_only_raise {A} (e : exn) : read_only (@raise A e).
Proof. intros st. reflexivity. Qed.

Lemma read_only_lift {A} (r : res A) : read_only (lift r).
Proof. intros st. reflexivity. Qed.

Lemma read_only_gets {A} (f : State -> A) : read_only (gets f).
Proof. intros st. reflexivity. Qed.

Lemma audio_only_call (f : Audio -> Audio) : audio_only (pygame_music.call f).
Proof. intros st. unfold pygame_music.call. destruct (mixer_init (audio st)); now simpl. Qed.

Lemma audio_only_load (E : Env) (file_path : str) : audio_only (pygame_music.load E file_path).
Proof.
  intros st. unfold pygame_music.load.
  destruct (mixer_init (audio st)); [destruct (music_load E file_path)|]; now simpl.
Qed.

Lemma audio_only_music_play : audio_only pygame_music.play.
Proof.
  intros st. unfold pygame_music.play.
  destruct (mixer_init (audio st)); [destruct (music_file (audio st))|]; now simpl.
Qed.

Lemma read_only_get_busy : read_only pygame_music.get_busy.
Proof. intros st. unfold pygame_music.get_busy. now destruct (mixer_init (audio st)). Qed.

Lemma read_only_get_pos : read_only pygame_music.get_pos.
Proof. intros st. unfold pygame_music.get_pos. now destruct (mixer_init (audio st)). Qed.

Lemma read_only_vlc_query (f : Audio -> Z) : read_only (vlc_player.query f).
Proof. intros st. unfold vlc_player.query. now destruct (vlc_query_fault (audio st)). Qed.

Lemma audio_only_modify_audio (f : Audio -> Audio) : audio_only (modify (with_audio f)).
Proof. intros st. now simpl. Qed.

Lemma audio_only_on_pygame_error (e : exn) : audio_only (on_pygame_error e).
Proof.
  apply read_only_audio_only. intros st. unfold on_pygame_error.
  destruct e; try reflexivity. now destruct (PyStr.contains _ _).
Qed.

Lemma backend_stop_audio_only : audio_only _backend_stop.
Proof.
  intros st. unfold _backend_stop.
  destruct (_use_vlc (player st) && _vlc_player (player st)).
  - apply (audio_only_modify_audio _ st).
  - apply (audio_only_call _ st).
Qed.

Lemma backend_play_audio_only (E : Env) (file_path : str) : audio_only (_backend_play E file_path).
Proof.
  intros st. unfold _backend_play.
  destruct (_use_vlc (player st) && _vlc_instance (player st) && _vlc_player (player st)).
  - apply (audio_only_bind _ _ (audio_only_modify_audio _)
             (fun _ => audio_only_modify_audio _) st).
  - apply (audio_only_try _ _
             (audio_only_bind _ _ (audio_only_load E _) (fun _ => audio_only_music_play))
             audio_only_on_pygame_error st).
Qed.

Lemma backend_start_audio_only (E : Env) (file_path : str) :
  audio_only (start_playback E file_path).
Proof.
  unfold start_playback. apply audio_only_bind; [apply backend_stop_audio_only|].
  intros _. apply backend_play_audio_only.
Qed.

Lemma backend_is_busy_read_only : read_only _backend_is_busy.
Proof.
  intros st. unfold _backend_is_busy.
  destruct (_use_vlc (player st) && _vlc_player (player st)).
  - apply (read_only_try _ _
             (read_only_bind _ _ (read_only_vlc_query _) (fun _ => read_only_ret _))
             (fun _ => read_only_ret _) st).
  - apply (read_only_try _ _ read_only_get_busy (fun _ => read_only_ret _) st).
Qed.

Lemma backend_get_pos_read_only : read_only _backend_get_pos_seconds.
Proof.
  intros st. unfold _backend_get_pos_seconds.
  destruct (_use_vlc (player st) && _vlc_player (player st)).
  - apply (read_only_bind _ _ (read_only_vlc_query _) (fun _ => read_only_ret _) st).
  - apply (read_only_bind _ _ read_only_get_pos (fun _ => read_only_ret _) st).
Qed.



(** *** Unfolding equations *)

Lemma play_song_S (E : Env) (depth : nat) (st : State) :
  play_song E (S depth) st = (Ret tt, play_song_with E (check_song_end E depth) st).
Proof. reflexivity. Qed.

Lemma clamp_cursor_frame (st : State) :
  current_playlist (player (clamp_cursor st)) = current_playlist (player st) /\
  is_playing (player (clamp_cursor st)) = is_playing (player st) /\
  is_paused (player (clamp_cursor st)) = is_paused (player st) /\
  audio (clamp_cursor st) = audio st /\
  gui (clamp_cursor st) = gui st.
Proof. unfold clamp_cursor. destruct (_ <=? _); now simpl. Qed.

(** *** Selecting a playlist *)

(** C1, as the code has it: [select_playlist] replaces the view by a copy
    of the named playlist of the store and records the name; it leaves the
    cursor where it was (it does not reset it to 0), and it changes neither
    the transport flags, the volume, the backends, the progress, the label
    of the current song, nor does it show a box or start a timer. *)
Theorem select_playlist_replaces_view (E : Env) (playlist_name : str) (st : State) :
  let st' := select_playlist E playlist_name st in
  (playlist_name = u "All" -> current_playlist (player st') = all_songs (player st)) /\
  (playlist_name = u "Favourite" -> current_playlist (player st') = favourites (player st)) /\
  (playlist_name <> u "All" -> playlist_name <> u "Favourite" ->
     current_playlist (player st') = default [] (playlists (player st) !! playlist_name)) /\
  current_playlist_name (player st') = playlist_name /\
  current_index (player st') = current_index (player st) /\
  is_playing (player st') = is_playing (player st) /\
  is_paused (player st') = is_paused (player st) /\
  volume (player st') = volume (player st) /\
  audio st' = audio st /\
  trace (gui st') = trace (gui st) /\
  progress_var (gui st') = progress_var (gui st) /\
  current_song_label (gui st') = current_song_label (gui st).
Proof.
  simpl. repeat split.
  - intros ->. reflexivity.
  - intros ->. reflexivity.
  - intros HA HF. apply PyStr_eqb_neq in HA, HF. now rewrite HA, HF.
Qed.

(** C1 as the claim states it fails: with the cursor on the third song,
    selecting another playlist leaves the cursor at 2. *)
Lemma select_playlist_cursor_not_reset :
  current_index (player (select_playlist sample_env (u "Favourite") (sample_state false abc 2 true)))
  <> 0.
Proof. vm_compute. discriminate. Qed.

(** *** Playing on an empty view *)

(** C6: on an empty view [play_song] shows the warning "Playlist is empty!"
    and returns; no field of the player and nothing of the backends
    changes, so a stopped player stays stopped. *)
Theorem play_song_empty_playlist (E : Env) (depth : nat) (st : State) :
  current_playlist (player st) = [] ->
  exists st',
    play_song E (S depth) st = (Ret tt, st') /\
    trace (gui st') = trace (gui st) ++ [showwarning (u "Warning") (u "Playlist is empty!")] /\
    player st' = player st /\
    audio st' = audio st /\
    (is_playing (player st) = false -> is_paused (player st) = false ->
     is_playing (player st') = false /\ is_paused (player st') = false).
Proof.
  intros Hempty. eexists. rewrite play_song_S. unfold play_song_with. rewrite Hempty.
  repeat split; auto.
Qed.

Lemma play_song_empty_playlist_witness :
  exists st',
    play_song sample_env 1 (sample_state false [] 0 false) = (Ret tt, st') /\
    trace (gui st') = [showwarning (u "Warning") (u "Playlist is empty!")] /\
    player st' = player (sample_state false [] 0 false) /\
    audio st' = audio (sample_state false [] 0 false) /\
    (is_playing (player (sample_state false [] 0 false)) = false ->
     is_paused (player (sample_state false [] 0 false)) = false ->
     is_playing (player st') = false /\ is_paused (player st') = false).
Proof.
  apply (play_song_empty_playlist sample_env 0 (sample_state false [] 0 false)).
  reflexivity.
Defined.

(** *** Failures of [play_song] *)

Lemma play_failure_reported
    (E : Env) (depth : nat) (st st_shown : State) (report : event) :
  play_failure E st report st_shown ->
  exists st',
    play_song E (S depth) st = (Ret tt, st') /\
    trace (gui st') = trace (gui st) ++ [report] /\
    is_playing (player st') = is_playing (player st) /\
    is_paused (player st') = is_paused (player st).
Proof.
  intros Hfail. rewrite play_song_S. unfold play_song_with.
  destruct (clamp_cursor_frame st) as (Hview & Hplay & Hpause & _ & Hgui).
  destruct Hfail as [Hempty | file_path Hview' Hfile Hmissing
                    | file_path e st2 Hview' Hfile Hexists Hstart].
  - rewrite Hempty. eexists. repeat split; reflexivity.
  - destruct (current_playlist (player st)) as [|x view] eqn:Hv; [congruence|].
    unfold current_file in Hfile. rewrite Hfile, Hmissing. simpl.
    eexists. split; [reflexivity|]. simpl. rewrite Hgui. auto.
  - destruct (current_playlist (player st)) as [|x view] eqn:Hv; [congruence|].
    unfold current_file in Hfile. rewrite Hfile, Hexists, Hstart. simpl.
    destruct (backend_start_audio_only E file_path (clamp_cursor st)) as [Hp Hg].
    rewrite Hstart in Hp, Hg. simpl in Hp, Hg.
    eexists. split; [reflexivity|]. simpl. rewrite Hp, Hg, Hgui. auto.
Qed.












(** *** The decode failure of pygame *)

Lemma modplug_message_has_fix (msg : str) :
  PyStr.contains (u "Fix: install VLC backend:" ++ nl ++ u "  pip install python-vlc")
    (u "Could not play song:" ++ nl ++ modplug_message msg) = true.
Proof. intros. vm_compute. reflexivity. Qed.

Lemma clamp_cursor_backend (st : State) :
  _use_vlc (player (clamp_cursor st)) = _use_vlc (player st) /\
  _vlc_instance (player (clamp_cursor st)) = _vlc_instance (player st) /\
  _vlc_player (player (clamp_cursor st)) = _vlc_player (player st).
Proof. unfold clamp_cursor. destruct (_ <=? _); now simpl. Qed.

Lemma start_playback_modplug (E : Env) (st : State) (file_path msg : str) :
  plays_with_pygame st ->
  mixer_init (audio st) = true ->
  music_load E (normpath E file_path) = Some (pygame_error msg) ->
  PyStr.contains (u "ModPlug_load failed") msg = true ->
  fst (start_playback E file_path st) = Raise (Exception (modplug_message msg)).
Proof.
  unfold plays_with_pygame. intros Hpy Hinit Hload Hmod.
  unfold start_playback, bind, _backend_stop.
  destruct (_use_vlc (player st) && _vlc_player (player st)).
  - unfold vlc_player.stop, modify, _backend_play. simpl. rewrite Hpy.
    unfold try_except, bind, pygame_music.load. simpl. rewrite Hinit, Hload. simpl.
    now rewrite Hmod.
  - unfold pygame_music.stop, pygame_music.call. rewrite Hinit.
    unfold _backend_play. simpl. rewrite Hpy.
    unfold try_except, bind, pygame_music.load. simpl. rewrite Hinit, Hload. simpl.
    now rewrite Hmod.
Qed.

(** C9: when pygame is the backend that plays and its [load] fails on the
    file with an error that mentions "ModPlug_load failed", [_backend_play]
    raises a plain [Exception] whose text carries the remedy instead of the
    [pygame.error], and [play_song] shows that text in its error box. *)
Theorem play_song_reports_decode_failure
    (E : Env) (depth : nat) (st : State) (file_path msg : str) :
  current_playlist (player st) <> [] ->
  current_file st = Some file_path ->
  path_exists E file_path = true ->
  plays_with_pygame st ->
  mixer_init (audio st) = true ->
  music_load E (normpath E file_path) = Some (pygame_error msg) ->
  PyStr.contains (u "ModPlug_load failed") msg = true ->
  let shown := u "Could not play song:" ++ nl ++ modplug_message msg in
  fst (start_playback E file_path (clamp_cursor st)) = Raise (Exception (modplug_message msg)) /\
  (exists st',
     play_song E (S depth) st = (Ret tt, st') /\
     trace (gui st') = trace (gui st) ++ [showerror (u "Error") shown]) /\
  PyStr.contains (u "Fix: install VLC backend:" ++ nl ++ u "  pip install python-vlc") shown = true.
Proof.
  intros Hview Hfile Hexists Hpy Hinit Hload Hmod shown.
  assert (Hstart : fst (start_playback E file_path (clamp_cursor st))
                   = Raise (Exception (modplug_message msg))).
  { apply start_playback_modplug; auto.
    - unfold plays_with_pygame in *.
      destruct (clamp_cursor_backend st) as (-> & -> & ->). exact Hpy.
    - destruct (clamp_cursor_frame st) as (_ & _ & _ & -> & _). exact Hinit. }
  split; [exact Hstart|]. split; [|apply modplug_message_has_fix].
  destruct (start_playback E file_path (clamp_cursor st)) as [r st2] eqn:Hrun.
  simpl in Hstart. subst r.
  destruct (play_failure_reported E depth st st2 _
              (BackendError E st file_path _ st2 Hview Hfile Hexists Hrun))
    as (st' & Hplay & Htrace & _).
  exists st'. split; [exact Hplay|exact Htrace].
Qed.

Lemma play_song_reports_decode_failure_witness :
  let st := sample_state false abc 0 false in
  let shown := u "Could not play song:" ++ nl ++ modplug_message (u "ModPlug_load failed.") in
  fst (start_playback modplug_env (u "a.mp3") (clamp_cursor st))
    = Raise (Exception (modplug_message (u "ModPlug_load failed."))) /\
  (exists st',
     play_song modplug_env 1 st = (Ret tt, st') /\
     trace (gui st') = trace (gui st) ++ [showerror (u "Error") shown]) /\
  PyStr.contains (u "Fix: install VLC backend:" ++ nl ++ u "  pip install python-vlc") shown = true.
Proof.
  apply (play_song_reports_decode_failure modplug_env 0 (sample_state false abc 0 false)
           (u "a.mp3") (u "ModPlug_load failed."));
    [discriminate | reflexivity | reflexivity | reflexivity | reflexivity
    | reflexivity | reflexivity].
Defined.

(** *** The cursor invariant *)

Lemma cursor_ok_same (st st' : State) : same_cursor st st' -> cursor_ok st -> cursor_ok st'.
Proof. unfold same_cursor, cursor_ok. intros [-> ->] H. exact H. Qed.

Lemma clamp_cursor_ok (st : State) : cursor_ok st -> cursor_ok (clamp_cursor st).
Proof.
  unfold clamp_cursor, cursor_ok. destruct (_ <=? _) eqn:Hle; simpl; [|auto].
  intros _ Hne. destruct (current_playlist (player st)); [congruence|]. simpl. lia.
Qed.

Lemma wrapped_cursor_ok (st : State) (i : Z) :
  current_playlist (player st) <> [] ->
  cursor_ok (with_player
    (set_current_index (i mod Z.of_nat (List.length (current_playlist (player st))))) st).
Proof.
  intros Hne _. simpl. apply Z.mod_pos_bound.
  destruct (current_playlist (player st)); [congruence|]. simpl. lia.
Qed.

Lemma play_song_with_keeps (E : Env) (check : M unit) :
  keeps_cursor check ->
  forall st,
    current_playlist (player (play_song_with E check st)) = current_playlist (player st) /\
    (cursor_ok st -> cursor_ok (play_song_with E check st)).
Proof.
  intros Hc st. unfold play_song_with.
  destruct (current_playlist (player st)) as [|x view] eqn:Hv.
  { simpl. rewrite Hv. auto. }
  rewrite <- Hv. clear Hv.
  destruct (clamp_cursor_frame st) as (Hview & _).
  pose proof (clamp_cursor_ok st) as Hok1.
  set (st1 := clamp_cursor st) in *.
  destruct (py_getitem _ _) as [file_path|].
  2:{ simpl. split; [exact Hview|].
      intros Hok. apply (cursor_ok_same st1); [now split|auto]. }
  destruct (negb (path_exists E file_path)).
  { simpl. split; [exact Hview|].
    intros Hok. apply (cursor_ok_same st1); [now split|auto]. }
  destruct (backend_start_audio_only E file_path st1) as [Hp _].
  destruct (start_playback E file_path st1) as [[[]|e] st2]; simpl in Hp.
  2:{ simpl. rewrite Hp. split; [exact Hview|].
      intros Hok. apply (cursor_ok_same st1); [split; simpl; now rewrite Hp|auto]. }
  destruct (Hc (mark_playing E file_path st2)) as [Hview3 Hok3].
  simpl in Hview3. rewrite Hp, Hview in Hview3.
  assert (Hok2 : cursor_ok st -> cursor_ok (mark_playing E file_path st2)).
  { intros Hok. apply (cursor_ok_same st1); [split; simpl; now rewrite Hp|auto]. }
  destruct (check (mark_playing E file_path st2)) as [[[]|e] st3]; simpl in *.
  - split; [exact Hview3|auto].
  - split; [exact Hview3|]. intros Hok.
    apply (cursor_ok_same st3); [now split|auto].
Qed.

Lemma check_song_end_with_keeps (next : M unit) :
  keeps_cursor next -> keeps_cursor (check_song_end_with next).
Proof.
  intros Hn st. unfold check_song_end_with.
  destruct (is_playing (player st)); [|simpl; auto].
  pose proof (read_only_get_busy st) as Hro.
  destruct (pygame_music.get_busy st) as [[busy|e] st1]; simpl in Hro; subst st1; [|simpl; auto].
  destruct busy; simpl; [auto|]. apply Hn.
Qed.

(** [next_song] and [previous_song] on a non-empty view put the cursor
    into the range whatever it was. *)
Lemma next_song_with_keeps (play : M unit) :
  keeps_cursor play ->
  forall st,
    current_playlist (player (snd (next_song_with play st))) = current_playlist (player st) /\
    (current_playlist (player st) <> [] -> cursor_ok (snd (next_song_with play st))).
Proof.
  intros Hp st. unfold next_song_with.
  destruct (current_playlist (player st)) as [|x view] eqn:Hv; [simpl; split; congruence|].
  rewrite <- Hv.
  destruct (Hp (with_player (set_current_index
                  ((current_index (player st) + 1)
                   mod Z.of_nat (List.length (current_playlist (player st))))) st))
    as [Hview Hok].
  split; [exact Hview|]. intros Hne. apply Hok, wrapped_cursor_ok, Hne.
Qed.

Lemma previous_song_with_keeps (play : M unit) :
  keeps_cursor play ->
  forall st,
    current_playlist (player (snd (previous_song_with play st))) = current_playlist (player st) /\
    (current_playlist (player st) <> [] -> cursor_ok (snd (previous_song_with play st))).
Proof.
  intros Hp st. unfold previous_song_with.
  destruct (current_playlist (player st)) as [|x view] eqn:Hv; [simpl; split; congruence|].
  rewrite <- Hv.
  destruct (Hp (with_player (set_current_index
                  ((current_index (player st) - 1)
                   mod Z.of_nat (List.length (current_playlist (player st))))) st))
    as [Hview Hok].
  split; [exact Hview|]. intros Hne. apply Hok, wrapped_cursor_ok, Hne.
Qed.

Lemma cursor_ok_of_view (st st' : State) :
  current_playlist (player st') = current_playlist (player st) ->
  (current_playlist (player st) <> [] -> cursor_ok st') ->
  cursor_ok st'.
Proof.
  intros Hview H Hne. apply H; [|exact Hne]. now rewrite <- Hview.
Qed.

Lemma next_song_with_keeps_cursor (play : M unit) :
  keeps_cursor play -> keeps_cursor (next_song_with play).
Proof.
  intros Hp st. destruct (next_song_with_keeps play Hp st) as [Hview Hok].
  split; [exact Hview|]. intros _. now apply (cursor_ok_of_view st).
Qed.

Lemma play_song_keeps (E : Env) (depth : nat) : keeps_cursor (play_song E depth).
Proof.
  induction depth as [|depth IH]; [intros st; simpl; auto|].
  intros st. rewrite play_song_S. simpl.
  apply play_song_with_keeps, check_song_end_with_keeps, next_song_with_keeps_cursor, IH.
Qed.

Lemma py_remove_length (x : str) (l : list str) :
  In x l -> S (List.length (py_remove x l)) = List.length l.
Proof.
  induction l as [|y l IH]; simpl; [easy|]. intros Hin.
  destruct (PyStr.eqb x y) eqn:Hxy; [reflexivity|].
  apply PyStr_eqb_neq in Hxy. destruct Hin as [->|Hin]; [congruence|].
  simpl. now rewrite IH.
Qed.

Lemma remove_song_keeps_cursor (E : Env) (index : nat) (st : State) :
  cursor_ok st -> cursor_ok (remove_song_from_current_playlist E index st).
Proof.
  intros Hok. unfold remove_song_from_current_playlist.
  destruct (nth_error (current_playlist (player st)) index) as [file_path|] eqn:Hnth; [|exact Hok].
  destruct (playlists (player st) !! current_playlist_name (player st)) as [songs|]; [|exact Hok].
  destruct (py_in file_path songs); [|exact Hok].
  assert (Hlt : (index < List.length (current_playlist (player st)))%nat).
  { apply nth_error_Some. congruence. }
  pose proof (py_remove_length file_path _ (nth_error_In _ _ Hnth)) as Hlen.
  assert (Hne : current_playlist (player st) <> []).
  { intros Heq. rewrite Heq in Hlt. simpl in Hlt. lia. }
  specialize (Hok Hne). unfold cursor_ok. simpl.
  destruct ((Z.of_nat index <=? current_index (player st)) && (0 <? current_index (player st)))
    eqn:Hcond; simpl; intros Hne'.
  - apply andb_true_iff in Hcond as [H1 H2]. lia.
  - destruct (py_remove file_path (current_playlist (player st))) eqn:Hrem; [congruence|].
    simpl in *. apply andb_false_iff in Hcond as [H1|H2]; lia.
Qed.

(** *** The pygame backend: every call returns *)

Lemma start_playback_pygame_busy (E : Env) (file_path : str) (st st2 : State) :
  plays_with_pygame st ->
  start_playback E file_path st = (Ret tt, st2) ->
  mixer_init (audio st2) = true /\ music_busy (audio st2) = true.
Proof.
  unfold plays_with_pygame, start_playback, bind. intros Hpy H.
  destruct (backend_stop_audio_only st) as [Hp _].
  destruct (_backend_stop st) as [[[]|e] st1]; [|discriminate]. simpl in Hp.
  unfold _backend_play in H. rewrite Hp, Hpy in H.
  unfold try_except, bind, pygame_music.load, pygame_music.play in H.
  destruct (mixer_init (audio st1)) eqn:Hinit; [|simpl in H; discriminate].
  destruct (music_load E (normpath E file_path)) as [e|].
  { simpl in H. unfold on_pygame_error in H.
    destruct e; try discriminate. destruct (PyStr.contains _ _); discriminate. }
  simpl in H. rewrite Hinit in H. simpl in H. injection H as <-. simpl. auto.
Qed.

Lemma play_song_pygame (E : Env) (depth : nat) (st : State) :
  plays_with_pygame st ->
  exists st',
    play_song E (S depth) st = (Ret tt, st') /\
    plays_with_pygame st' /\
    current_playlist (player st') = current_playlist (player st) /\
    (current_playlist (player st) <> [] ->
     current_index (player st') = current_index (player (clamp_cursor st))).
Proof.
  intros Hpy. rewrite play_song_S. unfold play_song_with.
  destruct (current_playlist (player st)) as [|x view] eqn:Hv.
  { eexists. split; [reflexivity|]. simpl. rewrite Hv. repeat split; [exact Hpy|congruence]. }
  rewrite <- Hv. clear Hv.
  destruct (clamp_cursor_frame st) as (Hview & _).
  assert (Hpy1 : plays_with_pygame (clamp_cursor st)).
  { unfold plays_with_pygame in *. destruct (clamp_cursor_backend st) as (-> & -> & ->). exact Hpy. }
  set (st1 := clamp_cursor st) in *.
  destruct (py_getitem _ _) as [file_path|].
  2:{ eexists. split; [reflexivity|]. simpl. repeat split; auto. }
  destruct (negb (path_exists E file_path)).
  { eexists. split; [reflexivity|]. simpl. repeat split; auto. }
  destruct (backend_start_audio_only E file_path st1) as [Hp _].
  destruct (start_playback E file_path st1) as [[[]|e] st2] eqn:Hstart; simpl in Hp.
  2:{ eexists. split; [reflexivity|]. simpl. unfold plays_with_pygame in *. simpl.
      rewrite Hp. repeat split; auto. }
  apply start_playback_pygame_busy in Hstart as [Hinit Hbusy]; [|exact Hpy1].
  unfold check_song_end, check_song_end_with, pygame_music.get_busy. simpl.
  rewrite Hinit, Hbusy. simpl.
  eexists. split; [reflexivity|]. unfold plays_with_pygame in *. simpl.
  rewrite Hp. repeat split; auto.
Qed.

Lemma next_song_pygame (E : Env) (depth : nat) (st : State) :
  plays_with_pygame st ->
  current_playlist (player st) <> [] ->
  exists st',
    next_song E (S depth) st = (Ret tt, st') /\
    plays_with_pygame st' /\
    current_playlist (player st') = current_playlist (player st) /\
    current_index (player st') =
      (current_index (player st) + 1) mod Z.of_nat (List.length (current_playlist (player st))).
Proof.
  intros Hpy Hne. unfold next_song, next_song_with.
  destruct (current_playlist (player st)) as [|x view] eqn:Hv; [congruence|].
  rewrite <- Hv.
  set (st0 := with_player _ st).
  destruct (play_song_pygame E depth st0) as (st' & Hplay & Hpy' & Hview & Hidx); [exact Hpy|].
  exists st'. split; [exact Hplay|]. split; [exact Hpy'|]. split; [exact Hview|].
  rewrite Hidx by (simpl; congruence).
  unfold clamp_cursor. subst st0. simpl.
  pose proof (Z.mod_pos_bound (current_index (player st) + 1)
                (Z.of_nat (List.length (current_playlist (player st))))) as Hb.
  rewrite Hv in Hb at 1. simpl in Hb.
  destruct (_ <=? _) eqn:Hle; [lia|reflexivity].
Qed.

(** *** The calls return *)

Lemma next_song_returns (E : Env) (depth : nat) (st : State) :
  fst (next_song E (S depth) st) = Ret tt.
Proof.
  unfold next_song, next_song_with. now destruct (current_playlist (player st)).
Qed.

Lemma previous_song_returns (E : Env) (depth : nat) (st : State) :
  fst (previous_song E (S depth) st) = Ret tt.
Proof.
  unfold previous_song, previous_song_with. now destruct (current_playlist (player st)).
Qed.

Lemma returns_with {A} (m : M A) (st : State) (a : A) :
  fst (m st) = Ret a -> m st = (Ret a, snd (m st)).
Proof. destruct (m st) as [r st']. simpl. now intros ->. Qed.

(** A cursor at or beyond the end of a non-empty view: [play_song]
    starts by putting it to 0. *)
Lemma play_song_stale_cursor (E : Env) (depth : nat) (st : State) :
  current_playlist (player st) <> [] ->
  Z.of_nat (List.length (current_playlist (player st))) <= current_index (player st) ->
  play_song E (S depth) st = play_song E (S depth) (with_player (set_current_index 0) st) /\
  cursor_ok (snd (play_song E (S depth) st)).
Proof.
  intros Hne Hle.
  assert (Hclamp : clamp_cursor st = with_player (set_current_index 0) st).
  { unfold clamp_cursor. apply Z.leb_le in Hle. now rewrite Hle. }
  assert (Hclamp0 : clamp_cursor (with_player (set_current_index 0) st)
                    = with_player (set_current_index 0) st).
  { unfold clamp_cursor. simpl.
    destruct (current_playlist (player st)); [congruence|]. reflexivity. }
  assert (Heq : play_song E (S depth) st
                = play_song E (S depth) (with_player (set_current_index 0) st)).
  { rewrite !play_song_S. f_equal. unfold play_song_with.
    rewrite Hclamp, Hclamp0. simpl.
    destruct (current_playlist (player st)); [congruence|reflexivity]. }
  split; [exact Heq|]. rewrite Heq.
  apply play_song_keeps. intros _. simpl.
  destruct (current_playlist (player st)); [congruence|]. simpl. lia.
Qed.

(** C2, as the code has it: the cursor invariant (a non-empty view has
    its cursor in [0, len(view))) is kept by [play_song], [next_song],
    [previous_song] and [remove_song_from_current_playlist]; the three
    transport calls return and keep the view, whichever backend plays,
    and [next_song] and [previous_song] keep the invariant also when the
    [play_song] they call no longer fits below the recursion limit.
    [select_playlist] is not among them: it keeps the cursor it finds, so
    the invariant holds afterwards exactly when that cursor fits the new
    view.  A cursor it leaves at or beyond the end of the new view is put
    to 0 by the next [play_song], which brings the invariant back. *)
Theorem cursor_invariant_kept
    (E : Env) (depth index : nat) (playlist_name : str) (st : State) :
  cursor_ok st ->
  (exists st',
     play_song E (S depth) st = (Ret tt, st') /\
     current_playlist (player st') = current_playlist (player st) /\ cursor_ok st') /\
  (exists st',
     next_song E (S depth) st = (Ret tt, st') /\
     current_playlist (player st') = current_playlist (player st) /\ cursor_ok st') /\
  (exists st',
     previous_song E (S depth) st = (Ret tt, st') /\
     current_playlist (player st') = current_playlist (player st) /\ cursor_ok st') /\
  cursor_ok (snd (next_song E 0 st)) /\
  cursor_ok (snd (previous_song E 0 st)) /\
  cursor_ok (remove_song_from_current_playlist E index st) /\
  (let st1 := select_playlist E playlist_name st in
   let view' := current_playlist (player st1) in
   (cursor_ok st1 <->
    (view' = [] \/ 0 <= current_index (player st) < Z.of_nat (List.length view'))) /\
   (view' <> [] -> Z.of_nat (List.length view') <= current_index (player st) ->
    play_song E (S depth) st1 = play_song E (S depth) (with_player (set_current_index 0) st1) /\
    cursor_ok (snd (play_song E (S depth) st1)))).
Proof.
  intros Hok.
  split; [|split; [|split; [|split; [|split; [|split; [|split]]]]]].
  - exists (snd (play_song E (S depth) st)). split; [reflexivity|].
    destruct (play_song_keeps E (S depth) st) as [Hview Hkeep]. split; [exact Hview|auto].
  - exists (snd (next_song E (S depth) st)).
    split; [apply returns_with, next_song_returns|].
    destruct (next_song_with_keeps_cursor _ (play_song_keeps E (S depth)) st) as [Hview Hkeep].
    split; [exact Hview|auto].
  - exists (snd (previous_song E (S depth) st)).
    split; [apply returns_with, previous_song_returns|].
    destruct (previous_song_with_keeps _ (play_song_keeps E (S depth)) st) as [Hview Hkeep].
    split; [exact Hview|]. now apply (cursor_ok_of_view st).
  - now apply (next_song_with_keeps_cursor _ (play_song_keeps E 0) st).
  - destruct (previous_song_with_keeps _ (play_song_keeps E 0) st) as [Hview Hkeep].
    now apply (cursor_ok_of_view st).
  - now apply remove_song_keeps_cursor.
  - split.
    + unfold cursor_ok. simpl. intros H.
      match goal with |- ?v = [] \/ _ => destruct v eqn:Hv end; [now left|right].
      apply H. discriminate.
    + unfold cursor_ok. simpl. intros [->|H] Hne; [congruence|exact H].
  - intros Hne Hle. now apply play_song_stale_cursor.
Qed.

Lemma cursor_invariant_kept_witness :
  let st := sample_state true abc 2 true in
  (exists st',
     play_song sample_env 4 st = (Ret tt, st') /\
     current_playlist (player st') = current_playlist (player st) /\ cursor_ok st') /\
  (exists st',
     next_song sample_env 4 st = (Ret tt, st') /\
     current_playlist (player st') = current_playlist (player st) /\ cursor_ok st') /\
  (exists st',
     previous_song sample_env 4 st = (Ret tt, st') /\
     current_playlist (player st') = current_playlist (player st) /\ cursor_ok st') /\
  cursor_ok (snd (next_song sample_env 0 st)) /\
  cursor_ok (snd (previous_song sample_env 0 st)) /\
  cursor_ok (remove_song_from_current_playlist sample_env 0 st) /\
  (let st1 := select_playlist sample_env (u "Favourite") st in
   let view' := current_playlist (player st1) in
   (cursor_ok st1 <->
    (view' = [] \/ 0 <= current_index (player st) < Z.of_nat (List.length view'))) /\
   (view' <> [] -> Z.of_nat (List.length view') <= current_index (player st) ->
    play_song sample_env 4 st1 = play_song sample_env 4 (with_player (set_current_index 0) st1) /\
    cursor_ok (snd (play_song sample_env 4 st1)))).
Proof.
  apply (cursor_invariant_kept sample_env 3 0 (u "Favourite") (sample_state true abc 2 true)).
  intros _. simpl. lia.
Defined.

(** C2 as the claim states it fails on [select_playlist]: the cursor 2 is
    valid in a view of three songs, and stale in the one-song view that
    replaces it. *)
Lemma select_playlist_breaks_cursor_invariant :
  cursor_ok (sample_state false abc 2 true) /\
  ~ cursor_ok (select_playlist sample_env (u "Favourite") (sample_state false abc 2 true)).
Proof.
  split.
  - intros _. simpl. lia.
  - intros H. unfold cursor_ok in H.
    assert (Hne : current_playlist
              (player (select_playlist sample_env (u "Favourite") (sample_state false abc 2 true)))
            <> []) by (vm_compute; discriminate).
    specialize (H Hne). vm_compute in H. destruct H as [_ H]. discriminate.
Qed.

(** *** The end-of-song poll under VLC *)

Lemma py_getitem_in_range {A} (l : list A) (i : Z) :
  0 <= i < Z.of_nat (List.length l) -> exists x, py_getitem l i = Some x /\ In x l.
Proof.
  intros Hi. unfold py_getitem.
  destruct (i <? 0) eqn:Hneg; [lia|].
  destruct (nth_error l (Z.to_nat i)) as [x|] eqn:Hnth.
  - exists x. split; [reflexivity|]. eapply nth_error_In, Hnth.
  - apply nth_error_None in Hnth. lia.
Qed.

Lemma start_playback_vlc (E : Env) (file_path : str) (st : State) :
  plays_with_vlc st ->
  exists st2,
    start_playback E file_path st = (Ret tt, st2) /\
    player st2 = player st /\
    mixer_init (audio st2) = mixer_init (audio st) /\
    music_busy (audio st2) = music_busy (audio st).
Proof.
  intros (Hu & Hi & Hp).
  unfold start_playback, bind, _backend_stop, _backend_play.
  rewrite Hu, Hp. simpl. rewrite Hu, Hi, Hp. simpl.
  eexists. split; [reflexivity|]. now simpl.
Qed.

Lemma check_song_end_with_idle (next : M unit) (st : State) :
  is_playing (player st) = true ->
  mixer_init (audio st) = true ->
  music_busy (audio st) = false ->
  check_song_end_with next st = next st.
Proof.
  intros Hplaying Hinit Hbusy.
  unfold check_song_end_with, pygame_music.get_busy.
  now rewrite Hplaying, Hinit, Hbusy.
Qed.

Lemma next_song_with_nonempty (play : M unit) (st : State) :
  current_playlist (player st) <> [] ->
  next_song_with play st =
    play (with_player
            (set_current_index
               ((current_index (player st) + 1)
                mod Z.of_nat (List.length (current_playlist (player st))))) st).
Proof.
  intros Hne. unfold next_song_with.
  destruct (current_playlist (player st)); [congruence|reflexivity].
Qed.

Lemma clamp_cursor_valid (st : State) :
  cursor_ok st -> current_playlist (player st) <> [] -> clamp_cursor st = st.
Proof.
  intros Hok Hne. specialize (Hok Hne). unfold clamp_cursor.
  destruct (_ <=? _) eqn:Hle; [|reflexivity]. apply Z.leb_le in Hle. lia.
Qed.

(** With VLC playing and every file of the view present, [play_song]
    calls [check_song_end], which finds the pygame mixer idle and calls
    [next_song], which calls [play_song] on the next song. *)
Lemma play_song_vlc_step (E : Env) (depth : nat) (st : State) :
  plays_with_vlc st -> mixer_idle st -> cursor_ok st ->
  current_playlist (player st) <> [] ->
  (forall file_path, In file_path (current_playlist (player st)) ->
     path_exists E file_path = true) ->
  exists st_next,
    plays_with_vlc st_next /\ mixer_idle st_next /\ cursor_ok st_next /\
    current_playlist (player st_next) = current_playlist (player st) /\
    current_index (player st_next) =
      (current_index (player st) + 1) mod Z.of_nat (List.length (current_playlist (player st))) /\
    trace (gui st_next) = trace (gui st) /\
    play_song E (S depth) st =
      (Ret tt, match play_song E depth st_next with
               | (Ret _, st3) => st3
               | (Raise e, st3) => play_song_failed e st3
               end).
Proof.
  intros Hvlc Hidle Hok Hne Hall.
  rewrite play_song_S. unfold play_song_with.
  rewrite (clamp_cursor_valid st Hok Hne).
  destruct (current_playlist (player st)) as [|x view] eqn:Hv; [congruence|].
  rewrite <- Hv in *. clear Hv x view.
  destruct (py_getitem_in_range (current_playlist (player st)) (current_index (player st)))
    as (file_path & -> & Hin).
  { now apply Hok. }
  rewrite (Hall _ Hin). simpl.
  destruct (backend_start_audio_only E file_path st) as [_ Hg].
  destruct (start_playback_vlc E file_path st Hvlc) as (st2 & Hstart & Hp2 & Hinit & Hbusy).
  rewrite Hstart in Hg. rewrite Hstart. simpl in Hg.
  destruct Hidle as [Hmi Hmb].
  unfold check_song_end.
  rewrite check_song_end_with_idle by (simpl; congruence).
  unfold next_song.
  rewrite next_song_with_nonempty by (simpl; now rewrite Hp2).
  eexists. repeat match goal with |- _ /\ _ => split end; [| | | | | |reflexivity].
  - destruct Hvlc as (? & ? & ?). unfold plays_with_vlc. simpl. rewrite Hp2.
    repeat split; congruence.
  - split; simpl; congruence.
  - intros _. simpl. rewrite Hp2. apply Z.mod_pos_bound.
    destruct (current_playlist (player st)); [congruence|simpl; lia].
  - simpl. now rewrite Hp2.
  - simpl. now rewrite Hp2.
  - simpl. now rewrite Hg.
Qed.

(** So the calls nest until the recursion limit: the [play_song] that no
    longer fits raises [RecursionError], the innermost running
    [play_song] catches it, reports it and clears [is_playing], and all
    the calls return.  By then the cursor has moved once for every
    nested call. *)
Lemma play_song_vlc_exhausts (E : Env) (depth : nat) :
  forall st,
    plays_with_vlc st -> mixer_idle st -> cursor_ok st ->
    current_playlist (player st) <> [] ->
    (forall file_path, In file_path (current_playlist (player st)) ->
       path_exists E file_path = true) ->
    exists st',
      play_song E (S depth) st = (Ret tt, st') /\
      is_playing (player st') = false /\
      trace (gui st') =
        trace (gui st) ++
        [showerror (u "Error") (u "Could not play song: " ++ exn_str RecursionError)] /\
      current_playlist (player st') = current_playlist (player st) /\
      current_index (player st') =
        (current_index (player st) + Z.of_nat (S depth))
          mod Z.of_nat (List.length (current_playlist (player st))).
Proof.
  induction depth as [|depth IH]; intros st Hvlc Hidle Hok Hne Hall.
  - destruct (play_song_vlc_step E 0 st Hvlc Hidle Hok Hne Hall)
      as (st_next & Hvlc' & Hidle' & Hok' & Hview & Hidx & Htrace & ->).
    simpl. eexists. split; [reflexivity|]. simpl.
    rewrite Htrace, Hview, Hidx. now repeat split.
  - destruct (play_song_vlc_step E (S depth) st Hvlc Hidle Hok Hne Hall)
      as (st_next & Hvlc' & Hidle' & Hok' & Hview & Hidx & Htrace & ->).
    destruct (IH st_next Hvlc' Hidle' Hok') as (st' & -> & Hplaying & Htrace' & Hview' & Hidx').
    { now rewrite Hview. }
    { now rewrite Hview. }
    exists st'. split; [reflexivity|]. split; [exact Hplaying|].
    split; [now rewrite Htrace', Htrace|]. split; [now rewrite Hview', Hview|].
    rewrite Hidx', Hview, Hidx, Zplus_mod_idemp_l. f_equal. lia.
Qed.

(** C3 fails on the code when VLC is the backend: [check_song_end] asks
    the pygame mixer, not [_backend_is_busy].  Here VLC is playing
    ["a.mp3"] and [_backend_is_busy] answers true, yet one poll moves on
    to ["b.mp3"] and from there to the missing ["c.mp3"]: two calls of
    [next_song].  With no missing file in the view the one poll calls
    [next_song] as often as the recursion limit lets it ([depth + 2]
    times) and ends with the error box of [play_song] and [is_playing]
    cleared. *)
Theorem check_song_end_polls_pygame_under_vlc :
  fst (_backend_is_busy (vlc_playing_state abc 0)) = Ret true /\
  (exists st',
     check_song_end sample_env 2 (vlc_playing_state abc 0) = (Ret tt, st') /\
     current_index (player st') = 2 /\
     vlc_media (audio st') = Some (u "b.mp3") /\
     trace (gui st') = [showerror (u "Error") (u "File not found:" ++ nl ++ u "c.mp3")]) /\
  (forall depth,
     exists st',
       check_song_end sample_env (S depth) (vlc_playing_state [u "a.mp3"; u "b.mp3"] 0)
       = (Ret tt, st') /\
       current_index (player st') = (0 + Z.of_nat (depth + 2)) mod 2 /\
       is_playing (player st') = false /\
       trace (gui st') =
         [showerror (u "Error") (u "Could not play song: maximum recursion depth exceeded")]).
Proof.
  split; [reflexivity|]. split.
  - eexists. split; [vm_compute; reflexivity|]. repeat split.
  - intros depth. unfold check_song_end.
    rewrite check_song_end_with_idle by reflexivity.
    unfold next_song. rewrite next_song_with_nonempty by discriminate.
    set (st1 := with_player _ _).
    destruct (play_song_vlc_exhausts sample_env depth st1)
      as (st' & Hrun & Hplaying & Htrace & _ & Hidx).
    + now repeat split.
    + now split.
    + intros _. vm_compute. split; [discriminate|reflexivity].
    + discriminate.
    + intros file_path [<-|[<-|[]]]; reflexivity.
    + exists st'. split; [exact Hrun|]. split; [|split; [exact Hplaying|exact Htrace]].
      rewrite Hidx.
      change (current_index (player st1)) with 1.
      change (Z.of_nat (List.length (current_playlist (player st1)))) with 2.
      f_equal. lia.
Qed.

(** *** Wrap-around of [next_song] *)

Lemma repeat_next_pygame (E : Env) (depth k : nat) :
  forall st,
    plays_with_pygame st ->
    current_playlist (player st) <> [] ->
    exists st',
      repeat_next E (S depth) k st = (Ret tt, st') /\
      current_playlist (player st') = current_playlist (player st) /\
      (current_index (player st')) mod Z.of_nat (List.length (current_playlist (player st)))
      = (current_index (player st) + Z.of_nat k)
          mod Z.of_nat (List.length (current_playlist (player st))) /\
      (k <> O -> 0 <= current_index (player st')
                 < Z.of_nat (List.length (current_playlist (player st)))).
Proof.
  induction k as [|k IH]; intros st Hpy Hne.
  - exists st. simpl. rewrite Z.add_0_r. repeat split; congruence.
  - simpl repeat_next. unfold bind.
    destruct (next_song_pygame E depth st Hpy Hne) as (st1 & -> & Hpy1 & Hview1 & Hidx1).
    destruct (IH st1 Hpy1) as (st' & Hrun & Hview & Hidx & Hrange); [congruence|].
    exists st'. rewrite Hview1 in *. split; [exact Hrun|]. split; [exact Hview|].
    assert (Hpos : 0 < Z.of_nat (List.length (current_playlist (player st)))).
    { destruct (current_playlist (player st)); [congruence|simpl; lia]. }
    split.
    + rewrite Hidx, Hidx1, Zplus_mod_idemp_l. f_equal. lia.
    + intros _. destruct k as [|k].
      * simpl in Hrun. injection Hrun as <-. rewrite Hidx1. apply Z.mod_pos_bound, Hpos.
      * apply Hrange. discriminate.
Qed.

(** With pygame as the playing backend [next_song] does what C7 says:
    called [len(view)] times from a valid cursor it ends on that cursor. *)
Lemma next_song_closure_pygame (E : Env) (depth : nat) (st : State) :
  plays_with_pygame st ->
  current_playlist (player st) <> [] ->
  cursor_ok st ->
  exists st',
    repeat_next E (S depth) (List.length (current_playlist (player st))) st = (Ret tt, st') /\
    current_index (player st') = current_index (player st).
Proof.
  intros Hpy Hne Hok.
  destruct (repeat_next_pygame E depth (List.length (current_playlist (player st))) st Hpy Hne)
    as (st' & Hrun & _ & Hidx & Hrange).
  exists st'. split; [exact Hrun|].
  assert (Hn : List.length (current_playlist (player st)) <> O).
  { destruct (current_playlist (player st)); [congruence|discriminate]. }
  specialize (Hrange Hn). specialize (Hok Hne).
  rewrite Z.mod_small in Hidx by exact Hrange.
  rewrite Hidx.
  rewrite <- (Z.mul_1_l (Z.of_nat (List.length (current_playlist (player st))))) at 1.
  rewrite Z_mod_plus_full. now apply Z.mod_small.
Qed.

(** C7 fails on the code when VLC is the backend, by the same poll of
    the pygame mixer in [check_song_end]: every [next_song] runs on until
    it meets the missing ["c.mp3"], so after three calls from cursor 0 the
    cursor is 2. *)
Theorem next_song_three_times_under_vlc :
  cursor_ok (vlc_playing_state abc 0) /\
  (exists st',
     repeat_next sample_env 3 3 (vlc_playing_state abc 0) = (Ret tt, st') /\
     current_index (player st') = 2).
Proof.
  split; [intros _; vm_compute; split; [discriminate|reflexivity]|].
  eexists. split; [vm_compute; reflexivity|reflexivity].
Qed.

(** *** Floats *)

Lemma float_ltb_leb (x y : float) : PrimFloat.ltb x y = true -> PrimFloat.leb x y = true.
Proof.
  rewrite FloatAxioms.ltb_spec, FloatAxioms.leb_spec. unfold SFltb, SFleb.
  destruct (SFcompare (Prim2SF x) (Prim2SF y)) as [[]|]; congruence.
Qed.


Lemma clamp_range (x : float) :
  let sent := PyFloat.max 0%float (PyFloat.min 1%float x) in
  PrimFloat.leb 0%float sent = true /\ PrimFloat.leb sent 1%float = true /\
  (PrimFloat.ltb 0%float x = true -> PrimFloat.ltb x 1%float = true -> sent = x).
Proof.
  unfold PyFloat.max, PyFloat.min.
  destruct (PrimFloat.ltb x 1%float) eqn:H1.
  - destruct (PrimFloat.ltb 0%float x) eqn:H0.
    + repeat split; auto using float_ltb_leb.
    + repeat split; try reflexivity. discriminate.
  - repeat split; try reflexivity. discriminate.
Qed.

(** *** Volume *)

Lemma backend_set_volume_audio_only (v : float) : audio_only (_backend_set_volume v).
Proof.
  intros st. unfold _backend_set_volume.
  destruct (_use_vlc (player st) && _vlc_player (player st)).
  - apply (audio_only_bind _ _ (read_only_audio_only _ (read_only_lift _))
             (fun _ => audio_only_modify_audio _) st).
  - apply (audio_only_try _ _ (audio_only_call _)
             (fun _ => read_only_audio_only _ (read_only_ret _)) st).
Qed.

Lemma set_volume_state (value : float) (st : State) :
  snd (set_volume value st) =
  snd (_backend_set_volume (PrimFloat.div value 100%float)
         (with_player (set_volume_field (PrimFloat.div value 100%float)) st)).
Proof.
  unfold set_volume, bind, modify, gets, lift. simpl.
  destruct (_backend_set_volume _ _) as [[[]|e] st1]; simpl; [|reflexivity].
  now destruct (PyFloat.to_int _).
Qed.

(** C4, as the code has it: [set_volume(value)] stores [value / 100] as
    the volume of the player, unclamped; the clamp to [0, 1] is applied
    in [_backend_set_volume] to what is sent to the backend.  pygame
    receives the clamped float (nothing when its mixer is down, the error
    being swallowed), VLC the integer part of a hundred times it. *)
Theorem set_volume_stores_scaled (value : float) (st : State) :
  let st' := snd (set_volume value st) in
  let stored := PrimFloat.div value 100%float in
  let sent := PyFloat.max 0%float (PyFloat.min 1%float stored) in
  volume (player st') = stored /\
  (PrimFloat.leb 0%float sent = true /\ PrimFloat.leb sent 1%float = true) /\
  (PrimFloat.ltb 0%float stored = true -> PrimFloat.ltb stored 1%float = true -> sent = stored) /\
  (_use_vlc (player st) && _vlc_player (player st) = false ->
     (mixer_init (audio st) = true -> music_volume (audio st') = sent) /\
     (mixer_init (audio st) = false -> audio st' = audio st)) /\
  (_use_vlc (player st) && _vlc_player (player st) = true ->
     forall z, PyFloat.to_int (PrimFloat.mul sent 100%float) = Ret z ->
               vlc_volume (audio st') = z).
Proof.
  intros st' stored sent.
  destruct (clamp_range stored) as (Hlo & Hhi & Hid).
  subst st'. rewrite set_volume_state. fold stored.
  split; [|split; [split; assumption|split; [exact Hid|split]]].
  - destruct (backend_set_volume_audio_only stored
                (with_player (set_volume_field stored) st)) as [-> _].
    reflexivity.
  - intros Hpy. unfold _backend_set_volume. simpl. rewrite Hpy.
    unfold try_except, pygame_music.set_volume, pygame_music.call. simpl.
    destruct (mixer_init (audio st)); simpl; split; intros H; try discriminate; reflexivity.
  - intros Hvlc z Hz. unfold _backend_set_volume. simpl. rewrite Hvlc.
    unfold bind, lift, vlc_player.audio_set_volume, modify.
    fold sent. now rewrite Hz.
Qed.

(** C4 as the claim states it fails: [set_volume(-0.5)] stores -0.005
    and [set_volume(1.7)] stores 0.017, not 0.0 and 1.0. *)
Lemma set_volume_does_not_clamp_stored :
  volume (player (snd (set_volume (-0.5)%float (sample_state false abc 0 false)))) = (-0.005)%float /\
  volume (player (snd (set_volume 1.7%float (sample_state false abc 0 false)))) = 0.017%float /\
  ~ (volume (player (snd (set_volume (-0.5)%float (sample_state false abc 0 false)))) = 0%float /\
     volume (player (snd (set_volume 1.7%float (sample_state false abc 0 false)))) = 1%float).
Proof.
  split; [vm_compute; reflexivity|]. split; [vm_compute; reflexivity|].
  intros [H _].
  assert (Hb : PrimFloat.eqb
            (volume (player (snd (set_volume (-0.5)%float (sample_state false abc 0 false)))))
            0%float = true) by (rewrite H; reflexivity).
  vm_compute in Hb. discriminate.
Qed.

(** *** Progress *)





(** *** Titles *)

Lemma basename_scan_dir (dir name cur : str) :
  OsPath.basename_scan (dir ++ OsPath.slash :: name) cur = OsPath.basename_scan name [].
Proof.
  revert cur. induction dir as [|c dir IH]; intros cur; simpl.
  - reflexivity.
  - destruct (N.eqb c OsPath.slash); apply IH.
Qed.

Lemma filename_title_not_empty (E : Env) (file_path : str) : filename_title E file_path <> [].
Proof.
  unfold filename_title.
  destruct (PyStr.strip _); [vm_compute|]; discriminate.
Qed.

Lemma metadata_title_not_empty (E : Env) (file_path title : str) :
  metadata_title E file_path = Ret (Some title) -> title <> [].
Proof.
  unfold metadata_title. intros H.
  destruct (MutagenFile E file_path) as [[f|]|e]; try discriminate.
  destruct (tagged_title f) as [t|e]; try discriminate.
  destruct (usable_title t) eqn:Hu; try discriminate.
  injection H as ->. simpl in Hu.
  destruct (PyStr.eqb title []) eqn:Hempty; [discriminate|].
  now apply PyStr_eqb_neq.
Qed.

(** **** The steps of the fallback *)

Lemma forallb_absent (p : N -> bool) (s : str) (k : N) :
  forallb p s = true -> p k = false -> ~ In k s.
Proof.
  intros Hall Hk Hin. rewrite forallb_forall in Hall. specialize (Hall k Hin). congruence.
Qed.

Lemma basename_scan_plain (name cur : str) :
  ~ In OsPath.slash name -> OsPath.basename_scan name cur = rev cur ++ name.
Proof.
  revert cur. induction name as [|c name IH]; intros cur Hno; simpl.
  - now rewrite app_nil_r.
  - destruct (N.eqb c OsPath.slash) eqn:Hc.
    + apply N.eqb_eq in Hc. subst c. destruct Hno. now left.
    + rewrite IH by (intros Hin; apply Hno; now right).
      simpl. now rewrite <- app_assoc.
Qed.

Lemma rfind_from_absent (c : N) (s : str) (i found : Z) :
  ~ In c s -> OsPath.rfind_from c s i found = found.
Proof.
  revert i found. induction s as [|x s IH]; intros i found Hno; simpl; [reflexivity|].
  destruct (N.eqb x c) eqn:Hx.
  - apply N.eqb_eq in Hx. subst x. destruct Hno. now left.
  - apply IH. intros Hin. apply Hno. now right.
Qed.

Lemma rfind_from_last (c : N) (x y : str) (i found : Z) :
  ~ In c y -> OsPath.rfind_from c (x ++ c :: y) i found = i + Z.of_nat (List.length x).
Proof.
  intros Hno. revert i found. induction x as [|a x IH]; intros i found.
  - simpl. rewrite N.eqb_refl, rfind_from_absent by exact Hno. lia.
  - simpl app. simpl OsPath.rfind_from. rewrite IH. simpl List.length. lia.
Qed.

Lemma splitext_root_ext (x ext : str) :
  ~ In OsPath.slash (x ++ OsPath.dot :: ext) ->
  ~ In OsPath.dot ext ->
  existsb (fun ch => negb (N.eqb ch OsPath.dot)) x = true ->
  OsPath.splitext_root (x ++ OsPath.dot :: ext) = x.
Proof.
  intros Hslash Hdot Hstem. unfold OsPath.splitext_root, OsPath.rfind.
  rewrite rfind_from_absent by exact Hslash.
  rewrite rfind_from_last by exact Hdot.
  assert (Hlt : (-1 <? 0 + Z.of_nat (List.length x)) = true) by (apply Z.ltb_lt; lia).
  rewrite Hlt. unfold OsPath.slice.
  replace (Z.to_nat (0 + Z.of_nat (List.length x) - (-1 + 1))) with (List.length x) by lia.
  replace (Z.to_nat (0 + Z.of_nat (List.length x))) with (List.length x) by lia.
  change (Z.to_nat (-1 + 1)) with O.
  change (skipn 0 (x ++ OsPath.dot :: ext)) with (x ++ OsPath.dot :: ext).
  assert (Htake : firstn (List.length x) (x ++ OsPath.dot :: ext) = x).
  { rewrite firstn_app, firstn_all, Nat.sub_diag. simpl. apply app_nil_r. }
  now rewrite Htake, Hstem.
Qed.

Lemma startswith_In (p s : str) (c : N) :
  PyStr.startswith p s = true -> In c p -> In c s.
Proof.
  revert s. induction p as [|x p IH]; intros s Hs Hin; [destruct Hin|].
  destruct s as [|y s]; [discriminate|]. simpl in Hs.
  apply andb_true_iff in Hs as [Hxy Hs]. apply N.eqb_eq in Hxy. subst y.
  destruct Hin as [->|Hin]; [now left|right; now apply IH].
Qed.

Lemma contains_absent (p s : str) (c : N) :
  In c p -> ~ In c s -> PyStr.contains p s = false.
Proof.
  intros Hin. induction s as [|y s IH]; intros Hno; simpl.
  - destruct (PyStr.startswith p []) eqn:Hs; [|reflexivity].
    destruct (startswith_In p [] c Hs Hin).
  - destruct (PyStr.startswith p (y :: s)) eqn:Hs.
    + destruct Hno. apply (startswith_In p _ c Hs Hin).
    + simpl. apply IH. intros H. apply Hno. now right.
Qed.

Lemma startswith_app (p b : str) : PyStr.startswith p (p ++ b) = true.
Proof. induction p as [|x p IH]; simpl; [reflexivity|]. now rewrite N.eqb_refl. Qed.

Lemma contains_app (p a b : str) : PyStr.contains p (a ++ p ++ b) = true.
Proof.
  induction a as [|x a IH]; simpl.
  - pose proof (startswith_app p b) as H.
    destruct (p ++ b); simpl; now rewrite H.
  - rewrite IH. apply orb_true_r.
Qed.

(** Without [-], [_] and the character the two garbled separators share,
    a name holds no separator. *)
Lemma strip_artist_plain (x : str) :
  ~ In 45%N x -> ~ In 95%N x -> ~ In 8218%N x -> strip_artist separators x = x.
Proof.
  intros Hdash Hunder Hquote. unfold separators, strip_artist.
  rewrite (contains_absent (u " - ") x 45) by (auto; vm_compute; tauto).
  rewrite (contains_absent [32; 8218; 196; 236; 32]%N x 8218) by (auto; simpl; tauto).
  rewrite (contains_absent [32; 8218; 196; 238; 32]%N x 8218) by (auto; simpl; tauto).
  rewrite (contains_absent (u "-") x 45) by (auto; vm_compute; tauto).
  rewrite (contains_absent (u "_") x 95) by (auto; vm_compute; tauto).
  reflexivity.
Qed.

Lemma startswith_dash (c : N) (s : str) :
  match s with [] => True | d :: _ => d <> 45%N end ->
  PyStr.startswith (u " - ") (c :: s) = false.
Proof.
  intros Hs. change (u " - ") with [32; 45; 32]%N. cbn [PyStr.startswith].
  destruct s as [|d s]; [apply andb_false_r|].
  destruct (N.eqb_spec 45 d) as [Hd|Hd]; [now subst d|]. apply andb_false_r.
Qed.

Lemma split_scan_segment (a rest cur : str) :
  ~ In 45%N a ->
  PyStr.split_scan (u " - ") (a ++ u " - " ++ rest) O cur
  = (rev cur ++ a) :: PyStr.split_scan (u " - ") rest O [].
Proof.
  intros Hno. revert cur. induction a as [|c a IH]; intros cur.
  - simpl. now rewrite app_nil_r.
  - assert (Hc : PyStr.startswith (u " - ") ((c :: a) ++ u " - " ++ rest) = false).
    { apply startswith_dash. destruct a as [|d a]; [discriminate|].
      intros ->. apply Hno. right. now left. }
    change (PyStr.split_scan (u " - ") ((c :: a) ++ u " - " ++ rest) O cur)
      with (if PyStr.startswith (u " - ") ((c :: a) ++ u " - " ++ rest)
            then rev cur :: PyStr.split_scan (u " - ") (a ++ u " - " ++ rest)
                              (Nat.pred (List.length (u " - "))) []
            else PyStr.split_scan (u " - ") (a ++ u " - " ++ rest) O (c :: cur)).
    rewrite Hc, IH by (intros Hin; apply Hno; now right).
    simpl. now rewrite <- app_assoc.
Qed.

Lemma split_scan_last (a cur : str) :
  ~ In 45%N a -> PyStr.split_scan (u " - ") a O cur = [rev cur ++ a].
Proof.
  revert cur. induction a as [|c a IH]; intros cur Hno.
  - simpl. now rewrite app_nil_r.
  - assert (Hc : PyStr.startswith (u " - ") (c :: a) = false).
    { apply startswith_dash. destruct a as [|d a]; [exact I|].
      intros ->. apply Hno. right. now left. }
    change (PyStr.split_scan (u " - ") (c :: a) O cur)
      with (if PyStr.startswith (u " - ") (c :: a)
            then rev cur :: PyStr.split_scan (u " - ") a
                              (Nat.pred (List.length (u " - "))) []
            else PyStr.split_scan (u " - ") a O (c :: cur)).
    rewrite Hc, IH by (intros Hin; apply Hno; now right).
    simpl. now rewrite <- app_assoc.
Qed.

Lemma split_dash_join (parts : list str) (title : str) :
  Forall (fun p => ~ In 45%N p) parts -> ~ In 45%N title ->
  PyStr.split (u " - ") (dash_join parts title) = parts ++ [title].
Proof.
  intros Hparts Htitle. unfold PyStr.split.
  induction Hparts as [|p parts Hp _ IH]; cbn [dash_join].
  - now rewrite split_scan_last.
  - rewrite split_scan_segment by exact Hp. now rewrite IH.
Qed.

(** The last segment of an "Artist - Title" name. *)
Lemma strip_artist_dash_join (p : str) (parts : list str) (title : str) :
  Forall (fun p => ~ In 45%N p) (p :: parts) -> ~ In 45%N title ->
  strip_artist separators (dash_join (p :: parts) title) = PyStr.strip title.
Proof.
  intros Hparts Htitle. unfold separators, strip_artist.
  assert (Hin : PyStr.contains (u " - ") (dash_join (p :: parts) title) = true).
  { cbn [dash_join]. apply (contains_app (u " - ") p). }
  rewrite Hin, split_dash_join by assumption.
  unfold PyStr.last_part. rewrite last_last, length_app. simpl List.length.
  replace (1 <? S (List.length parts) + 1)%nat with true
    by (symmetry; apply Nat.ltb_lt; lia).
  reflexivity.
Qed.

Lemma skip_while_app (p : N -> bool) (a b : str) :
  forallb p a = true ->
  match b with [] => True | c :: _ => p c = false end ->
  skip_while p (a ++ b) = b.
Proof.
  intros Ha Hb. induction a as [|x a IH]; simpl in *.
  - destruct b as [|c b]; [reflexivity|]. simpl. now rewrite Hb.
  - apply andb_true_iff in Ha as [Hx Ha]. rewrite Hx. now apply IH.
Qed.

(** [^\d+[.\s\-_]+] on digits followed by characters of the class. *)
Lemma strip_track_number_prefix (E : Env) (digits punct rest : str) :
  digits <> [] -> forallb (isdecimal E) digits = true ->
  punct <> [] -> forallb track_punct punct = true ->
  match punct with [] => True | c :: _ => isdecimal E c = false end ->
  match rest with [] => True | c :: _ => track_punct c = false end ->
  strip_track_number E (digits ++ punct ++ rest) = rest.
Proof.
  intros Hd Hdigits Hp Hpunct Hhead Hrest.
  destruct digits as [|d digits]; [congruence|].
  destruct punct as [|q punct]; [congruence|].
  unfold strip_track_number. simpl app.
  pose proof Hdigits as Hd0. simpl in Hd0. apply andb_true_iff in Hd0 as [Hd0 _].
  rewrite Hd0.
  change (d :: digits ++ q :: punct ++ rest) with ((d :: digits) ++ (q :: punct ++ rest)).
  rewrite (skip_while_app (isdecimal E) (d :: digits) (q :: punct ++ rest))
    by assumption.
  pose proof Hpunct as Hq. simpl in Hq. apply andb_true_iff in Hq as [Hq _].
  rewrite Hq.
  change (q :: punct ++ rest) with ((q :: punct) ++ rest).
  now apply skip_while_app.
Qed.

Lemma strip_track_number_none (E : Env) (s : str) :
  match s with [] => True | c :: _ => isdecimal E c = false end ->
  strip_track_number E s = s.
Proof.
  destruct s as [|c s]; [reflexivity|]. intros Hc. unfold strip_track_number. now rewrite Hc.
Qed.

Lemma lstrip_plain (s : str) :
  match s with [] => True | c :: _ => PyStr.isspace c = false end -> PyStr.lstrip s = s.
Proof. destruct s as [|c s]; [reflexivity|]. intros Hc. simpl. now rewrite Hc. Qed.

Lemma strip_plain (s : str) :
  match s with
  | [] => True
  | c :: _ => PyStr.isspace c = false /\ PyStr.isspace (List.last s c) = false
  end ->
  PyStr.strip s = s.
Proof.
  destruct s as [|c s]; [reflexivity|]. intros [Hc Hlast].
  unfold PyStr.strip, PyStr.rstrip.
  rewrite (lstrip_plain (c :: s)) by exact Hc.
  assert (Heq : c :: s = removelast (c :: s) ++ [List.last (c :: s) c])
    by (apply app_removelast_last; discriminate).
  set (z := List.last (c :: s) c) in *. set (r := removelast (c :: s)) in *.
  rewrite Heq, rev_app_distr. cbn [rev app PyStr.lstrip].
  rewrite Hlast. cbn [rev]. now rewrite rev_involutive.
Qed.

Lemma plain_title_strip (E : Env) (t : str) : plain_title E t -> PyStr.strip t = t.
Proof.
  intros [_ Ht]. apply strip_plain. destruct t as [|c t]; [exact I|].
  destruct Ht as (Hp & _ & Hlast). split; [|exact Hlast].
  unfold track_punct in Hp. destruct (PyStr.isspace c); [|reflexivity].
  now rewrite orb_true_r in Hp.
Qed.

Lemma plain_title_absent (E : Env) (t : str) :
  plain_title E t -> ~ In 47%N t /\ ~ In 45%N t /\ ~ In 95%N t /\ ~ In 8218%N t.
Proof.
  intros [Hall _]. repeat split; apply (forallb_absent plain_char); auto.
Qed.

Lemma not_In_app (k : N) (a b : str) : ~ In k a -> ~ In k b -> ~ In k (a ++ b).
Proof. intros Ha Hb Hin. apply in_app_or in Hin. tauto. Qed.

Lemma dash_join_absent (k : N) (parts : list str) (title : str) :
  k <> 32%N -> k <> 45%N ->
  Forall (fun p => ~ In k p) parts -> ~ In k title -> ~ In k (dash_join parts title).
Proof.
  intros H32 H45 Hparts Htitle. induction Hparts as [|p parts Hp _ IH]; simpl; [exact Htitle|].
  apply not_In_app; [exact Hp|].
  intros [H|[H|[H|H]]]; try (symmetry in H; contradiction). now apply IH.
Qed.

(** The title once the base name, the stem and the last segment are
    known. *)
Lemma filename_title_of (E : Env) (name x ext title : str) :
  name = x ++ OsPath.dot :: ext ->
  ~ In OsPath.slash x ->
  forallb ext_char ext = true ->
  existsb (fun ch => negb (N.eqb ch OsPath.dot)) x = true ->
  strip_track_number E (strip_artist separators x) = title ->
  plain_title E title ->
  filename_title E name = match title with [] => u "Unknown Song" | _ => title end.
Proof.
  intros -> Hslash Hext Hstem Hsteps Htitle.
  assert (Hno : ~ In OsPath.slash (x ++ OsPath.dot :: ext)).
  { apply not_In_app; [exact Hslash|]. intros [H|H]; [discriminate|].
    revert H. now apply (forallb_absent ext_char). }
  unfold filename_title, OsPath.basename.
  rewrite basename_scan_plain by exact Hno. simpl rev. simpl app.
  rewrite splitext_root_ext; [|exact Hno|now apply (forallb_absent ext_char)|exact Hstem].
  rewrite Hsteps, (plain_title_strip E title Htitle). reflexivity.
Qed.

(** The title of a name whose last segment starts with no digit. *)
Lemma filename_title_value (E : Env) (file_path v : str) :
  strip_artist separators (OsPath.splitext_root (OsPath.basename file_path)) = v ->
  match v with [] => False | c :: _ => isdecimal E c = false end ->
  PyStr.strip v = v ->
  filename_title E file_path = v.
Proof.
  intros Hv Hhead Hstrip. unfold filename_title. rewrite Hv.
  destruct v as [|c v]; [destruct Hhead|].
  rewrite strip_track_number_none by exact Hhead. now rewrite Hstrip.
Qed.

(** C10: [get_song_info] always returns, and never the empty string.
    Without a usable title tag (no file object, no tag, an unusable tag or
    an exception while reading) it returns the title derived from the file
    name, and with [\d] the ASCII digits on ASCII that title is as
    follows.
    - The directory does not count.
    - Of a name ["A - B - ... - Title.ext"] the last segment is the
      title.
    - Of a name ["NN. Title.ext"], digits followed by dots and blanks, the
      track number is taken away.
    - When nothing is left after the last separator or the track number,
      and for the empty name, the title is ["Unknown Song"].
    - The other separators of the list cut in the same way, and the
      first of the list that occurs in the name is the one that cuts.
    So ["01 - Artist - My Song.mp3"], in any directory, gets the title
    ["My Song"]. *)
Theorem get_song_info_title (E : Env) :
  (forall c, (c < 128)%N -> isdecimal E c = ascii_digit c) ->
  (forall file_path, get_song_info E file_path <> []) /\
  (forall file_path,
     (forall title, metadata_title E file_path <> Ret (Some title)) ->
     get_song_info E file_path = filename_title E file_path) /\
  (forall dir name,
     filename_title E (dir ++ OsPath.slash :: name) = filename_title E name) /\
  (forall parts title ext,
     parts <> [] ->
     Forall (fun p => forallb segment_char p = true) parts ->
     plain_title E title ->
     forallb ext_char ext = true ->
     filename_title E (dash_join parts title ++ OsPath.dot :: ext)
     = match title with [] => u "Unknown Song" | _ => title end) /\
  (forall digits punct title ext,
     digits <> [] -> forallb ascii_digit digits = true ->
     punct <> [] -> forallb dot_or_blank punct = true ->
     plain_title E title ->
     forallb ext_char ext = true ->
     filename_title E (digits ++ punct ++ title ++ OsPath.dot :: ext)
     = match title with [] => u "Unknown Song" | _ => title end) /\
  (forall dir,
     filename_title E (dir ++ u "/01 - Artist - My Song.mp3") = u "My Song" /\
     ((forall title,
         metadata_title E (dir ++ u "/01 - Artist - My Song.mp3") <> Ret (Some title)) ->
      get_song_info E (dir ++ u "/01 - Artist - My Song.mp3") = u "My Song")) /\
  filename_title E (u "01 - Artist - My Song.mp3") = u "My Song" /\
  filename_title E [] = u "Unknown Song" /\
  (filename_title E (u "Artist-Song.ogg") = u "Song" /\
   filename_title E (u "07_Intro.mp3") = u "Intro" /\
   filename_title E (u "Artist" ++ [32; 8218; 196; 236; 32]%N ++ u "Song.mp3") = u "Song" /\
   filename_title E (u "Artist" ++ [32; 8218; 196; 238; 32]%N ++ u "Song.mp3") = u "Song" /\
   filename_title E (u "a_b - c_d.mp3") = u "c_d" /\
   filename_title E (u "a-b_c.mp3") = u "b_c").
Proof.
  intros Hdigit.
  assert (Hfallback : forall file_path,
            (forall title, metadata_title E file_path <> Ret (Some title)) ->
            get_song_info E file_path = filename_title E file_path).
  { intros file_path Hnone. unfold get_song_info.
    destruct (metadata_title E file_path) as [[title|]|e]; try reflexivity.
    now destruct (Hnone title). }
  assert (Hdir : forall dir name,
            filename_title E (dir ++ OsPath.slash :: name) = filename_title E name).
  { intros dir name. unfold filename_title, OsPath.basename.
    now rewrite basename_scan_dir. }
  assert (Hsegments : forall parts title ext,
            parts <> [] ->
            Forall (fun p => forallb segment_char p = true) parts ->
            plain_title E title ->
            forallb ext_char ext = true ->
            filename_title E (dash_join parts title ++ OsPath.dot :: ext)
            = match title with [] => u "Unknown Song" | _ => title end).
  { intros parts title ext Hne Hparts Htitle Hext.
    destruct (plain_title_absent E title Htitle) as (Hslash & Hdash & _).
    destruct parts as [|p parts]; [congruence|].
    assert (Hpd : Forall (fun p => ~ In 45%N p) (p :: parts)).
    { eapply Forall_impl; [exact Hparts|]. intros a Ha.
      now apply (forallb_absent segment_char). }
    assert (Hps : Forall (fun p => ~ In 47%N p) (p :: parts)).
    { eapply Forall_impl; [exact Hparts|]. intros a Ha.
      now apply (forallb_absent segment_char). }
    apply (filename_title_of E _ (dash_join (p :: parts) title) ext title);
      [reflexivity| | exact Hext | | | exact Htitle].
    - now apply dash_join_absent.
    - simpl dash_join. rewrite existsb_app. change (u " - ") with [32; 45; 32]%N.
      simpl. apply orb_true_r.
    - rewrite strip_artist_dash_join by assumption.
      rewrite (plain_title_strip E title Htitle).
      apply strip_track_number_none. destruct title as [|c title]; [exact I|].
      now destruct Htitle as (_ & _ & Hc & _). }
  assert (Hascii : forall c, ascii_digit c = true -> isdecimal E c = true).
  { intros c Hc. rewrite Hdigit; [exact Hc|].
    unfold ascii_digit in Hc. apply andb_true_iff in Hc as [_ Hc].
    apply N.leb_le in Hc. lia. }
  split; [|split; [exact Hfallback|split; [exact Hdir|split; [exact Hsegments|split;
    [|split; [|split; [|split]]]]]]].
  - intros file_path. unfold get_song_info.
    destruct (metadata_title E file_path) as [[title|]|e] eqn:Hm.
    + eapply metadata_title_not_empty, Hm.
    + apply filename_title_not_empty.
    + apply filename_title_not_empty.
  - intros digits punct title ext Hd Hdigits Hp Hpunct Htitle Hext.
    destruct (plain_title_absent E title Htitle) as (Hslash & Hdash & Hunder & Hquote).
    assert (Habsent : forall k, ascii_digit k = false -> dot_or_blank k = false ->
                                ~ In k title -> ~ In k (digits ++ punct ++ title)).
    { intros k Hk1 Hk2 Hk3. apply not_In_app; [now apply (forallb_absent ascii_digit)|].
      apply not_In_app; [now apply (forallb_absent dot_or_blank)|exact Hk3]. }
    apply (filename_title_of E _ (digits ++ punct ++ title) ext title);
      [now rewrite <- !app_assoc| | exact Hext | | | exact Htitle].
    + now apply Habsent.
    + destruct digits as [|d digits]; [congruence|]. simpl in *.
      apply andb_true_iff in Hdigits as [Hd0 _].
      destruct (N.eqb d OsPath.dot) eqn:Hdot; [|reflexivity].
      apply N.eqb_eq in Hdot. subst d. discriminate.
    + rewrite strip_artist_plain by (apply Habsent; auto).
      apply strip_track_number_prefix; auto.
      * rewrite forallb_forall in *. intros c Hc. apply Hascii. auto.
      * rewrite forallb_forall in *. intros c Hc. specialize (Hpunct c Hc).
        unfold dot_or_blank in Hpunct. apply orb_true_iff in Hpunct as [H|H];
          apply N.eqb_eq in H; subst c; reflexivity.
      * destruct punct as [|q punct]; [exact I|]. simpl in Hpunct.
        apply andb_true_iff in Hpunct as [Hq _]. unfold dot_or_blank in Hq.
        apply orb_true_iff in Hq as [H|H]; apply N.eqb_eq in H; subst q;
          now rewrite Hdigit.
      * destruct title as [|c title]; [exact I|]. now destruct Htitle as (_ & Hc & _).
  - assert (Hsong : filename_title E (u "01 - Artist - My Song.mp3") = u "My Song").
    { apply (Hsegments [u "01"; u "Artist"] (u "My Song") (u "mp3"));
        [discriminate | repeat constructor | | reflexivity].
      split; [reflexivity|]. split; [reflexivity|]. split; [|reflexivity].
      now rewrite Hdigit. }
    intros dir.
    assert (Hhere : filename_title E (dir ++ u "/01 - Artist - My Song.mp3") = u "My Song").
    { change (u "/01 - Artist - My Song.mp3")
        with (OsPath.slash :: u "01 - Artist - My Song.mp3").
      now rewrite Hdir. }
    split; [exact Hhere|]. intros Hnone. now rewrite Hfallback.
  - apply (Hsegments [u "01"; u "Artist"] (u "My Song") (u "mp3"));
      [discriminate | repeat constructor | | reflexivity].
    split; [reflexivity|]. split; [reflexivity|]. split; [|reflexivity].
    now rewrite Hdigit.
  - reflexivity.
  - repeat split; apply filename_title_value;
      solve [ vm_compute; reflexivity
            | vm_compute; rewrite Hdigit by reflexivity; reflexivity ].
Qed.

(** With the ASCII digits for [\d]: ["Miles Davis - So What.flac"] in a
    folder, ["12. Blue Train.flac"], and the name ["07. .mp3"] that has a
    track number only. *)
Lemma get_song_info_title_witness :
  filename_title sample_env (u "jazz/Miles Davis - So What.flac") = u "So What" /\
  filename_title sample_env (u "12. Blue Train.flac") = u "Blue Train" /\
  filename_title sample_env (u "07. .mp3") = u "Unknown Song" /\
  get_song_info sample_env (u "01 - Artist - My Song.mp3") = u "My Song".
Proof.
  destruct (get_song_info_title sample_env (fun c _ => eq_refl))
    as (_ & Hfallback & Hdir & Hsegments & Htrack & _ & Hsong & _ & _).
  split; [|split; [|split]].
  - change (u "jazz/Miles Davis - So What.flac")
      with (u "jazz" ++ OsPath.slash :: dash_join [u "Miles Davis"] (u "So What")
                                          ++ OsPath.dot :: u "flac").
    rewrite Hdir.
    apply (Hsegments [u "Miles Davis"] (u "So What") (u "flac"));
      [discriminate | repeat constructor | | reflexivity].
    split; [reflexivity|]. repeat split.
  - apply (Htrack (u "12") (u ". ") (u "Blue Train") (u "flac"));
      [discriminate | reflexivity | discriminate | reflexivity | | reflexivity].
    split; [reflexivity|]. repeat split.
  - apply (Htrack (u "07") (u ". ") [] (u "mp3"));
      [discriminate | reflexivity | discriminate | reflexivity | | reflexivity].
    split; [reflexivity|exact I].
  - rewrite Hfallback; [exact Hsong|].
    intros title. vm_compute. discriminate.
Defined.

Example title_examples :
  List.map (filename_title sample_env)
    [u "songs/07_Intro.mp3"; u "12. Blue Train.flac"; u "a-b-c.ogg"; u "2024.mp3"; u ".mp3"]
  = [u "Intro"; u "Blue Train"; u "c"; u "2024"; u ".mp3"].
Proof. vm_compute. reflexivity. Qed.

(** ** Further properties *)

(** *** Starting a song *)

Lemma start_playback_pygame_run (E : Env) (file_path : str) (st : State) :
  plays_with_pygame st ->
  mixer_init (audio st) = true ->
  music_load E (normpath E file_path) = None ->
  exists st2,
    start_playback E file_path st = (Ret tt, st2) /\
    player st2 = player st /\ gui st2 = gui st /\
    mixer_init (audio st2) = true /\
    music_file (audio st2) = Some (normpath E file_path) /\
    music_busy (audio st2) = true /\
    music_volume (audio st2) = music_volume (audio st).
Proof.
  unfold plays_with_pygame. intros Hpy Hinit Hload.
  unfold start_playback, bind, _backend_stop.
  destruct (_use_vlc (player st) && _vlc_player (player st)).
  - unfold vlc_player.stop, modify, _backend_play. simpl. rewrite Hpy.
    unfold try_except, bind, pygame_music.load, pygame_music.play. simpl.
    rewrite Hinit, Hload. simpl. rewrite Hinit.
    eexists. split; [reflexivity|]. now simpl.
  - unfold pygame_music.stop, pygame_music.call. rewrite Hinit.
    unfold _backend_play. simpl. rewrite Hpy.
    unfold try_except, bind, pygame_music.load, pygame_music.play. simpl.
    rewrite Hinit, Hload. simpl. rewrite Hinit.
    eexists. split; [reflexivity|]. now simpl.
Qed.

Lemma play_song_pygame_success (E : Env) (depth : nat) (st : State) (file_path : str) :
  plays_with_pygame st ->
  mixer_init (audio st) = true ->
  current_playlist (player st) <> [] ->
  current_file st = Some file_path ->
  path_exists E file_path = true ->
  music_load E (normpath E file_path) = None ->
  exists st',
    play_song E (S depth) st = (Ret tt, st') /\
    is_playing (player st') = true /\
    is_paused (player st') = false /\
    current_playlist (player st') = current_playlist (player st) /\
    current_index (player st') = current_index (player (clamp_cursor st)) /\
    music_file (audio st') = Some (normpath E file_path) /\
    music_busy (audio st') = true /\
    current_song_label (gui st') = song_label E file_path /\
    progress_var (gui st') = progress_var (gui st) /\
    trace (gui st') = trace (gui st) ++ [after 1000 cb_check_song_end].
Proof.
  intros Hpy Hinit Hne Hfile Hexists Hload.
  rewrite play_song_S. unfold play_song_with.
  destruct (current_playlist (player st)) as [|x view] eqn:Hv; [congruence|].
  rewrite <- Hv. clear Hv Hne x view.
  unfold current_file in Hfile. rewrite Hfile, Hexists. simpl.
  destruct (clamp_cursor_frame st) as (Hview & _ & _ & Haudio & Hgui).
  destruct (start_playback_pygame_run E file_path (clamp_cursor st))
    as (st2 & -> & Hp & Hg & Hinit2 & Hfile2 & Hbusy2 & _); auto.
  { unfold plays_with_pygame in *. destruct (clamp_cursor_backend st) as (-> & -> & ->). exact Hpy. }
  { now rewrite Haudio. }
  unfold check_song_end, check_song_end_with, pygame_music.get_busy. simpl.
  rewrite Hinit2, Hbusy2. simpl.
  eexists. split; [reflexivity|]. simpl. rewrite Hp, Hg, Hgui, Hview. conjs; auto.
Qed.

(** X1: with pygame as the playing backend, its mixer set up, and the
    file under the (clamped) cursor present and loadable, [play_song]
    returns with [is_playing] set and [is_paused] cleared, that file,
    normalised, loaded and playing in the mixer, the label showing its
    title, one [check_song_end] timer armed, and the view and the progress
    bar as they were. *)
Theorem play_song_starts_pygame (E : Env) (depth : nat) (st : State) (file_path : str) :
  plays_with_pygame st ->
  mixer_init (audio st) = true ->
  current_playlist (player st) <> [] ->
  current_file st = Some file_path ->
  path_exists E file_path = true ->
  music_load E (normpath E file_path) = None ->
  exists st',
    play_song E (S depth) st = (Ret tt, st') /\
    is_playing (player st') = true /\
    is_paused (player st') = false /\
    current_playlist (player st') = current_playlist (player st) /\
    current_index (player st') = current_index (player (clamp_cursor st)) /\
    music_file (audio st') = Some (normpath E file_path) /\
    music_busy (audio st') = true /\
    current_song_label (gui st') = song_label E file_path /\
    progress_var (gui st') = progress_var (gui st) /\
    trace (gui st') = trace (gui st) ++ [after 1000 cb_check_song_end].
Proof. apply play_song_pygame_success. Qed.

Lemma play_song_starts_pygame_witness :
  exists st',
    play_song sample_env 1 (sample_state false abc 1 false) = (Ret tt, st') /\
    is_playing (player st') = true /\
    is_paused (player st') = false /\
    current_playlist (player st') = current_playlist (player (sample_state false abc 1 false)) /\
    current_index (player st') =
      current_index (player (clamp_cursor (sample_state false abc 1 false))) /\
    music_file (audio st') = Some (normpath sample_env (u "b.mp3")) /\
    music_busy (audio st') = true /\
    current_song_label (gui st') = song_label sample_env (u "b.mp3") /\
    progress_var (gui st') = progress_var (gui (sample_state false abc 1 false)) /\
    trace (gui st') =
      trace (gui (sample_state false abc 1 false)) ++ [after 1000 cb_check_song_end].
Proof.
  apply (play_song_starts_pygame sample_env 0 (sample_state false abc 1 false) (u "b.mp3"));
    [reflexivity | reflexivity | discriminate | reflexivity | reflexivity | reflexivity].
Defined.

(** X2: a cursor at or past the end of a non-empty view makes [play_song]
    go for the first song; with pygame as the playing backend the call
    returns with the cursor at 0. *)
Theorem play_song_stale_cursor_plays_first (E : Env) (depth : nat) (st : State) :
  plays_with_pygame st ->
  current_playlist (player st) <> [] ->
  Z.of_nat (List.length (current_playlist (player st))) <= current_index (player st) ->
  current_file st = List.head (current_playlist (player st)) /\
  exists st', play_song E (S depth) st = (Ret tt, st') /\ current_index (player st') = 0.
Proof.
  intros Hpy Hne Hstale.
  assert (Hclamp : clamp_cursor st = with_player (set_current_index 0) st).
  { unfold clamp_cursor. now rewrite (proj2 (Z.leb_le _ _) Hstale). }
  split.
  - unfold current_file. rewrite Hclamp. simpl.
    now destruct (current_playlist (player st)).
  - destruct (play_song_pygame E depth st Hpy) as (st' & Hplay & _ & _ & Hidx).
    exists st'. split; [exact Hplay|]. rewrite (Hidx Hne), Hclamp. reflexivity.
Qed.

Lemma play_song_stale_cursor_plays_first_witness :
  current_file (sample_state false abc 7 false)
    = List.head (current_playlist (player (sample_state false abc 7 false))) /\
  exists st',
    play_song sample_env 1 (sample_state false abc 7 false) = (Ret tt, st') /\
    current_index (player st') = 0.
Proof.
  apply (play_song_stale_cursor_plays_first sample_env 0 (sample_state false abc 7 false));
    [reflexivity | discriminate | simpl; lia].
Defined.

(** X3: with VLC as the backend and the pygame mixer not set up,
    [play_song] on a present file starts that file in VLC, then fails in
    [check_song_end] on the mixer query: it shows "Could not play song:
    mixer not initialized" and leaves [is_playing] and [is_paused] cleared
    while VLC plays. *)
Theorem play_song_vlc_without_mixer (E : Env) (depth : nat) (st : State) (file_path : str) :
  plays_with_vlc st ->
  mixer_init (audio st) = false ->
  current_playlist (player st) <> [] ->
  current_file st = Some file_path ->
  path_exists E file_path = true ->
  exists st',
    play_song E (S depth) st = (Ret tt, st') /\
    vlc_media (audio st') = Some (normpath E file_path) /\
    vlc_is_playing (audio st') = 1 /\
    is_playing (player st') = false /\
    is_paused (player st') = false /\
    trace (gui st') = trace (gui st) ++
      [showerror (u "Error") (u "Could not play song: mixer not initialized")].
Proof.
  intros (Hu & Hi & Hp) Hinit Hne Hfile Hexists.
  rewrite play_song_S. unfold play_song_with.
  destruct (current_playlist (player st)) as [|x view] eqn:Hv; [congruence|].
  clear Hv Hne x view.
  unfold current_file in Hfile. rewrite Hfile, Hexists. simpl.
  destruct (clamp_cursor_frame st) as (_ & _ & _ & Haudio & Hgui).
  destruct (clamp_cursor_backend st) as (Hu1 & Hi1 & Hp1).
  unfold start_playback, bind, _backend_stop, _backend_play.
  rewrite Hu1, Hp1, Hu, Hp. simpl. rewrite Hu1, Hi1, Hp1, Hu, Hi, Hp. simpl.
  unfold check_song_end, check_song_end_with, pygame_music.get_busy. simpl.
  rewrite Haudio, Hinit.
  eexists. split; [reflexivity|]. simpl. rewrite Hgui. conjs; auto.
Qed.

Lemma play_song_vlc_without_mixer_witness :
  let st := with_audio (fun a =>
              {| mixer_init := false; music_file := music_file a; music_busy := music_busy a;
                 music_pos := music_pos a; music_volume := music_volume a;
                 vlc_media := vlc_media a; vlc_is_playing := vlc_is_playing a;
                 vlc_time := vlc_time a; vlc_length := vlc_length a;
                 vlc_volume := vlc_volume a; vlc_query_fault := vlc_query_fault a |})
              (sample_state true abc 0 true) in
  exists st',
    play_song sample_env 1 st = (Ret tt, st') /\
    vlc_media (audio st') = Some (normpath sample_env (u "a.mp3")) /\
    vlc_is_playing (audio st') = 1 /\
    is_playing (player st') = false /\
    is_paused (player st') = false /\
    trace (gui st') = trace (gui st) ++
      [showerror (u "Error") (u "Could not play song: mixer not initialized")].
Proof.
  apply (play_song_vlc_without_mixer sample_env 0 _ (u "a.mp3"));
    [repeat split | reflexivity | discriminate | reflexivity | reflexivity].
Defined.

(** *** The end-of-song poll with pygame *)

Lemma play_song_pygame_event (E : Env) (depth : nat) (st : State) :
  plays_with_pygame st ->
  current_playlist (player st) <> [] ->
  exists st' ev,
    play_song E (S depth) st = (Ret tt, st') /\
    trace (gui st') = trace (gui st) ++ [ev] /\
    (ev = after 1000 cb_check_song_end \/ exists msg, ev = showerror (u "Error") msg).
Proof.
  intros Hpy Hne. rewrite play_song_S. unfold play_song_with.
  destruct (current_playlist (player st)) as [|x view] eqn:Hv; [congruence|].
  clear Hv Hne x view.
  destruct (clamp_cursor_frame st) as (_ & _ & _ & _ & Hgui).
  assert (Hpy1 : plays_with_pygame (clamp_cursor st)).
  { unfold plays_with_pygame in *. destruct (clamp_cursor_backend st) as (-> & -> & ->). exact Hpy. }
  set (st1 := clamp_cursor st) in *.
  destruct (py_getitem _ _) as [file_path|].
  2:{ do 2 eexists. split; [reflexivity|]. simpl. rewrite Hgui. eauto. }
  destruct (negb (path_exists E file_path)).
  { do 2 eexists. split; [reflexivity|]. simpl. rewrite Hgui. eauto. }
  destruct (backend_start_audio_only E file_path st1) as [_ Hg].
  destruct (start_playback E file_path st1) as [[[]|e] st2] eqn:Hstart; simpl in Hg.
  2:{ do 2 eexists. split; [reflexivity|]. simpl. rewrite Hg, Hgui. eauto. }
  apply start_playback_pygame_busy in Hstart as [Hinit Hbusy]; [|exact Hpy1].
  unfold check_song_end, check_song_end_with, pygame_music.get_busy. simpl.
  rewrite Hinit, Hbusy. simpl.
  do 2 eexists. split; [reflexivity|]. simpl. rewrite Hg, Hgui. eauto.
Qed.

(** X4: with pygame as the playing backend and its mixer set up,
    [check_song_end] only re-arms its timer while the player is not
    playing or the mixer is busy; once the mixer has fallen silent while
    playing it advances the cursor by exactly one (modulo the length of the
    view), keeps the view, and leaves exactly one new request to Tk: the
    timer of the song it started or the error box of the song it could not
    start. *)
Theorem check_song_end_pygame (E : Env) (depth : nat) (st : State) :
  plays_with_pygame st ->
  mixer_init (audio st) = true ->
  (is_playing (player st) = false \/ music_busy (audio st) = true ->
   check_song_end E depth st = (Ret tt, show (after 1000 cb_check_song_end) st)) /\
  (is_playing (player st) = true -> music_busy (audio st) = false ->
   current_playlist (player st) <> [] ->
   exists st' ev,
     check_song_end E (S depth) st = (Ret tt, st') /\
     current_index (player st') =
       (current_index (player st) + 1) mod Z.of_nat (List.length (current_playlist (player st))) /\
     current_playlist (player st') = current_playlist (player st) /\
     trace (gui st') = trace (gui st) ++ [ev] /\
     (ev = after 1000 cb_check_song_end \/ exists msg, ev = showerror (u "Error") msg)).
Proof.
  intros Hpy Hinit. split.
  - intros Hidle. unfold check_song_end, check_song_end_with, pygame_music.get_busy.
    destruct (is_playing (player st)); [|reflexivity].
    destruct Hidle as [Hidle|Hbusy]; [discriminate|]. now rewrite Hinit, Hbusy.
  - intros Hplaying Hbusy Hne. unfold check_song_end.
    rewrite check_song_end_with_idle by assumption.
    destruct (next_song_pygame E depth st Hpy Hne) as (st' & Hnext & _ & Hview & Hidx).
    rewrite Hnext. exists st'.
    unfold next_song, next_song_with in Hnext.
    destruct (current_playlist (player st)) as [|x view] eqn:Hv; [congruence|].
    rewrite <- Hv in *.
    set (st0 := with_player _ st) in Hnext.
    destruct (play_song_pygame_event E depth st0) as (st'' & ev & Hplay & Htrace & Hev);
      [exact Hpy|simpl; congruence|].
    rewrite Hplay in Hnext. injection Hnext as ->.
    exists ev. conjs; auto.
Qed.

Lemma check_song_end_pygame_witness :
  let st := sample_state false abc 0 true in
  (is_playing (player st) = false \/ music_busy (audio st) = true ->
   check_song_end sample_env 1 st = (Ret tt, show (after 1000 cb_check_song_end) st)) /\
  (is_playing (player st) = true -> music_busy (audio st) = false ->
   current_playlist (player st) <> [] ->
   exists st' ev,
     check_song_end sample_env 2 st = (Ret tt, st') /\
     current_index (player st') =
       (current_index (player st) + 1) mod Z.of_nat (List.length (current_playlist (player st))) /\
     current_playlist (player st') = current_playlist (player st) /\
     trace (gui st') = trace (gui st) ++ [ev] /\
     (ev = after 1000 cb_check_song_end \/ exists msg, ev = showerror (u "Error") msg)).
Proof.
  apply (check_song_end_pygame sample_env 1 (sample_state false abc 0 true));
    reflexivity.
Defined.

(** *** Next and previous *)

Lemma previous_song_pygame (E : Env) (depth : nat) (st : State) :
  plays_with_pygame st ->
  current_playlist (player st) <> [] ->
  exists st',
    previous_song E (S depth) st = (Ret tt, st') /\
    plays_with_pygame st' /\
    current_playlist (player st') = current_playlist (player st) /\
    current_index (player st') =
      (current_index (player st) - 1) mod Z.of_nat (List.length (current_playlist (player st))).
Proof.
  intros Hpy Hne. unfold previous_song, previous_song_with.
  destruct (current_playlist (player st)) as [|x view] eqn:Hv; [congruence|].
  rewrite <- Hv.
  set (st0 := with_player _ st).
  destruct (play_song_pygame E depth st0) as (st' & Hplay & Hpy' & Hview & Hidx); [exact Hpy|].
  exists st'. split; [exact Hplay|]. split; [exact Hpy'|]. split; [exact Hview|].
  rewrite Hidx by (simpl; congruence).
  unfold clamp_cursor. subst st0. simpl.
  pose proof (Z.mod_pos_bound (current_index (player st) - 1)
                (Z.of_nat (List.length (current_playlist (player st))))) as Hb.
  rewrite Hv in Hb at 1. simpl in Hb.
  destruct (_ <=? _) eqn:Hle; [lia|reflexivity].
Qed.

(** X5: with pygame as the playing backend, on a non-empty view with a
    valid cursor, [previous_song] followed by [next_song] and [next_song]
    followed by [previous_song] both return and both end on the cursor
    they started from; from cursor 0 [previous_song] goes to the last
    song. *)
Theorem previous_next_cancel (E : Env) (depth : nat) (st : State) :
  plays_with_pygame st ->
  current_playlist (player st) <> [] ->
  cursor_ok st ->
  (exists st1 st2,
     previous_song E (S depth) st = (Ret tt, st1) /\ next_song E (S depth) st1 = (Ret tt, st2) /\
     current_index (player st2) = current_index (player st)) /\
  (exists st1 st2,
     next_song E (S depth) st = (Ret tt, st1) /\ previous_song E (S depth) st1 = (Ret tt, st2) /\
     current_index (player st2) = current_index (player st)) /\
  (current_index (player st) = 0 ->
   exists st1,
     previous_song E (S depth) st = (Ret tt, st1) /\
     current_index (player st1) = Z.of_nat (List.length (current_playlist (player st))) - 1).
Proof.
  intros Hpy Hne Hok. specialize (Hok Hne).
  set (n := Z.of_nat (List.length (current_playlist (player st)))) in *.
  destruct (previous_song_pygame E depth st Hpy Hne) as (sp & Hprev & Hpyp & Hviewp & Hidxp).
  destruct (next_song_pygame E depth st Hpy Hne) as (sn & Hnext & Hpyn & Hviewn & Hidxn).
  fold n in Hidxp, Hidxn.
  split; [|split].
  - destruct (next_song_pygame E depth sp Hpyp) as (s2 & Hnext2 & _ & _ & Hidx2); [congruence|].
    exists sp, s2. split; [exact Hprev|]. split; [exact Hnext2|].
    rewrite Hidx2, Hviewp, Hidxp. fold n.
    rewrite Zplus_mod_idemp_l. replace (current_index (player st) - 1 + 1)
      with (current_index (player st)) by lia.
    now apply Z.mod_small.
  - destruct (previous_song_pygame E depth sn Hpyn) as (s2 & Hprev2 & _ & _ & Hidx2); [congruence|].
    exists sn, s2. split; [exact Hnext|]. split; [exact Hprev2|].
    rewrite Hidx2, Hviewn, Hidxn. fold n.
    rewrite Zminus_mod_idemp_l. replace (current_index (player st) + 1 - 1)
      with (current_index (player st)) by lia.
    now apply Z.mod_small.
  - intros Hzero. exists sp. split; [exact Hprev|]. rewrite Hidxp, Hzero.
    replace (0 - 1) with (n - 1 + (-1) * n) by lia.
    rewrite Z_mod_plus_full. apply Z.mod_small. lia.
Qed.

Lemma previous_next_cancel_witness :
  let st := sample_state false abc 0 false in
  (exists st1 st2,
     previous_song sample_env 1 st = (Ret tt, st1) /\ next_song sample_env 1 st1 = (Ret tt, st2) /\
     current_index (player st2) = current_index (player st)) /\
  (exists st1 st2,
     next_song sample_env 1 st = (Ret tt, st1) /\ previous_song sample_env 1 st1 = (Ret tt, st2) /\
     current_index (player st2) = current_index (player st)) /\
  (current_index (player st) = 0 ->
   exists st1,
     previous_song sample_env 1 st = (Ret tt, st1) /\
     current_index (player st1) = Z.of_nat (List.length (current_playlist (player st))) - 1).
Proof.
  apply (previous_next_cancel sample_env 0 (sample_state false abc 0 false));
    [reflexivity | discriminate | intros _; simpl; lia].
Defined.

(** *** Choosing a row of the list box *)

(** X6: [on_song_select] does nothing on an empty selection; otherwise
    it moves the cursor to the first selected row and plays: with pygame
    as the playing backend, for a row of the view whose file is present
    and loadable, it returns with the cursor on that row, that file playing
    in the mixer and [is_playing] set. *)
Theorem on_song_select_plays_row (E : Env) (depth row : nat) (rest : list nat)
    (st : State) (file_path : str) :
  plays_with_pygame st ->
  mixer_init (audio st) = true ->
  nth_error (current_playlist (player st)) row = Some file_path ->
  path_exists E file_path = true ->
  music_load E (normpath E file_path) = None ->
  on_song_select E [] depth st = (Ret tt, st) /\
  exists st',
    on_song_select E (row :: rest) (S depth) st = (Ret tt, st') /\
    current_index (player st') = Z.of_nat row /\
    is_playing (player st') = true /\
    is_paused (player st') = false /\
    music_file (audio st') = Some (normpath E file_path) /\
    music_busy (audio st') = true /\
    current_playlist (player st') = current_playlist (player st).
Proof.
  intros Hpy Hinit Hrow Hexists Hload. split; [reflexivity|].
  unfold on_song_select.
  set (st0 := with_player (set_current_index (Z.of_nat row)) st).
  assert (Hlt : (row < List.length (current_playlist (player st)))%nat).
  { apply nth_error_Some. congruence. }
  assert (Hclamp : clamp_cursor st0 = st0).
  { unfold clamp_cursor. subst st0. simpl.
    destruct (_ <=? _) eqn:Hle; [apply Z.leb_le in Hle; lia|reflexivity]. }
  destruct (play_song_pygame_success E depth st0 file_path)
    as (st' & Hplay & Hp & Hq & Hview & Hidx & Hfile & Hbusy & _); auto.
  - subst st0. simpl. intros Heq. rewrite Heq in Hlt. simpl in Hlt. lia.
  - unfold current_file. rewrite Hclamp. subst st0. unfold py_getitem. simpl.
    destruct (Z.of_nat row <? 0) eqn:Hneg; [apply Z.ltb_lt in Hneg; lia|].
    now rewrite Nat2Z.id.
  - exists st'. rewrite Hclamp in Hidx. conjs; auto.
Qed.

Lemma on_song_select_plays_row_witness :
  let st := sample_state false abc 0 false in
  on_song_select sample_env [] 1 st = (Ret tt, st) /\
  exists st',
    on_song_select sample_env [1%nat; 2%nat] 2 st = (Ret tt, st') /\
    current_index (player st') = Z.of_nat 1 /\
    is_playing (player st') = true /\
    is_paused (player st') = false /\
    music_file (audio st') = Some (normpath sample_env (u "b.mp3")) /\
    music_busy (audio st') = true /\
    current_playlist (player st') = current_playlist (player st).
Proof.
  apply (on_song_select_plays_row sample_env 1 1 [2%nat] (sample_state false abc 0 false)
           (u "b.mp3")); reflexivity.
Defined.

(** *** Pause, resume and stop *)

Lemma backend_pause_ready (L : PauseModel) (st : State) :
  backend_ready st ->
  exists a, _backend_pause L st = (Ret tt, with_audio (fun _ => a) st) /\
            (_use_vlc (player st) && _vlc_player (player st) = false ->
             a = music_pause L (audio st)).
Proof.
  unfold backend_ready, _backend_pause, pygame_music.call, modify.
  destruct (_use_vlc (player st) && _vlc_player (player st)); intros [H|H];
    try discriminate; try rewrite H; eexists; split; try reflexivity; intros; try discriminate;
    reflexivity.
Qed.

Lemma backend_unpause_ready (L : PauseModel) (st : State) :
  backend_ready st ->
  exists a, _backend_unpause L st = (Ret tt, with_audio (fun _ => a) st).
Proof.
  unfold backend_ready, _backend_unpause, pygame_music.call, modify.
  destruct (_use_vlc (player st) && _vlc_player (player st)); intros [H|H];
    try discriminate; try rewrite H; eexists; reflexivity.
Qed.

(** X7: on a non-empty view, while playing and with a backend that is
    ready, [toggle_play_pause] pauses ([is_playing] cleared, [is_paused]
    set) and a second call resumes ([is_playing] set, [is_paused]
    cleared), provided pausing does not take the pygame mixer down.
    Neither call moves the cursor, changes the view, shows a box or arms a
    timer, and neither calls [play_song]. *)
Theorem toggle_twice_resumes (E : Env) (L : PauseModel) (depth : nat) (st : State) :
  current_playlist (player st) <> [] ->
  is_playing (player st) = true ->
  backend_ready st ->
  (forall a, mixer_init (music_pause L a) = mixer_init a) ->
  exists st1 st2,
    toggle_play_pause E L depth st = (Ret tt, st1) /\
    is_playing (player st1) = false /\ is_paused (player st1) = true /\
    toggle_play_pause E L depth st1 = (Ret tt, st2) /\
    is_playing (player st2) = true /\ is_paused (player st2) = false /\
    current_playlist (player st2) = current_playlist (player st) /\
    current_index (player st2) = current_index (player st) /\
    gui st2 = gui st /\ gui st1 = gui st.
Proof.
  intros Hne Hplaying Hready Hkeep.
  destruct (backend_pause_ready L st Hready) as (a & Hpause & Ha).
  set (st1 := set_flags false true (with_audio (fun _ => a) st)).
  assert (Hready1 : backend_ready st1).
  { unfold backend_ready in *. subst st1. simpl.
    destruct (_use_vlc (player st) && _vlc_player (player st)) eqn:Hv; [now left|].
    right. rewrite (Ha eq_refl), Hkeep. destruct Hready; [discriminate|assumption]. }
  destruct (backend_unpause_ready L st1 Hready1) as (a1 & Hunpause).
  exists st1, (set_flags true false (with_audio (fun _ => a1) st1)).
  assert (H1 : toggle_play_pause E L depth st = (Ret tt, st1)).
  { unfold toggle_play_pause.
    destruct (current_playlist (player st)); [congruence|].
    now rewrite Hplaying, Hpause. }
  assert (H2 : toggle_play_pause E L depth st1
               = (Ret tt, set_flags true false (with_audio (fun _ => a1) st1))).
  { unfold toggle_play_pause.
    replace (current_playlist (player st1)) with (current_playlist (player st)) by reflexivity.
    destruct (current_playlist (player st)); [congruence|].
    replace (is_playing (player st1)) with false by reflexivity.
    replace (is_paused (player st1)) with true by reflexivity.
    simpl negb. cbv iota. now rewrite Hunpause. }
  conjs; auto.
Qed.

Lemma toggle_twice_resumes_witness :
  let st := sample_state false abc 1 true in
  exists st1 st2,
    toggle_play_pause sample_env sample_pause 0 st = (Ret tt, st1) /\
    is_playing (player st1) = false /\ is_paused (player st1) = true /\
    toggle_play_pause sample_env sample_pause 0 st1 = (Ret tt, st2) /\
    is_playing (player st2) = true /\ is_paused (player st2) = false /\
    current_playlist (player st2) = current_playlist (player st) /\
    current_index (player st2) = current_index (player st) /\
    gui st2 = gui st /\ gui st1 = gui st.
Proof.
  apply (toggle_twice_resumes sample_env sample_pause 0 (sample_state false abc 1 true));
    [discriminate | reflexivity | right; reflexivity | reflexivity].
Defined.

(** X8: [toggle_play_pause] and [stop_song] do not catch what the backend
    raises.  With pygame as the backend and its mixer not set up, pausing,
    resuming and stopping each raise pygame.error "mixer not initialized"
    and leave the whole state, flags and progress bar included, as it
    was. *)
Theorem transport_errors_escape (E : Env) (L : PauseModel) (depth : nat) (st : State) :
  _use_vlc (player st) && _vlc_player (player st) = false ->
  mixer_init (audio st) = false ->
  stop_song st = (Raise pygame_music.not_initialized, st) /\
  (current_playlist (player st) <> [] ->
   (is_playing (player st) = true ->
    toggle_play_pause E L depth st = (Raise pygame_music.not_initialized, st)) /\
   (is_playing (player st) = false -> is_paused (player st) = true ->
    toggle_play_pause E L depth st = (Raise pygame_music.not_initialized, st))).
Proof.
  intros Hpy Hinit. split.
  - unfold stop_song, bind, _backend_stop, pygame_music.stop, pygame_music.call.
    now rewrite Hpy, Hinit.
  - intros Hne. unfold toggle_play_pause.
    destruct (current_playlist (player st)); [congruence|].
    split.
    + intros ->. simpl. unfold _backend_pause, pygame_music.call. now rewrite Hpy, Hinit.
    + intros -> ->. simpl. unfold _backend_unpause, pygame_music.call. now rewrite Hpy, Hinit.
Qed.

Lemma transport_errors_escape_witness :
  let st := with_audio (fun a =>
              {| mixer_init := false; music_file := music_file a; music_busy := music_busy a;
                 music_pos := music_pos a; music_volume := music_volume a;
                 vlc_media := vlc_media a; vlc_is_playing := vlc_is_playing a;
                 vlc_time := vlc_time a; vlc_length := vlc_length a;
                 vlc_volume := vlc_volume a; vlc_query_fault := vlc_query_fault a |})
              (sample_state false abc 0 true) in
  stop_song st = (Raise pygame_music.not_initialized, st) /\
  (current_playlist (player st) <> [] ->
   (is_playing (player st) = true ->
    toggle_play_pause sample_env sample_pause 1 st
      = (Raise pygame_music.not_initialized, st)) /\
   (is_playing (player st) = false -> is_paused (player st) = true ->
    toggle_play_pause sample_env sample_pause 1 st
      = (Raise pygame_music.not_initialized, st))).
Proof.
  apply (transport_errors_escape sample_env sample_pause 1); reflexivity.
Defined.

(** X9: with a backend that is ready, [stop_song] returns with both
    flags cleared and the progress bar at 0, without touching the view or
    the cursor and without a box or a timer; from the state it leaves,
    [check_song_end] only re-arms its timer (no auto-advance) and
    [update_progress] leaves the bar at 0. *)
Theorem stop_song_quiets_the_polls (E : Env) (depth : nat) (st : State) :
  backend_ready st ->
  exists st1,
    stop_song st = (Ret tt, st1) /\
    is_playing (player st1) = false /\ is_paused (player st1) = false /\
    current_playlist (player st1) = current_playlist (player st) /\
    current_index (player st1) = current_index (player st) /\
    trace (gui st1) = trace (gui st) /\
    progress_var (gui st1) = 0%float /\
    check_song_end E depth st1 = (Ret tt, show (after 1000 cb_check_song_end) st1) /\
    progress_var (gui (snd (update_progress E st1))) = 0%float /\
    player (snd (update_progress E st1)) = player st1.
Proof.
  intros Hready.
  assert (Hstop : exists a, _backend_stop st = (Ret tt, with_audio (fun _ => a) st)).
  { unfold backend_ready in Hready.
    unfold _backend_stop, vlc_player.stop, pygame_music.stop, pygame_music.call, modify.
    destruct (_use_vlc (player st) && _vlc_player (player st)); destruct Hready as [H|H];
      try discriminate; try rewrite H; eexists; reflexivity. }
  destruct Hstop as (a & Hstop).
  unfold stop_song, bind, modify. rewrite Hstop.
  eexists. split; [reflexivity|]. conjs; reflexivity.
Qed.

Lemma stop_song_quiets_the_polls_witness :
  let st := with_gui (set_progress_var 40%float)
              (with_audio (set_music_busy true) (sample_state false abc 1 true)) in
  exists st1,
    stop_song st = (Ret tt, st1) /\
    is_playing (player st1) = false /\ is_paused (player st1) = false /\
    current_playlist (player st1) = current_playlist (player st) /\
    current_index (player st1) = current_index (player st) /\
    trace (gui st1) = trace (gui st) /\
    progress_var (gui st1) = 0%float /\
    check_song_end sample_env 1 st1 = (Ret tt, show (after 1000 cb_check_song_end) st1) /\
    progress_var (gui (snd (update_progress sample_env st1))) = 0%float /\
    player (snd (update_progress sample_env st1)) = player st1.
Proof.
  apply (stop_song_quiets_the_polls sample_env 1). right. reflexivity.
Defined.

(** *** Queries of the backend *)

(** X10: [_backend_is_busy] never raises and changes nothing.  Under VLC
    it answers true exactly when the player's query works and reports 1;
    under pygame exactly when the mixer is set up and busy.  A failing
    query reads as "not busy". *)
Theorem backend_is_busy_answers (st : State) :
  exists busy,
    _backend_is_busy st = (Ret busy, st) /\
    (_use_vlc (player st) && _vlc_player (player st) = true ->
     (busy = true <-> vlc_query_fault (audio st) = None /\ vlc_is_playing (audio st) = 1)) /\
    (_use_vlc (player st) && _vlc_player (player st) = false ->
     (busy = true <-> mixer_init (audio st) = true /\ music_busy (audio st) = true)).
Proof.
  unfold _backend_is_busy.
  destruct (_use_vlc (player st) && _vlc_player (player st)).
  - unfold try_except, bind, vlc_player.is_playing, vlc_player.query, ret.
    destruct (vlc_query_fault (audio st)) as [e|].
    + exists false. conjs; [reflexivity| |discriminate].
      intros _. split; [discriminate|]. intros [H _]. discriminate.
    + exists (vlc_is_playing (audio st) =? 1). conjs; [reflexivity| |discriminate].
      intros _. rewrite Z.eqb_eq. tauto.
  - unfold try_except, pygame_music.get_busy, ret.
    destruct (mixer_init (audio st)).
    + exists (music_busy (audio st)). conjs; [reflexivity|discriminate|]. tauto.
    + exists false. conjs; [reflexivity|discriminate|].
      intros _. split; [discriminate|]. intros [H _]. discriminate.
Qed.

Lemma ms_to_seconds_range (ms : Z) :
  PrimFloat.leb 0%float (ms_to_seconds ms) = true /\
  (ms <= 0 -> ms_to_seconds ms = 0%float).
Proof.
  unfold ms_to_seconds, PyFloat.max. split.
  - destruct (negb (ms =? 0) && (0 <? ms)); [|reflexivity].
    destruct (PrimFloat.ltb 0%float _) eqn:Hlt; [|reflexivity].
    now apply float_ltb_leb.
  - intros Hle. destruct (0 <? ms) eqn:Hpos; [apply Z.ltb_lt in Hpos; lia|].
    now rewrite andb_false_r.
Qed.

(** X11: a position that [_backend_get_pos_seconds] returns is never
    negative (and never nan), the query changes nothing, and a clock of
    the active backend at or below zero, such as VLC's -1 without media,
    reads as 0.0. *)
Theorem position_seconds_not_negative (st : State) (pos : float) :
  fst (_backend_get_pos_seconds st) = Ret pos ->
  PrimFloat.leb 0%float pos = true /\
  snd (_backend_get_pos_seconds st) = st /\
  ((if _use_vlc (player st) && _vlc_player (player st)
    then vlc_time (audio st) else music_pos (audio st)) <= 0 -> pos = 0%float).
Proof.
  intros Hpos. split; [|split; [apply backend_get_pos_read_only|]];
    revert Hpos; unfold _backend_get_pos_seconds;
    destruct (_use_vlc (player st) && _vlc_player (player st));
    unfold bind, ret, vlc_player.get_time, vlc_player.query, pygame_music.get_pos.
  - destruct (vlc_query_fault (audio st)); [discriminate|].
    intros [= <-]. apply ms_to_seconds_range.
  - destruct (mixer_init (audio st)); [|discriminate].
    intros [= <-]. apply ms_to_seconds_range.
  - destruct (vlc_query_fault (audio st)); [discriminate|].
    intros [= <-]. apply ms_to_seconds_range.
  - destruct (mixer_init (audio st)); [|discriminate].
    intros [= <-]. apply ms_to_seconds_range.
Qed.

Lemma position_seconds_not_negative_witness :
  let st := with_audio (fun a =>
              {| mixer_init := mixer_init a; music_file := music_file a;
                 music_busy := music_busy a; music_pos := music_pos a;
                 music_volume := music_volume a; vlc_media := vlc_media a;
                 vlc_is_playing := vlc_is_playing a; vlc_time := -1;
                 vlc_length := vlc_length a; vlc_volume := vlc_volume a;
                 vlc_query_fault := vlc_query_fault a |})
              (sample_state true abc 0 false) in
  PrimFloat.leb 0%float 0%float = true /\
  snd (_backend_get_pos_seconds st) = st /\
  ((if _use_vlc (player st) && _vlc_player (player st)
    then vlc_time (audio st) else music_pos (audio st)) <= 0 -> 0%float = 0%float).
Proof.
  apply (position_seconds_not_negative _ 0%float). reflexivity.
Defined.

(** X12: with pygame as the backend [_backend_get_duration_seconds]
    never raises and changes nothing.  It answers 0.0 for a cursor at or
    past the end of the view, and when mutagen raises, returns no file
    object or gives no [info] for the file under the cursor; otherwise it
    answers the length mutagen reads. *)
Theorem pygame_duration_never_raises (E : Env) (st : State) :
  _use_vlc (player st) && _vlc_player (player st) = false ->
  exists d,
    _backend_get_duration_seconds E st = (Ret d, st) /\
    (Z.of_nat (List.length (current_playlist (player st))) <= current_index (player st) ->
     d = 0%float) /\
    (forall file_path,
       py_getitem (current_playlist (player st)) (current_index (player st)) = Some file_path ->
       (MutagenFile E file_path = Ret None \/ (exists e, MutagenFile E file_path = Raise e) \/
        (exists f, MutagenFile E file_path = Ret (Some f) /\ info_length f = None)) ->
       d = 0%float) /\
    (forall file_path f len,
       current_index (player st) < Z.of_nat (List.length (current_playlist (player st))) ->
       py_getitem (current_playlist (player st)) (current_index (player st)) = Some file_path ->
       MutagenFile E file_path = Ret (Some f) -> info_length f = Some len ->
       d = len).
Proof.
  intros Hpy. unfold _backend_get_duration_seconds. rewrite Hpy.
  unfold bind, try_except, mutagen_duration, ret.
  destruct (current_index (player st) <? Z.of_nat (List.length (current_playlist (player st))))
    eqn:Hlt.
  - apply Z.ltb_lt in Hlt.
    destruct (py_getitem _ _) as [file_path|] eqn:Hget.
    + destruct (MutagenFile E file_path) as [[f|]|e] eqn:Hm.
      * exists (default 0%float (info_length f)). conjs; [reflexivity|lia| |].
        -- intros fp [= <-] [H|[[e H]|(f' & H & Hinfo)]]; try congruence.
           rewrite Hm in H. injection H as <-. now rewrite Hinfo.
        -- intros fp f' len _ [= <-] H Hinfo. rewrite Hm in H. injection H as <-.
           now rewrite Hinfo.
      * exists 0%float. conjs; [reflexivity|lia|reflexivity|].
        intros fp f' len _ [= <-] H. congruence.
      * exists 0%float. conjs; [reflexivity|lia|reflexivity|].
        intros fp f' len _ [= <-] H. congruence.
    + exists 0%float. conjs; [reflexivity|lia|reflexivity|]. intros fp f' len _ H. discriminate.
  - apply Z.ltb_ge in Hlt.
    exists 0%float. conjs; [reflexivity|reflexivity|reflexivity|]. intros; lia.
Qed.

Lemma pygame_duration_never_raises_witness :
  exists d,
    _backend_get_duration_seconds sample_env (sample_state false abc 5 true)
      = (Ret d, sample_state false abc 5 true) /\
    (Z.of_nat (List.length (current_playlist (player (sample_state false abc 5 true))))
       <= current_index (player (sample_state false abc 5 true)) ->
     d = 0%float).
Proof.
  destruct (pygame_duration_never_raises sample_env (sample_state false abc 5 true))
    as (d & Hrun & Hstale & _); [reflexivity|].
  exists d. split; assumption.
Defined.

(** *** Lists and the dictionary of playlists *)

Arguments PyStr.eqb : simpl never.
Arguments u : simpl never.

Lemma py_in_In (x : str) (l : list str) : py_in x l = true <-> In x l.
Proof.
  unfold py_in. rewrite existsb_exists. split.
  - intros (y & Hy & Heq). apply PyStr_eqb_eq in Heq. now subst.
  - intros Hin. exists x. split; [exact Hin|]. now apply PyStr_eqb_eq.
Qed.

Lemma py_in_not_In (x : str) (l : list str) : py_in x l = false <-> ~ In x l.
Proof. rewrite <- py_in_In. destruct (py_in x l); split; congruence. Qed.

Lemma py_remove_app_fresh (x : str) (l : list str) :
  ~ In x l -> py_remove x (l ++ [x]) = l.
Proof.
  induction l as [|y l IH]; simpl; intros Hnotin.
  - now rewrite (proj2 (PyStr_eqb_eq x x) eq_refl).
  - destruct (PyStr.eqb x y) eqn:Hxy.
    + apply PyStr_eqb_eq in Hxy. subst. tauto.
    + f_equal. apply IH. tauto.
Qed.

Lemma py_remove_In (x y : str) (l : list str) : In y (py_remove x l) -> In y l.
Proof.
  induction l as [|z l IH]; simpl; [easy|].
  destruct (PyStr.eqb x z); simpl; intuition.
Qed.

Lemma py_remove_NoDup (x : str) (l : list str) :
  NoDup l -> NoDup (py_remove x l) /\ ~ In x (py_remove x l).
Proof.
  induction 1 as [|y l Hy Hnd [IHnd IHin]]; simpl.
  - split; [constructor|easy].
  - rewrite list_elem_of_In in Hy.
    destruct (PyStr.eqb x y) eqn:Hxy.
    + apply PyStr_eqb_eq in Hxy. subst. now split.
    + apply PyStr_eqb_neq in Hxy. split.
      * constructor; [|exact IHnd]. rewrite list_elem_of_In.
        intros Hin. apply Hy. eapply py_remove_In, Hin.
      * simpl. intros [Heq|Hin]; [congruence|tauto].
Qed.

Lemma NoDup_snoc (x : str) (l : list str) : NoDup l -> ~ In x l -> NoDup (l ++ [x]).
Proof.
  intros Hnd Hx. apply NoDup_app. split; [exact Hnd|]. split.
  - intros y Hy Hin. apply list_elem_of_In in Hy, Hin. simpl in Hin.
    destruct Hin as [<-|[]]. tauto.
  - constructor; [|constructor]. rewrite list_elem_of_In. easy.
Qed.

Lemma all_not_favourite : u "All" <> u "Favourite".
Proof. discriminate. Qed.

(** *** Adding a file to the library *)

(** X13: on a consistent library (the playlists "All" and "Favourite"
    mirror [all_songs] and [favourites], the view shows the playlist it is
    named after, neither list has a duplicate) [add_file] never raises and
    leaves the library consistent.  The songs already there keep their
    rows, a chosen file is in the library afterwards, and adding it a
    second time changes nothing; a cancelled dialog changes nothing. *)
Theorem add_file_keeps_library (E : Env) (file_path : str) (st : State) :
  library_ok st ->
  exists st',
    add_file E file_path st = Done st' /\
    library_ok st' /\
    (exists added, all_songs (player st') = all_songs (player st) ++ added) /\
    (file_path <> [] -> In file_path (all_songs (player st'))) /\
    (file_path = [] -> st' = st) /\
    add_file E file_path st' = Done st'.
Proof.
  intros ((Hall & Hfav) & Hsync & Hnd & Hndf).
  destruct file_path as [|c rest] eqn:Hfp.
  { exists st. conjs; try reflexivity; try easy.
    exists []. now rewrite app_nil_r. }
  rewrite <- Hfp in *. assert (Hne : file_path <> []) by (subst; discriminate).
  assert (Hunfold : forall s, add_file E file_path s =
            let p := player s in
            if py_in file_path (all_songs p) then Done s
            else
              let p1 := set_all_songs (all_songs p ++ [file_path]) p in
              match store_append (u "All") file_path p1 with
              | inl e => Failed e (with_player (fun _ => p1) s)
              | inr p2 =>
                  if PyStr.eqb (current_playlist_name p2) (u "All")
                  then Done (update_song_list_display E
                               (with_player (fun _ => view_append file_path p2) s))
                  else Done (with_player (fun _ => p2) s)
              end).
  { intros s. subst file_path. reflexivity. }
  clear Hfp c rest. rewrite Hunfold. cbv zeta.
  destruct (py_in file_path (all_songs (player st))) eqn:Hin.
  { exists st. conjs; try easy.
    - exists []. now rewrite app_nil_r.
    - intros _. now apply py_in_In.
    - rewrite Hunfold. cbv zeta. now rewrite Hin. }
  apply py_in_not_In in Hin.
  unfold store_append. cbn [playlists set_all_songs]. rewrite Hall.
  cbn [current_playlist_name set_playlists set_all_songs].
  destruct (PyStr.eqb (current_playlist_name (player st)) (u "All")) eqn:Hname.
  - eexists. split; [reflexivity|].
    unfold library_ok, stores_agree, view_synced. simpl.
    rewrite Hname, lookup_insert_eq, lookup_insert_ne by apply all_not_favourite.
    unfold view_synced in Hsync. rewrite Hname in Hsync. rewrite Hsync.
    conjs; auto using NoDup_snoc.
    + now exists [file_path].
    + intros _. apply in_or_app. right. now left.
    + congruence.
    + rewrite Hunfold. cbv zeta. simpl.
      assert (Hin' : py_in file_path (all_songs (player st) ++ [file_path]) = true).
      { apply py_in_In, in_or_app. right. now left. }
      now rewrite Hin'.
  - eexists. split; [reflexivity|].
    unfold library_ok, stores_agree, view_synced. simpl.
    rewrite Hname, lookup_insert_eq, lookup_insert_ne by apply all_not_favourite.
    unfold view_synced in Hsync. rewrite Hname in Hsync.
    apply PyStr_eqb_neq in Hname.
    rewrite lookup_insert_ne by congruence.
    conjs; auto using NoDup_snoc.
    + now exists [file_path].
    + intros _. apply in_or_app. right. now left.
    + congruence.
    + rewrite Hunfold. cbv zeta. simpl.
      assert (Hin' : py_in file_path (all_songs (player st) ++ [file_path]) = true).
      { apply py_in_In, in_or_app. right. now left. }
      now rewrite Hin'.
Qed.

Lemma library_state_all_ok : library_ok (library_state (u "All") abc [u "a.mp3"] 0).
Proof.
  repeat split; try reflexivity; apply (bool_decide_unpack _); vm_compute; exact I.
Qed.

Lemma add_file_keeps_library_witness :
  exists st',
    add_file sample_env (u "d.mp3") (library_state (u "All") abc [u "a.mp3"] 0) = Done st' /\
    library_ok st' /\
    (exists added,
       all_songs (player st')
       = all_songs (player (library_state (u "All") abc [u "a.mp3"] 0)) ++ added) /\
    (u "d.mp3" <> [] -> In (u "d.mp3") (all_songs (player st'))) /\
    (u "d.mp3" = [] -> st' = library_state (u "All") abc [u "a.mp3"] 0) /\
    add_file sample_env (u "d.mp3") st' = Done st'.
Proof.
  apply (add_file_keeps_library sample_env (u "d.mp3")
           (library_state (u "All") abc [u "a.mp3"] 0)).
  exact library_state_all_ok.
Defined.

(** *** Favourites *)

Lemma add_to_favourites_run (E : Env) (file_path : str) (st : State) :
  stores_agree st ->
  ~ In file_path (favourites (player st)) ->
  exists st1,
    add_to_favourites E file_path st = Done st1 /\
    player st1 =
      (let p2 := set_playlists
                   (<[u "Favourite" := favourites (player st) ++ [file_path]]>
                      (playlists (player st)))
                   (set_favourites (favourites (player st) ++ [file_path]) (player st)) in
       if PyStr.eqb (current_playlist_name (player st)) (u "Favourite")
       then view_append file_path p2 else p2) /\
    audio st1 = audio st /\
    progress_var (gui st1) = progress_var (gui st) /\
    current_song_label (gui st1) = current_song_label (gui st).
Proof.
  intros [_ Hfav] Hnotin. unfold add_to_favourites.
  rewrite (proj2 (py_in_not_In _ _) Hnotin).
  unfold store_append. cbn [playlists set_favourites]. rewrite Hfav.
  cbn [current_playlist_name set_playlists set_favourites].
  destruct (PyStr.eqb (current_playlist_name (player st)) (u "Favourite"));
    eexists; (split; [reflexivity|]); now simpl.
Qed.

Lemma remove_from_favourites_run (E : Env) (file_path : str) (st : State) :
  stores_agree st -> view_synced st ->
  In file_path (favourites (player st)) ->
  exists st2,
    remove_from_favourites E file_path st = Done st2 /\
    player st2 =
      (let p2 := set_playlists
                   (<[u "Favourite" := py_remove file_path (favourites (player st))]>
                      (playlists (player st)))
                   (set_favourites (py_remove file_path (favourites (player st))) (player st)) in
       if PyStr.eqb (current_playlist_name (player st)) (u "Favourite")
       then set_current_playlist (py_remove file_path (current_playlist (player st))) p2
       else p2) /\
    audio st2 = audio st /\
    progress_var (gui st2) = progress_var (gui st) /\
    current_song_label (gui st2) = current_song_label (gui st).
Proof.
  intros [_ Hfav] Hsync Hin. unfold remove_from_favourites.
  rewrite (proj2 (py_in_In _ _) Hin).
  unfold store_remove. cbn [playlists set_favourites]. rewrite Hfav.
  rewrite (proj2 (py_in_In _ _) Hin).
  cbn [current_playlist_name set_playlists set_favourites].
  destruct (PyStr.eqb (current_playlist_name (player st)) (u "Favourite")) eqn:Hname.
  - unfold view_remove. cbn [current_playlist set_playlists set_favourites].
    unfold view_synced in Hsync. rewrite Hname in Hsync.
    assert (Hnot_all : PyStr.eqb (current_playlist_name (player st)) (u "All") = false).
    { apply PyStr_eqb_eq in Hname. rewrite Hname. reflexivity. }
    rewrite Hnot_all in Hsync. rewrite Hsync, (proj2 (py_in_In _ _) Hin).
    eexists. split; [reflexivity|]. now simpl.
  - eexists. split; [reflexivity|]. now simpl.
Qed.

Lemma library_ok_player (st st' : State) :
  player st' = player st -> library_ok st -> library_ok st'.
Proof.
  unfold library_ok, stores_agree, view_synced. intros ->. tauto.
Qed.

(** X14: on a consistent library [add_to_favourites] and
    [remove_from_favourites] never raise and leave the library consistent;
    after the one the file is a favourite, after the other it is not.
    Removing a file that was just added as a new favourite restores every
    field of the player: the two lists, the dictionary and the view. *)
Theorem favourites_add_remove (E : Env) (file_path : str) (st : State) :
  library_ok st ->
  exists st1,
    add_to_favourites E file_path st = Done st1 /\
    library_ok st1 /\
    In file_path (favourites (player st1)) /\
    exists st2,
      remove_from_favourites E file_path st1 = Done st2 /\
      library_ok st2 /\
      ~ In file_path (favourites (player st2)) /\
      (~ In file_path (favourites (player st)) -> player st2 = player st).
Proof.
  intros Hok.
  assert (Hremove : forall s, library_ok s -> In file_path (favourites (player s)) ->
            exists s2, remove_from_favourites E file_path s = Done s2 /\
                       library_ok s2 /\ ~ In file_path (favourites (player s2))).
  { intros s ((Hall & Hfav) & Hsync & Hnd & Hndf) Hin.
    destruct (remove_from_favourites_run E file_path s) as (s2 & Hrun & Hp & _); auto.
    { now split. }
    exists s2. split; [exact Hrun|].
    destruct (py_remove_NoDup file_path _ Hndf) as [Hnd' Hnotin].
    unfold library_ok, stores_agree, view_synced. rewrite Hp. cbv zeta.
    unfold view_synced in Hsync.
    destruct (PyStr.eqb (current_playlist_name (player s)) (u "Favourite")) eqn:Hname; simpl.
    - assert (Hnot_all : PyStr.eqb (current_playlist_name (player s)) (u "All") = false).
      { apply PyStr_eqb_eq in Hname. rewrite Hname. reflexivity. }
      rewrite Hnot_all, Hname in *. rewrite Hsync.
      rewrite lookup_insert_eq, lookup_insert_ne by (intros H; now apply all_not_favourite).
      conjs; auto.
    - rewrite Hname in *.
      rewrite lookup_insert_eq, lookup_insert_ne by (intros H; now apply all_not_favourite).
      destruct (PyStr.eqb (current_playlist_name (player s)) (u "All")); conjs; auto.
      apply PyStr_eqb_neq in Hname. rewrite lookup_insert_ne by congruence. exact Hsync. }
  destruct (py_in file_path (favourites (player st))) eqn:Hpy;
    [apply py_in_In in Hpy; rename Hpy into Hin
    |apply py_in_not_In in Hpy; rename Hpy into Hnotin].
  - exists st. unfold add_to_favourites at 1. rewrite (proj2 (py_in_In _ _) Hin).
    split; [reflexivity|]. split; [exact Hok|]. split; [exact Hin|].
    destruct (Hremove st Hok Hin) as (s2 & Hrun & Hok2 & Hnot).
    exists s2. conjs; auto. tauto.
  - destruct Hok as ((Hall & Hfav) & Hsync & Hnd & Hndf).
    destruct (add_to_favourites_run E file_path st) as (st1 & Hrun & Hp & _); auto.
    { now split. }
    exists st1. split; [exact Hrun|].
    assert (Hok1 : library_ok st1).
    { unfold library_ok, stores_agree, view_synced. rewrite Hp. cbv zeta.
      unfold view_synced in Hsync.
      destruct (PyStr.eqb (current_playlist_name (player st)) (u "Favourite")) eqn:Hname; simpl.
      - assert (Hnot_all : PyStr.eqb (current_playlist_name (player st)) (u "All") = false).
        { apply PyStr_eqb_eq in Hname. rewrite Hname. reflexivity. }
        rewrite Hnot_all, Hname in *. rewrite Hsync.
        rewrite lookup_insert_eq, lookup_insert_ne by (intros H; now apply all_not_favourite).
        conjs; auto using NoDup_snoc.
      - rewrite Hname in *.
        rewrite lookup_insert_eq, lookup_insert_ne by (intros H; now apply all_not_favourite).
        destruct (PyStr.eqb (current_playlist_name (player st)) (u "All"));
          conjs; auto using NoDup_snoc.
        apply PyStr_eqb_neq in Hname. rewrite lookup_insert_ne by congruence. exact Hsync. }
    assert (Hin1 : In file_path (favourites (player st1))).
    { rewrite Hp. cbv zeta.
      destruct (PyStr.eqb _ _); simpl; apply in_or_app; right; now left. }
    split; [exact Hok1|]. split; [exact Hin1|].
    destruct (Hremove st1 Hok1 Hin1) as (s2 & Hrun2 & Hok2 & Hnot).
    exists s2. conjs; auto. intros _.
    destruct Hok1 as (Hagree1 & Hsync1 & _).
    destruct (remove_from_favourites_run E file_path st1) as (s2' & Hrun2' & Hp2 & _); auto.
    rewrite Hrun2 in Hrun2'. injection Hrun2' as <-.
    rewrite Hp2, Hp. cbv zeta. unfold view_synced in Hsync.
    destruct (player st) as [uv vi vp songs favs pls name view idx playing paused vol].
    simpl in *.
    destruct (PyStr.eqb name (u "Favourite")) eqn:Hname; simpl; rewrite Hname; simpl.
    + assert (Hnot_all : PyStr.eqb name (u "All") = false).
      { apply PyStr_eqb_eq in Hname. rewrite Hname. reflexivity. }
      rewrite Hnot_all in Hsync. subst view.
      rewrite !py_remove_app_fresh by assumption.
      rewrite insert_insert_eq, insert_id by assumption. reflexivity.
    + rewrite !py_remove_app_fresh by assumption.
      rewrite insert_insert_eq, insert_id by assumption. reflexivity.
Qed.

Lemma favourites_add_remove_witness :
  let st := library_state (u "All") abc [u "a.mp3"] 0 in
  exists st1,
    add_to_favourites sample_env (u "a.mp3") st = Done st1 /\
    library_ok st1 /\
    In (u "a.mp3") (favourites (player st1)) /\
    exists st2,
      remove_from_favourites sample_env (u "a.mp3") st1 = Done st2 /\
      library_ok st2 /\
      ~ In (u "a.mp3") (favourites (player st2)) /\
      (~ In (u "a.mp3") (favourites (player st)) -> player st2 = player st).
Proof.
  apply (favourites_add_remove sample_env (u "a.mp3")
           (library_state (u "All") abc [u "a.mp3"] 0)).
  exact library_state_all_ok.
Defined.

(** *** Custom playlists *)

(** Replacing the songs of a custom playlist, and the view with them when
    it shows that playlist, keeps the library consistent. *)
Lemma library_ok_update_custom (st st' : State) (name : str) (songs' : list str) :
  library_ok st ->
  name <> u "All" -> name <> u "Favourite" ->
  playlists (player st') = <[name := songs']> (playlists (player st)) ->
  all_songs (player st') = all_songs (player st) ->
  favourites (player st') = favourites (player st) ->
  current_playlist_name (player st') = current_playlist_name (player st) ->
  current_playlist (player st') =
    (if PyStr.eqb (current_playlist_name (player st)) name
     then songs' else current_playlist (player st)) ->
  library_ok st'.
Proof.
  intros ((Hall & Hfav) & Hsync & Hnd & Hndf) HnA HnF Hpl Hsongs Hfavs Hname Hview.
  unfold library_ok, stores_agree, view_synced in *.
  rewrite Hpl, Hsongs, Hfavs, Hname, Hview.
  rewrite !lookup_insert_ne by congruence.
  conjs; auto.
  destruct (PyStr.eqb (current_playlist_name (player st)) name) eqn:Hcur.
  - apply PyStr_eqb_eq in Hcur. rewrite Hcur.
    rewrite (proj2 (PyStr_eqb_neq _ _) HnA), (proj2 (PyStr_eqb_neq _ _) HnF).
    now rewrite lookup_insert_eq.
  - apply PyStr_eqb_neq in Hcur. rewrite Hsync.
    destruct (PyStr.eqb _ (u "All")); [reflexivity|].
    destruct (PyStr.eqb _ (u "Favourite")); [reflexivity|].
    now rewrite lookup_insert_ne by congruence.
Qed.

Lemma custom_view (st : State) (name : str) :
  view_synced st -> name <> u "All" -> name <> u "Favourite" ->
  PyStr.eqb (current_playlist_name (player st)) name = true ->
  current_playlist (player st) = default [] (playlists (player st) !! name).
Proof.
  unfold view_synced. intros Hsync HnA HnF Hcur. apply PyStr_eqb_eq in Hcur.
  rewrite Hcur in Hsync.
  now rewrite (proj2 (PyStr_eqb_neq _ _) HnA), (proj2 (PyStr_eqb_neq _ _) HnF) in Hsync.
Qed.

(** X15: on a consistent library and for a playlist other than "All"
    and "Favourite", [add_song_to_playlist] and [remove_song_from_playlist]
    never raise and leave the library consistent, the view following the
    playlist when it shows it.  A playlist that does not exist is left
    alone.  After adding, the song is in the playlist and a playlist
    without duplicates stays so; removing a song that was just added as
    new restores every field of the player. *)
Theorem playlist_add_remove (E : Env) (file_path name : str) (st : State) :
  library_ok st ->
  name <> u "All" -> name <> u "Favourite" ->
  exists st1,
    add_song_to_playlist E file_path name st = Done st1 /\
    library_ok st1 /\
    (playlists (player st) !! name = None -> st1 = st) /\
    (forall songs, playlists (player st) !! name = Some songs ->
       exists songs1, playlists (player st1) !! name = Some songs1 /\
                      In file_path songs1 /\ (NoDup songs -> NoDup songs1)) /\
    exists st2,
      remove_song_from_playlist E file_path name st1 = Done st2 /\
      library_ok st2 /\
      (forall songs, playlists (player st) !! name = Some songs ->
         ~ In file_path songs -> player st2 = player st).
Proof.
  intros Hok HnA HnF.
  assert (Hremove : forall s, library_ok s ->
            exists s2, remove_song_from_playlist E file_path name s = Done s2 /\
              library_ok s2 /\
              (forall songs, playlists (player s) !! name = Some songs -> In file_path songs ->
                 playlists (player s2) = <[name := py_remove file_path songs]> (playlists (player s)) /\
                 all_songs (player s2) = all_songs (player s) /\
                 favourites (player s2) = favourites (player s) /\
                 current_playlist_name (player s2) = current_playlist_name (player s) /\
                 current_playlist (player s2) =
                   (if PyStr.eqb (current_playlist_name (player s)) name
                    then py_remove file_path songs else current_playlist (player s)) /\
                 current_index (player s2) = current_index (player s) /\
                 is_playing (player s2) = is_playing (player s) /\
                 is_paused (player s2) = is_paused (player s) /\
                 volume (player s2) = volume (player s) /\
                 _use_vlc (player s2) = _use_vlc (player s) /\
                 _vlc_instance (player s2) = _vlc_instance (player s) /\
                 _vlc_player (player s2) = _vlc_player (player s))).
  { intros s Hs. unfold remove_song_from_playlist.
    destruct (playlists (player s) !! name) as [songs|] eqn:Hlook.
    2:{ exists s. conjs; auto. intros songs H. discriminate. }
    destruct (py_in file_path songs) eqn:Hin.
    2:{ exists s. conjs; auto. intros songs' [= <-] Hin'.
        apply py_in_In in Hin'. congruence. }
    cbn [current_playlist_name set_playlists].
    destruct (PyStr.eqb (current_playlist_name (player s)) name) eqn:Hcur.
    - unfold view_remove. cbn [current_playlist set_playlists].
      pose proof (custom_view s name (proj1 (proj2 Hs)) HnA HnF Hcur) as Hview.
      rewrite Hlook in Hview. simpl in Hview. rewrite Hview, Hin.
      eexists. split; [reflexivity|]. split.
      + eapply (library_ok_update_custom s _ name (py_remove file_path songs));
          eauto; simpl; rewrite ?Hcur; reflexivity.
      + intros songs' [= <-] _. simpl. rewrite ?Hcur. conjs; reflexivity.
    - eexists. split; [reflexivity|]. split.
      + eapply (library_ok_update_custom s _ name (py_remove file_path songs));
          eauto; simpl; rewrite ?Hcur; reflexivity.
      + intros songs' [= <-] _. simpl. rewrite ?Hcur. conjs; reflexivity. }
  unfold add_song_to_playlist.
  destruct (playlists (player st) !! name) as [songs|] eqn:Hlook.
  2:{ exists st. conjs; auto.
      - intros songs H. discriminate.
      - destruct (Hremove st Hok) as (s2 & Hrun & Hok2 & _).
        exists s2. conjs; auto. intros songs H. discriminate. }
  destruct (py_in file_path songs) eqn:Hin.
  { exists st. conjs; auto.
    - intros songs' [= <-]. exists songs. conjs; auto. now apply py_in_In.
    - destruct (Hremove st Hok) as (s2 & Hrun & Hok2 & _).
      exists s2. conjs; auto. intros songs' [= <-] Hnot. apply py_in_In in Hin. tauto. }
  apply py_in_not_In in Hin.
  cbn [current_playlist_name set_playlists].
  set (st1 := show _ _).
  assert (Hview1 : current_playlist (player st1) =
            (if PyStr.eqb (current_playlist_name (player st)) name
             then songs ++ [file_path] else current_playlist (player st))).
  { subst st1. destruct (PyStr.eqb (current_playlist_name (player st)) name) eqn:Hcur;
      [|reflexivity].
    pose proof (custom_view st name (proj1 (proj2 Hok)) HnA HnF Hcur) as Hview.
    rewrite Hlook in Hview. simpl. now rewrite Hview. }
  assert (Hfields : playlists (player st1) = <[name := songs ++ [file_path]]> (playlists (player st)) /\
            all_songs (player st1) = all_songs (player st) /\
            favourites (player st1) = favourites (player st) /\
            current_playlist_name (player st1) = current_playlist_name (player st) /\
            current_index (player st1) = current_index (player st) /\
            is_playing (player st1) = is_playing (player st) /\
            is_paused (player st1) = is_paused (player st) /\
            volume (player st1) = volume (player st) /\
            _use_vlc (player st1) = _use_vlc (player st) /\
            _vlc_instance (player st1) = _vlc_instance (player st) /\
            _vlc_player (player st1) = _vlc_player (player st)).
  { subst st1. destruct (PyStr.eqb (current_playlist_name (player st)) name); now simpl. }
  destruct Hfields as (Hpl1 & Hs1 & Hf1 & Hn1 & Hi1 & Hp1 & Hq1 & Hv1 & Hu1 & Hvi1 & Hvp1).
  assert (Hok1 : library_ok st1).
  { now apply (library_ok_update_custom st st1 name (songs ++ [file_path])). }
  exists st1. split; [reflexivity|]. split; [exact Hok1|]. split; [discriminate|]. split.
  { intros songs' [= <-]. exists (songs ++ [file_path]). rewrite Hpl1, lookup_insert_eq.
    conjs; auto using NoDup_snoc. apply in_or_app. right. now left. }
  destruct (Hremove st1 Hok1) as (s2 & Hrun & Hok2 & Hfields2).
  exists s2. split; [exact Hrun|]. split; [exact Hok2|].
  intros songs' [= <-] _.
  destruct (Hfields2 (songs ++ [file_path]))
    as (Hpl2 & Hs2 & Hf2 & Hn2 & Hview2 & Hi2 & Hp2 & Hq2 & Hv2 & Hu2 & Hvi2 & Hvp2).
  { now rewrite Hpl1, lookup_insert_eq. }
  { apply in_or_app. right. now left. }
  rewrite py_remove_app_fresh in Hpl2, Hview2 by assumption.
  rewrite Hpl1, insert_insert_eq, insert_id in Hpl2 by assumption.
  rewrite Hn1, Hview1 in Hview2.
  assert (Hview : current_playlist (player s2) = current_playlist (player st)).
  { rewrite Hview2. destruct (PyStr.eqb (current_playlist_name (player st)) name) eqn:Hcur;
      [|reflexivity].
    pose proof (custom_view st name (proj1 (proj2 Hok)) HnA HnF Hcur) as Hv.
    rewrite Hlook in Hv. now rewrite Hv. }
  destruct (player s2), (player st). simpl in *. congruence.
Qed.

Lemma library_state_mix_ok :
  library_ok (library_state (u "Mix") [u "a.mp3"; u "c.mp3"] [u "a.mp3"; u "c.mp3"] 1).
Proof.
  repeat split; try reflexivity; apply (bool_decide_unpack _); vm_compute; exact I.
Qed.

Lemma playlist_add_remove_witness :
  let st := library_state (u "Mix") [u "a.mp3"; u "c.mp3"] [u "a.mp3"; u "c.mp3"] 1 in
  exists st1,
    add_song_to_playlist sample_env (u "b.mp3") (u "Mix") st = Done st1 /\
    library_ok st1 /\
    (playlists (player st) !! u "Mix" = None -> st1 = st) /\
    (forall songs, playlists (player st) !! u "Mix" = Some songs ->
       exists songs1, playlists (player st1) !! u "Mix" = Some songs1 /\
                      In (u "b.mp3") songs1 /\ (NoDup songs -> NoDup songs1)) /\
    exists st2,
      remove_song_from_playlist sample_env (u "b.mp3") (u "Mix") st1 = Done st2 /\
      library_ok st2 /\
      (forall songs, playlists (player st) !! u "Mix" = Some songs ->
         ~ In (u "b.mp3") songs -> player st2 = player st).
Proof.
  apply (playlist_add_remove sample_env (u "b.mp3") (u "Mix")
           (library_state (u "Mix") [u "a.mp3"; u "c.mp3"] [u "a.mp3"; u "c.mp3"] 1));
    [exact library_state_mix_ok | discriminate | discriminate].
Defined.

(** *** Removing a row of the view *)

(** X16: removing a row of the "Favourite" view with
    [remove_song_from_current_playlist] takes the song out of the view and
    out of the playlist "Favourite" of the dictionary, but not out of
    [favourites].  On a consistent library the song therefore is still a
    favourite, selecting "Favourite" again shows the view as it was before
    the removal, and a later [remove_from_favourites] of that song raises
    ValueError after it has taken the song out of [favourites]. *)
Theorem remove_row_of_favourite_view (E : Env) (index : nat) (st : State) (file_path : str) :
  library_ok st ->
  current_playlist_name (player st) = u "Favourite" ->
  nth_error (current_playlist (player st)) index = Some file_path ->
  let st1 := remove_song_from_current_playlist E index st in
  ~ In file_path (current_playlist (player st1)) /\
  playlists (player st1) !! u "Favourite"
    = Some (py_remove file_path (favourites (player st))) /\
  favourites (player st1) = favourites (player st) /\
  In file_path (favourites (player st1)) /\
  current_playlist (player (select_playlist E (u "Favourite") st1))
    = current_playlist (player st) /\
  exists st2,
    remove_from_favourites E file_path st1 = Failed NotInList st2 /\
    favourites (player st2) = py_remove file_path (favourites (player st)).
Proof.
  intros ((Hall & Hfav) & Hsync & Hnd & Hndf) Hname Hrow st1.
  unfold view_synced in Hsync. rewrite Hname in Hsync.
  change (PyStr.eqb (u "Favourite") (u "All")) with false in Hsync.
  change (PyStr.eqb (u "Favourite") (u "Favourite")) with true in Hsync.
  cbv iota in Hsync.
  assert (Hin : In file_path (favourites (player st))).
  { rewrite <- Hsync. eapply nth_error_In, Hrow. }
  destruct (py_remove_NoDup file_path _ Hndf) as [_ Hgone].
  assert (Hst1 : st1 = show (showinfo (u "Success") (u "Removed from playlist!"))
            (let p2 := set_current_playlist (py_remove file_path (favourites (player st)))
                         (set_playlists
                            (<[u "Favourite" := py_remove file_path (favourites (player st))]>
                               (playlists (player st))) (player st)) in
             let st2 := update_song_list_display E (with_player (fun _ => p2) st) in
             if (Z.of_nat index <=? current_index p2) && (0 <? current_index p2)
             then with_player (set_current_index (current_index p2 - 1)) st2 else st2)).
  { subst st1. unfold remove_song_from_current_playlist.
    rewrite Hrow, Hname, Hfav, (proj2 (py_in_In _ _) Hin).
    cbn [current_playlist set_playlists]. now rewrite Hsync. }
  assert (Hfields : current_playlist (player st1) = py_remove file_path (favourites (player st)) /\
            playlists (player st1)
              = <[u "Favourite" := py_remove file_path (favourites (player st))]>
                  (playlists (player st)) /\
            favourites (player st1) = favourites (player st)).
  { rewrite Hst1. cbv zeta. destruct (_ && _); now simpl. }
  destruct Hfields as (Hview1 & Hpl1 & Hfav1).
  rewrite Hview1, Hpl1, Hfav1, lookup_insert_eq.
  conjs; auto.
  - unfold select_playlist. simpl. rewrite Hfav1. now rewrite Hsync.
  - unfold remove_from_favourites. rewrite Hfav1, (proj2 (py_in_In _ _) Hin).
    unfold store_remove. cbn [playlists set_favourites]. rewrite Hpl1, lookup_insert_eq.
    rewrite (proj2 (py_in_not_In _ _) Hgone).
    eexists. split; [reflexivity|]. reflexivity.
Qed.

Lemma library_state_fav_ok :
  library_ok (library_state (u "Favourite") [u "b.mp3"] [u "a.mp3"] 0).
Proof.
  repeat split; try reflexivity; apply (bool_decide_unpack _); vm_compute; exact I.
Qed.

Lemma remove_row_of_favourite_view_witness :
  let st := library_state (u "Favourite") [u "b.mp3"] [u "a.mp3"] 0 in
  let st1 := remove_song_from_current_playlist sample_env 0 st in
  ~ In (u "b.mp3") (current_playlist (player st1)) /\
  playlists (player st1) !! u "Favourite"
    = Some (py_remove (u "b.mp3") (favourites (player st))) /\
  favourites (player st1) = favourites (player st) /\
  In (u "b.mp3") (favourites (player st1)) /\
  current_playlist (player (select_playlist sample_env (u "Favourite") st1))
    = current_playlist (player st) /\
  exists st2,
    remove_from_favourites sample_env (u "b.mp3") st1 = Failed NotInList st2 /\
    favourites (player st2) = py_remove (u "b.mp3") (favourites (player st)).
Proof.
  apply (remove_row_of_favourite_view sample_env 0
           (library_state (u "Favourite") [u "b.mp3"] [u "a.mp3"] 0) (u "b.mp3"));
    [exact library_state_fav_ok | reflexivity | reflexivity].
Defined.

Lemma py_remove_nth (l : list str) (i : nat) (x : str) :
  NoDup l -> nth_error l i = Some x -> py_remove x l = firstn i l ++ skipn (S i) l.
Proof.
  intros Hnd. revert i. induction Hnd as [|y l Hy Hnd IH]; intros [|i] Hnth;
    simpl in Hnth; try discriminate.
  - injection Hnth as ->. simpl. now rewrite (proj2 (PyStr_eqb_eq x x) eq_refl).
  - rewrite list_elem_of_In in Hy.
    assert (Hxy : PyStr.eqb x y = false).
    { apply PyStr_eqb_neq. intros ->. apply Hy. eapply nth_error_In, Hnth. }
    simpl. rewrite Hxy. f_equal. now apply IH.
Qed.

Lemma nth_error_without (l : list str) (i j : nat) :
  (i < List.length l)%nat ->
  nth_error (firstn i l ++ skipn (S i) l) j =
    if (j <? i)%nat then nth_error l j else nth_error l (S j).
Proof.
  intros Hi. destruct (j <? i)%nat eqn:Hji.
  - apply Nat.ltb_lt in Hji.
    rewrite nth_error_app1 by (rewrite length_firstn; lia).
    rewrite nth_error_firstn. now rewrite (proj2 (Nat.ltb_lt _ _) Hji).
  - apply Nat.ltb_ge in Hji.
    rewrite nth_error_app2 by (rewrite length_firstn; lia).
    rewrite length_firstn, nth_error_skipn. f_equal. lia.
Qed.

(** X17: when [remove_song_from_current_playlist] removes a row of a view
    without duplicates, the cursor being valid: if the row is not the one
    under the cursor, the cursor is on the same song afterwards; if it is
    the one under the cursor, the cursor moves to the song before it, or,
    from row 0, stays at 0 on what was the second song. *)
Theorem remove_row_keeps_current_song (E : Env) (index : nat) (st : State)
    (file_path : str) (songs : list str) :
  NoDup (current_playlist (player st)) ->
  cursor_ok st ->
  nth_error (current_playlist (player st)) index = Some file_path ->
  playlists (player st) !! current_playlist_name (player st) = Some songs ->
  In file_path songs ->
  let st' := remove_song_from_current_playlist E index st in
  let under s := py_getitem (current_playlist (player s)) (current_index (player s)) in
  (Z.of_nat index <> current_index (player st) -> under st' = under st) /\
  (Z.of_nat index = current_index (player st) -> 0 < current_index (player st) ->
   under st' = py_getitem (current_playlist (player st)) (current_index (player st) - 1)) /\
  (Z.of_nat index = current_index (player st) -> current_index (player st) = 0 ->
   current_index (player st') = 0 /\
   under st' = nth_error (current_playlist (player st)) 1).
Proof.
  intros Hnd Hok Hrow Hlook Hin st' under.
  assert (Hlt : (index < List.length (current_playlist (player st)))%nat).
  { apply nth_error_Some. congruence. }
  assert (Hne : current_playlist (player st) <> []).
  { intros Heq. rewrite Heq in Hlt. simpl in Hlt. lia. }
  specialize (Hok Hne).
  assert (Hview : current_playlist (player st')
            = firstn index (current_playlist (player st))
              ++ skipn (S index) (current_playlist (player st))).
  { subst st'. unfold remove_song_from_current_playlist.
    rewrite Hrow, Hlook, (proj2 (py_in_In _ _) Hin).
    cbn [current_playlist set_playlists set_current_playlist].
    rewrite <- (py_remove_nth _ _ _ Hnd Hrow).
    destruct (_ && _); reflexivity. }
  assert (Hidx : current_index (player st')
            = if (Z.of_nat index <=? current_index (player st)) && (0 <? current_index (player st))
              then current_index (player st) - 1 else current_index (player st)).
  { subst st'. unfold remove_song_from_current_playlist.
    rewrite Hrow, Hlook, (proj2 (py_in_In _ _) Hin).
    cbn [current_index set_playlists set_current_playlist].
    destruct (_ && _); reflexivity. }
  assert (Hget : forall (l : list str) i, 0 <= i -> py_getitem l i = nth_error l (Z.to_nat i)).
  { intros l i Hi. unfold py_getitem. destruct (i <? 0) eqn:Hneg; [lia|reflexivity]. }
  subst under. cbv beta. rewrite Hview, Hidx.
  split; [|split].
  - intros Hother.
    destruct (Z.of_nat index <=? current_index (player st)) eqn:Hle.
    + apply Z.leb_le in Hle.
      rewrite (proj2 (Z.ltb_lt 0 _)) by lia. simpl.
      rewrite !Hget by lia. rewrite nth_error_without by exact Hlt.
      rewrite (proj2 (Nat.ltb_ge _ _)) by lia. f_equal. lia.
    + apply Z.leb_gt in Hle. simpl.
      rewrite !Hget by lia. rewrite nth_error_without by exact Hlt.
      now rewrite (proj2 (Nat.ltb_lt _ _)) by lia.
  - intros Hsame Hpos.
    rewrite (proj2 (Z.leb_le _ _)) by lia. rewrite (proj2 (Z.ltb_lt 0 _)) by lia. simpl.
    rewrite !Hget by lia. rewrite nth_error_without by exact Hlt.
    now rewrite (proj2 (Nat.ltb_lt _ _)) by lia.
  - intros Hsame Hzero. rewrite Hzero. change (0 <? 0) with false.
    rewrite andb_false_r. split; [reflexivity|].
    rewrite Hget by lia. rewrite nth_error_without by exact Hlt.
    assert (index = 0%nat) by lia. subst index. reflexivity.
Qed.

Lemma remove_row_keeps_current_song_witness :
  let st := library_state (u "Mix") abc abc 2 in
  let st' := remove_song_from_current_playlist sample_env 0 st in
  let under s := py_getitem (current_playlist (player s)) (current_index (player s)) in
  (Z.of_nat 0 <> current_index (player st) -> under st' = under st) /\
  (Z.of_nat 0 = current_index (player st) -> 0 < current_index (player st) ->
   under st' = py_getitem (current_playlist (player st)) (current_index (player st) - 1)) /\
  (Z.of_nat 0 = current_index (player st) -> current_index (player st) = 0 ->
   current_index (player st') = 0 /\
   under st' = nth_error (current_playlist (player st)) 1).
Proof.
  apply (remove_row_keeps_current_song sample_env 0 (library_state (u "Mix") abc abc 2)
           (u "a.mp3") abc).
  - apply (bool_decide_unpack _). vm_compute. exact I.
  - intros _. simpl. lia.
  - reflexivity.
  - reflexivity.
  - left. reflexivity.
Defined.

(** *** Deleting and creating playlists *)

(** X18: [delete_playlist] refuses "All" and "Favourite" with a warning
    whatever the answer to its question, does nothing when the answer is
    no, and raises KeyError for a playlist that does not exist.  On a
    consistent library, deleting an existing playlist takes exactly that
    entry out of the dictionary and leaves the library consistent; when
    the view was showing it, the view switches to "All" with the cursor
    kept, otherwise the view stays. *)
Theorem delete_playlist_cases (E : Env) (name : str) (st : State) :
  library_ok st ->
  (name = u "All" \/ name = u "Favourite" ->
   forall confirmed,
     delete_playlist E name confirmed st
     = Done (show (showwarning (u "Warning") (u "Cannot delete default playlists!")) st)) /\
  (name <> u "All" -> name <> u "Favourite" ->
   delete_playlist E name false st = Done st /\
   (playlists (player st) !! name = None ->
    delete_playlist E name true st = Failed (KeyError name) st) /\
   (is_Some (playlists (player st) !! name) ->
    exists st',
      delete_playlist E name true st = Done st' /\
      library_ok st' /\
      playlists (player st') = delete name (playlists (player st)) /\
      all_songs (player st') = all_songs (player st) /\
      favourites (player st') = favourites (player st) /\
      current_index (player st') = current_index (player st) /\
      (current_playlist_name (player st) = name ->
       current_playlist_name (player st') = u "All" /\
       current_playlist (player st') = all_songs (player st)) /\
      (current_playlist_name (player st) <> name ->
       current_playlist_name (player st') = current_playlist_name (player st) /\
       current_playlist (player st') = current_playlist (player st)))).
Proof.
  intros ((Hall & Hfav) & Hsync & Hnd & Hndf). split.
  - intros [->| ->] confirmed; reflexivity.
  - intros HnA HnF. unfold delete_playlist.
    rewrite (proj2 (PyStr_eqb_neq _ _) HnA), (proj2 (PyStr_eqb_neq _ _) HnF). simpl.
    split; [reflexivity|]. split.
    + intros ->. reflexivity.
    + intros [songs Hlook]. rewrite Hlook.
      destruct (PyStr.eqb (current_playlist_name (player st)) name) eqn:Hcur.
      * eexists. split; [reflexivity|].
        unfold library_ok, stores_agree, view_synced. simpl.
        rewrite !lookup_delete_ne by congruence.
        change (PyStr.eqb (u "All") (u "All")) with true. cbv iota.
        conjs; auto.
        intros Hne. apply PyStr_eqb_eq in Hcur. congruence.
      * eexists. split; [reflexivity|].
        unfold library_ok, stores_agree, view_synced. simpl.
        rewrite !lookup_delete_ne by congruence.
        apply PyStr_eqb_neq in Hcur.
        conjs; auto; try congruence.
        unfold view_synced in Hsync. rewrite Hsync.
        destruct (PyStr.eqb _ (u "All")); [reflexivity|].
        destruct (PyStr.eqb _ (u "Favourite")); [reflexivity|].
        now rewrite lookup_delete_ne by congruence.
Qed.

Lemma delete_playlist_cases_witness :
  let st := library_state (u "Mix") [u "a.mp3"; u "c.mp3"] [u "a.mp3"; u "c.mp3"] 1 in
  exists st',
    delete_playlist sample_env (u "Mix") true st = Done st' /\
    library_ok st' /\
    playlists (player st') = delete (u "Mix") (playlists (player st)) /\
    all_songs (player st') = all_songs (player st) /\
    favourites (player st') = favourites (player st) /\
    current_index (player st') = current_index (player st) /\
    (current_playlist_name (player st) = u "Mix" ->
     current_playlist_name (player st') = u "All" /\
     current_playlist (player st') = all_songs (player st)) /\
    (current_playlist_name (player st) <> u "Mix" ->
     current_playlist_name (player st') = current_playlist_name (player st) /\
     current_playlist (player st') = current_playlist (player st)).
Proof.
  apply (proj2 (delete_playlist_cases sample_env (u "Mix")
                  (library_state (u "Mix") [u "a.mp3"; u "c.mp3"] [u "a.mp3"; u "c.mp3"] 1)
                  library_state_mix_ok));
    [discriminate | discriminate | now eexists].
Defined.

(** X19: [create_playlist] never raises and never changes or drops a
    playlist that exists: for a name that is taken (after stripping) it
    only warns, for a new one it adds an empty playlist, and for a
    cancelled dialog or a blank name it does nothing.  It keeps a
    consistent library consistent and leaves the view and the cursor
    alone. *)
Theorem create_playlist_cases (answer : option str) (st : State) :
  exists st',
    create_playlist answer st = Done st' /\
    (forall k songs, playlists (player st) !! k = Some songs ->
                     playlists (player st') !! k = Some songs) /\
    (forall name, answer = Some name -> PyStr.strip name <> [] ->
       playlists (player st') !! PyStr.strip name
       = Some (default [] (playlists (player st) !! PyStr.strip name))) /\
    (answer = None \/ (exists name, answer = Some name /\ PyStr.strip name = []) -> st' = st) /\
    (library_ok st -> library_ok st') /\
    current_playlist (player st') = current_playlist (player st) /\
    current_playlist_name (player st') = current_playlist_name (player st) /\
    current_index (player st') = current_index (player st).
Proof.
  unfold create_playlist.
  destruct answer as [name|].
  2:{ exists st. conjs; auto. intros name H. discriminate. }
  assert (Hstrip_nil : name = [] -> PyStr.strip name = []) by (intros ->; reflexivity).
  destruct name as [|c rest] eqn:Hname.
  { exists st. conjs; auto. intros name' [= <-] H. now destruct H. }
  rewrite <- Hname in *. clear Hstrip_nil.
  destruct (PyStr.strip name) as [|c' rest'] eqn:Hstrip.
  { exists st. conjs; auto. intros name' [= <-] H. rewrite Hstrip in H. now destruct H. }
  rewrite <- Hstrip in *.
  destruct (playlists (player st) !! PyStr.strip name) as [songs|] eqn:Hlook.
  - eexists. split; [reflexivity|]. simpl. conjs; auto.
    + intros name' [= <-] _. now rewrite Hlook.
    + intros [H|(name' & [= <-] & H)]; [discriminate|]. rewrite Hstrip in H. discriminate.
  - eexists. split; [reflexivity|]. simpl. conjs; auto.
    + intros k songs Hk. rewrite lookup_insert_ne; [exact Hk|]. intros <-. congruence.
    + intros name' [= <-] _. now rewrite Hlook, lookup_insert_eq.
    + intros [H|(name' & [= <-] & H)]; [discriminate|]. rewrite Hstrip in H. discriminate.
    + intros ((Hall & Hfav) & Hsync & Hnd & Hndf).
      unfold library_ok, stores_agree, view_synced in *. simpl.
      rewrite (lookup_insert_ne _ _ (u "All")) by (intros Heq; rewrite Heq in Hlook; congruence).
      rewrite (lookup_insert_ne _ _ (u "Favourite"))
        by (intros Heq; rewrite Heq in Hlook; congruence).
      conjs; auto. rewrite Hsync.
      destruct (PyStr.eqb _ (u "All")); [reflexivity|].
      destruct (PyStr.eqb _ (u "Favourite")); [reflexivity|].
      destruct (decide (PyStr.strip name = current_playlist_name (player st))) as [Heq|Hneq].
      * rewrite <- Heq, Hlook, lookup_insert_eq. reflexivity.
      * now rewrite lookup_insert_ne.
Qed.

(** *** Editing never touches playback *)

Ltac edit_frame :=
  repeat match goal with
    | |- context [match ?x with _ => _ end] =>
        lazymatch x with
        | context [match _ with _ => _ end] => fail
        | _ => destruct x
        end
    end;
  unfold same_playback; simpl; conjs; reflexivity.

(** X20: whatever they are given, and whether they return or raise,
    [add_file], [add_to_favourites], [remove_from_favourites],
    [add_song_to_playlist], [remove_song_from_playlist], [delete_playlist]
    and [create_playlist] leave the choice of the backend ([_use_vlc],
    [_vlc_instance], [_vlc_player]), the transport flags, the cursor, the
    volume, the state of both backends, the progress bar and the label of
    the current song as they were. *)
Theorem playlist_edits_keep_playback
    (E : Env) (file_path name : str) (confirmed : bool) (answer : option str) (st : State) :
  same_playback st (outcome_state (add_file E file_path st)) /\
  same_playback st (outcome_state (add_to_favourites E file_path st)) /\
  same_playback st (outcome_state (remove_from_favourites E file_path st)) /\
  same_playback st (outcome_state (add_song_to_playlist E file_path name st)) /\
  same_playback st (outcome_state (remove_song_from_playlist E file_path name st)) /\
  same_playback st (outcome_state (delete_playlist E name confirmed st)) /\
  same_playback st (outcome_state (create_playlist answer st)).
Proof.
  conjs.
  - unfold add_file, store_append. cbv zeta. edit_frame.
  - unfold add_to_favourites, store_append. cbv zeta. edit_frame.
  - unfold remove_from_favourites, store_remove, view_remove. cbv zeta. edit_frame.
  - unfold add_song_to_playlist. cbv zeta. edit_frame.
  - unfold remove_song_from_playlist, view_remove. cbv zeta. edit_frame.
  - unfold delete_playlist. cbv zeta. edit_frame.
  - unfold create_playlist. cbv zeta. edit_frame.
Qed.

(** *** More on titles *)

Lemma get_song_info_of_metadata (E : Env) (file_path : str) (f : audio_file) :
  MutagenFile E file_path = Ret (Some f) ->
  get_song_info E file_path =
    match tagged_title f with
    | Ret t => if usable_title t then default [] t else filename_title E file_path
    | Raise _ => filename_title E file_path
    end.
Proof.
  intros Hm. unfold get_song_info, metadata_title. rewrite Hm.
  destruct (tagged_title f) as [t|e]; [|reflexivity].
  destruct (usable_title t) eqn:Hu; [|reflexivity].
  destruct t; [reflexivity|discriminate].
Qed.

Lemma usable_title_iff (t : str) :
  usable_title (Some t) = true <-> t <> [] /\ t <> u "Unknown".
Proof.
  unfold usable_title. rewrite !andb_true_iff, !negb_true_iff, !PyStr_eqb_neq. tauto.
Qed.

(** X21: for a file mutagen can open, [get_song_info] takes the title
    from the tag TIT2 when the file has one, and looks at TITLE only when
    it has no TIT2.  The stripped first value of the tag is the title
    unless it is empty or "Unknown"; in that case, or when the tag has no
    value at all, the title comes from the file name, also when TIT2 is
    the unusable one and TITLE would have been usable. *)
Theorem get_song_info_tag_order (E : Env) (file_path : str) (f : audio_file) :
  MutagenFile E file_path = Ret (Some f) ->
  (forall x rest, tag f (u "TIT2") = Some (x :: rest) ->
     (PyStr.strip x <> [] -> PyStr.strip x <> u "Unknown" ->
      get_song_info E file_path = PyStr.strip x) /\
     (PyStr.strip x = [] \/ PyStr.strip x = u "Unknown" ->
      get_song_info E file_path = filename_title E file_path)) /\
  (tag f (u "TIT2") = Some [] -> get_song_info E file_path = filename_title E file_path) /\
  (tag f (u "TIT2") = None ->
   (forall x rest, tag f (u "TITLE") = Some (x :: rest) ->
      (PyStr.strip x <> [] -> PyStr.strip x <> u "Unknown" ->
       get_song_info E file_path = PyStr.strip x) /\
      (PyStr.strip x = [] \/ PyStr.strip x = u "Unknown" ->
       get_song_info E file_path = filename_title E file_path)) /\
   (tag f (u "TITLE") = Some [] \/ tag f (u "TITLE") = None ->
    get_song_info E file_path = filename_title E file_path)).
Proof.
  intros Hm. rewrite (get_song_info_of_metadata E file_path f Hm).
  assert (Hvalue : forall x,
            (PyStr.strip x <> [] -> PyStr.strip x <> u "Unknown" ->
             (if usable_title (Some (PyStr.strip x)) then default [] (Some (PyStr.strip x))
              else filename_title E file_path) = PyStr.strip x) /\
            (PyStr.strip x = [] \/ PyStr.strip x = u "Unknown" ->
             (if usable_title (Some (PyStr.strip x)) then default [] (Some (PyStr.strip x))
              else filename_title E file_path) = filename_title E file_path)).
  { intros x. split.
    - intros H1 H2. now rewrite (proj2 (usable_title_iff _) (conj H1 H2)).
    - intros H. destruct (usable_title (Some (PyStr.strip x))) eqn:Hu; [|reflexivity].
      apply usable_title_iff in Hu. tauto. }
  unfold tagged_title. split; [|split].
  - intros x rest ->. simpl. apply Hvalue.
  - intros ->. reflexivity.
  - intros ->. split.
    + intros x rest ->. simpl. apply Hvalue.
    + intros [-> | ->]; reflexivity.
Qed.

Lemma get_song_info_tag_order_witness :
  let f := {| tag := fun k => if PyStr.eqb k (u "TIT2") then Some [u " Unknown "]
                              else if PyStr.eqb k (u "TITLE") then Some [u "Real Title"]
                              else None;
              info_length := None |} in
  let E := {| path_exists := fun _ => true; normpath := fun p => p;
              MutagenFile := fun _ => Ret (Some f); music_load := fun _ => None;
              isdecimal := ascii_digit |} in
  get_song_info E (u "07_Intro.mp3") = filename_title E (u "07_Intro.mp3").
Proof.
  intros f E.
  apply (proj1 (get_song_info_tag_order E (u "07_Intro.mp3") f eq_refl) (u " Unknown ") []);
    [reflexivity | right; reflexivity].
Defined.

Lemma lstrip_suffix (s : str) : exists a, s = a ++ PyStr.lstrip s.
Proof.
  induction s as [|c s [a IH]]; simpl.
  - now exists [].
  - destruct (PyStr.isspace c); [|now exists []].
    exists (c :: a). simpl. now f_equal.
Qed.

Lemma lstrip_head (s : str) (c : N) (r : str) :
  PyStr.lstrip s = c :: r -> PyStr.isspace c = false.
Proof.
  induction s as [|d s IH]; simpl; [discriminate|].
  destruct (PyStr.isspace d) eqn:Hd; [exact IH|]. now intros [= <- <-].
Qed.

Lemma strip_trimmed (s : str) (c : N) (r : str) :
  PyStr.strip s = c :: r ->
  PyStr.isspace c = false /\ PyStr.isspace (List.last (c :: r) c) = false.
Proof.
  unfold PyStr.strip, PyStr.rstrip. intros Hs.
  destruct (lstrip_suffix (rev (PyStr.lstrip s))) as [a Ha].
  destruct (PyStr.lstrip (rev (PyStr.lstrip s))) as [|z t] eqn:Hz; [discriminate|].
  pose proof (lstrip_head _ _ _ Hz) as Hzs.
  split.
  - apply (f_equal (@rev N)) in Ha. rewrite rev_involutive, rev_app_distr, Hs in Ha.
    destruct (PyStr.lstrip s) as [|d ds] eqn:Hl; [discriminate|].
    simpl in Ha. injection Ha as <- _. eapply lstrip_head, Hl.
  - rewrite <- Hs. simpl. rewrite last_last. exact Hzs.
Qed.

(** X22: the title [get_song_info] returns is never empty and neither
    starts nor ends with a white-space character. *)
Theorem get_song_info_trimmed (E : Env) (file_path : str) :
  exists c r,
    get_song_info E file_path = c :: r /\
    PyStr.isspace c = false /\ PyStr.isspace (List.last (c :: r) c) = false.
Proof.
  assert (Hfile : exists c r, filename_title E file_path = c :: r /\
            PyStr.isspace c = false /\ PyStr.isspace (List.last (c :: r) c) = false).
  { unfold filename_title.
    destruct (PyStr.strip _) as [|c r] eqn:Hs.
    - exists 85%N, (u "nknown Song"). split; [reflexivity|]. split; reflexivity.
    - exists c, r. split; [reflexivity|]. eapply strip_trimmed, Hs. }
  unfold get_song_info, metadata_title.
  destruct (MutagenFile E file_path) as [[f|]|e]; try exact Hfile.
  destruct (tagged_title f) as [t|e] eqn:Ht; try exact Hfile.
  destruct (usable_title t) eqn:Hu; try exact Hfile.
  destruct t as [t|]; [|discriminate].
  assert (Hstrip : exists x, t = PyStr.strip x).
  { unfold tagged_title in Ht.
    assert (Hfirst : forall v, match first_text v with
                               | Ret t0 => Ret (Some t0) | Raise e0 => Raise e0 end
                               = Ret (Some t) -> exists x, t = PyStr.strip x).
    { intros [|x v]; simpl; [discriminate|]. intros [= <-]. now exists x. }
    destruct (tag f (u "TIT2")) as [v|]; [exact (Hfirst v Ht)|].
    destruct (tag f (u "TITLE")) as [v|]; [exact (Hfirst v Ht)|].
    discriminate. }
  destruct Hstrip as [x ->].
  apply usable_title_iff in Hu as [Hne _].
  destruct (PyStr.strip x) as [|c r] eqn:Hs; [congruence|].
  exists c, r. split; [reflexivity|]. eapply strip_trimmed, Hs.
Qed.

(** X23: the title derived from the file name does not depend on the
    directory: a path and its part after any [/] give the same title, and
    so does [get_song_info] for two such paths without usable tags. *)
Theorem filename_title_ignores_directory (E : Env) (dir name : str) :
  filename_title E (dir ++ OsPath.slash :: name) = filename_title E name /\
  ((forall t, metadata_title E (dir ++ OsPath.slash :: name) <> Ret (Some t)) ->
   (forall t, metadata_title E name <> Ret (Some t)) ->
   get_song_info E (dir ++ OsPath.slash :: name) = get_song_info E name).
Proof.
  assert (Hbase : OsPath.basename (dir ++ OsPath.slash :: name) = OsPath.basename name).
  { unfold OsPath.basename. apply basename_scan_dir. }
  assert (Htitle : filename_title E (dir ++ OsPath.slash :: name) = filename_title E name).
  { unfold filename_title. now rewrite Hbase. }
  split; [exact Htitle|]. intros H1 H2.
  unfold get_song_info.
  destruct (metadata_title E (dir ++ OsPath.slash :: name)) as [[t|]|e];
    [now destruct (H1 t)| |];
    (destruct (metadata_title E name) as [[t'|]|e']; [now destruct (H2 t')| |]); exact Htitle.
Qed.
